(** * Anova sous-vide monitor (homeassistant/components/anova/climate.py)

    A shallow embedding of [AnovaMonitor]: the shared [data] dictionary, the
    poll/command loop of [run], the [request_set_*] entry points and
    [terminate], and of the entity [AnovaClimate] that reads the dictionary
    and hands requests to the monitor, together with the properties of the
    connection manager that the design document states about them and
    further properties of the code.

    The dictionary is a finite map from the string keys of the source to
    Python values; the monitor's attributes are a record that is threaded
    through a state-and-exception monad, so that each method reads like its
    Python text.  Everything the monitor does to the outside world (calls of
    the device client, log records, calls of the registered data handler,
    the idle wait) is appended to a trace. *)

From Stdlib Require Import PrimFloat SpecFloat FloatOps FloatAxioms Uint63 ZArith Ascii String.
From stdpp Require Import gmap strings list fin_maps pretty.

Open Scope string_scope.
Open Scope Z_scope.
Open Scope list_scope.

(** ** Python values held by the dictionary *)

Inductive pyval :=
| PNone
| PBool (b : bool)
| PStr (s : string)
| PFloat (f : float).

(** Python's [==] on these values.  Floats compare as IEEE 754 doubles (a
    NaN differs from itself); [bool] is a subclass of [int], so [True == 1.0]. *)
Definition float_of_bool (b : bool) : float := if b then 1%float else 0%float.

Definition py_eq (a b : pyval) : bool :=
  match a, b with
  | PNone, PNone => true
  | PBool x, PBool y => Bool.eqb x y
  | PStr x, PStr y => String.eqb x y
  | PFloat x, PFloat y => PrimFloat.eqb x y
  | PBool x, PFloat y => PrimFloat.eqb (float_of_bool x) y
  | PFloat x, PBool y => PrimFloat.eqb x (float_of_bool y)
  | _, _ => false
  end.

(** Python's [!=]. *)
Definition py_ne (a b : pyval) : bool := negb (py_eq a b).

(** Truth value of an object, as [if x:] tests it. *)
Definition truthy (v : pyval) : bool :=
  match v with
  | PNone => false
  | PBool b => b
  | PStr s => negb (String.eqb s "")
  | PFloat f => negb (PrimFloat.eqb f 0%float)
  end.

(** ** Constants *)

(** From [homeassistant.const] and [homeassistant.components.climate.const]. *)
Definition CONF_NAME : string := "name".
Definition CONF_MAC : string := "mac".
Definition CONF_TEMPERATURE_UNIT : string := "temperature_unit".
Definition ATTR_CURRENT_TEMPERATURE : string := "current_temperature".
Definition ATTR_HVAC_MODE : string := "hvac_mode".
Definition HVAC_MODE_HEAT : string := "heat".
Definition HVAC_MODE_OFF : string := "off".
Definition TEMP_CELSIUS : string := "°C".
Definition TEMP_FAHRENHEIT : string := "°F".

(** From [pyanova.pyanova]. *)
Definition CTL_START : string := "start".
Definition CTL_STOP : string := "stop".

(** Module constants of climate.py. *)
Definition DEFAULT_CONNECT_TIMEOUT_SEC : Z := 30.
Definition DEFAULT_CMD_TIMEOUT_SEC : Z := 10.
Definition POLLING_CYCLE_SEC : Z := 30.

Definition ATTR_NAME : string := CONF_NAME.
Definition ATTR_MAC : string := CONF_MAC.
Definition ATTR_TEMPERATURE_UNIT : string := CONF_TEMPERATURE_UNIT.
Definition ATTR_TARGET_TEMPERATURE : string := "target_temperature".
Definition ATTR_AVAILABLE : string := "available".
Definition ANOVA_STATE_RUNNING : string := "running".
Definition ANOVA_STATE_STOPPED : string := "stopped".
Definition ANOVA_TEMP_CELCIUS : string := "c".
Definition ANOVA_TEMP_FAHRENHEIT : string := "f".

Definition TEMP_MAP : gmap string pyval :=
  {[ ANOVA_TEMP_CELCIUS := PStr TEMP_CELSIUS;
     ANOVA_TEMP_FAHRENHEIT := PStr TEMP_FAHRENHEIT ]}.
Definition CTL_MAP : gmap string pyval :=
  {[ CTL_START := PStr HVAC_MODE_HEAT; CTL_STOP := PStr HVAC_MODE_OFF ]}.

Definition MON_GET_TEMPERATURE_UNIT : Z := 1.
Definition MON_GET_STATUS : Z := 2.
Definition MON_GET_CURRENT_TEMPERATURE : Z := 3.
Definition MON_GET_TARGET_TEMPERATURE : Z := 4.
Definition MON_IDLE : Z := 5.

(** The three request keys are plain string literals in the source (they are
    not f-strings), so the braces are part of the key. *)
Definition ATTR_CTL_HVAC_MODE : string := "{CTL}_{ATTR_HVAC_MODE}".
Definition ATTR_CTL_TARGET_TEMPERATURE : string := "{CTL}_{ATTR_TARGET_TEMPERATURE}".
Definition ATTR_CTL_TEMPERATURE_UNIT : string := "{CTL}_{ATTR_TEMPERATURE_UNIT}".

(** The ten keys of the dictionary built by [setup_platform]. *)
Definition KEYS : list string :=
  [ ATTR_NAME; ATTR_MAC; ATTR_AVAILABLE; ATTR_CURRENT_TEMPERATURE;
    ATTR_CTL_HVAC_MODE; ATTR_HVAC_MODE; ATTR_CTL_TARGET_TEMPERATURE;
    ATTR_TARGET_TEMPERATURE; ATTR_CTL_TEMPERATURE_UNIT; ATTR_TEMPERATURE_UNIT ].

(** ** Exceptions, the device client, the trace *)

(** The exception classes that [run] tells apart, [KeyError] (a missing
    dictionary key), [AttributeError] (a method looked up on [None]) and any
    other subclass of [Exception]. *)
Inductive exn :=
| ExceptionPexpect
| NotConnectedError
| NotificationTimeout
| RuntimeError
| KeyError
| AttributeError
| OtherException.

(** The operations of the device client ([PyAnova]) that the monitor calls. *)
Inductive device_op :=
| OpConnect
| OpGetUnit
| OpSetUnit (unit : string)
| OpGetStatus
| OpGetCurrentTemperature
| OpGetTargetTemperature
| OpStart
| OpStop
| OpSetTemperature (target_temp : pyval)
| OpDisconnect.

(** What a call of the device client comes back with: a response string, or
    a raised exception. *)
Inductive outcome :=
| Reply (rsp : string)
| Fault (e : exn).

Inductive level := LDebug | LWarn | LError.

Inductive log_arg :=
| ArgNothing
| ArgKey (key : string)
| ArgExn (e : exn).

Inductive event :=
| EvCall (op : device_op)                       (* a request sent to the device client *)
| EvNotify (snapshot : gmap string pyval)       (* [self.data_handler()], with the dictionary the observer then reads *)
| EvLog (lvl : level) (fmt : string) (arg : log_arg)
| EvWait (timeout : Z).                         (* [self.command_event.wait(timeout)] *)

(** ** The monitor object *)

Record monitor := Monitor {
  data : gmap string pyval;     (* self.data *)
  keep_going : bool;            (* self.keep_going *)
  command_event : bool;         (* the flag of self.command_event *)
  device : bool;                (* self.device is a client object (true) or None (false) *)
  trace : list event            (* effects so far, oldest first *)
}.

Definition with_data (d : gmap string pyval) (m : monitor) : monitor :=
  Monitor d (keep_going m) (command_event m) (device m) (trace m).
Definition with_keep_going (b : bool) (m : monitor) : monitor :=
  Monitor (data m) b (command_event m) (device m) (trace m).
Definition with_command_event (b : bool) (m : monitor) : monitor :=
  Monitor (data m) (keep_going m) b (device m) (trace m).
Definition with_device (b : bool) (m : monitor) : monitor :=
  Monitor (data m) (keep_going m) (command_event m) b (trace m).
Definition emit (e : event) (m : monitor) : monitor :=
  Monitor (data m) (keep_going m) (command_event m) (device m) (trace m ++ [e]).

(** ** State and exceptions *)

Inductive result (A : Type) :=
| Ok (a : A)
| Raise (e : exn).
Arguments Ok {A} a.
Arguments Raise {A} e.

(** A method body: it runs on the monitor object, may change it, and either
    returns or raises.  Changes made before a [raise] stay. *)
Definition M (A : Type) : Type := monitor -> result A * monitor.

Definition ret {A} (a : A) : M A := fun m => (Ok a, m).
Definition bind {A B} (c : M A) (f : A -> M B) : M B :=
  fun m => match c m with
           | (Ok a, m') => f a m'
           | (Raise e, m') => (Raise e, m')
           end.

#[global] Instance M_ret : MRet M := @ret.
#[global] Instance M_bind : MBind M := fun A B f c => bind c f.

Definition modify (f : monitor -> monitor) : M unit := fun m => (Ok tt, f m).

(** [self.data[key]] as an expression. *)
Definition getitem (key : string) : M pyval :=
  fun m => match data m !! key with
           | Some v => (Ok v, m)
           | None => (Raise KeyError, m)
           end.

(** [self.data[key] = value]. *)
Definition setitem (key : string) (value : pyval) : M unit :=
  modify (fun m => with_data (<[key := value]> (data m)) m).

(** [self.data_handler()]: the registered observer is told to re-read the
    dictionary ([setup_platform] registers it before the thread starts). *)
Definition data_handler : M unit := modify (fun m => emit (EvNotify (data m)) m).

Definition log (lvl : level) (fmt : string) (arg : log_arg) : M unit :=
  modify (emit (EvLog lvl fmt arg)).

(** A method call on [self.device]: the method is looked up on the object
    (on [None] that raises [AttributeError]), then it is invoked.  The
    arguments of a call are evaluated between the two. *)
Definition device_method : M unit :=
  fun m => if device m then (Ok tt, m) else (Raise AttributeError, m).

Definition invoke (op : device_op) (o : outcome) : M string :=
  fun m => match o with
           | Reply rsp => (Ok rsp, emit (EvCall op) m)
           | Fault e => (Raise e, emit (EvCall op) m)
           end.

Definition device_call (op : device_op) (o : outcome) : M string :=
  device_method;;
  invoke op o.

(** Reading and assigning the monitor's own attributes. *)
Definition self_keep_going : M bool := fun m => (Ok (keep_going m), m).
Definition self_device : M bool := fun m => (Ok (device m), m).

(** [threading.Event]: [set] and [clear] write the flag.  [wait(timeout)]
    returns at once when the flag is set and otherwise suspends the thread
    until another thread sets the flag or [timeout] seconds have passed;
    [event_sleeps] tells which of the two happens on entry.  In the worker's
    own sequence of steps [event_wait] records the wait and returns. *)
Definition event_set : M unit := modify (with_command_event true).
Definition event_clear : M unit := modify (with_command_event false).
Definition event_sleeps (m : monitor) : bool := negb (command_event m).
Definition event_wait (timeout : Z) : M unit := modify (emit (EvWait timeout)).

(** [try: body / finally: fin]: [fin] runs however [body] ends; an exception
    raised by [fin] replaces the result of [body]. *)
Definition try_finally {A} (body : M A) (fin : M unit) : M A :=
  fun m => match body m with
           | (r, m1) => match fin m1 with
                        | (Ok _, m2) => (r, m2)
                        | (Raise e, m2) => (Raise e, m2)
                        end
           end.

(** [try: body / except ...: handler]. *)
Definition try_except {A} (body : M A) (handler : exn -> M A) : M A :=
  fun m => match body m with
           | (Ok a, m1) => (Ok a, m1)
           | (Raise e, m1) => handler e m1
           end.

(** ** AnovaMonitor *)

(** [setup_platform]: the dictionary handed to the monitor.  [name] and [mac]
    come from the platform configuration and [hass_unit] is
    [hass.config.units.temperature_unit]. *)
Definition setup_data (name mac hass_unit : string) : gmap string pyval :=
  <[ATTR_TEMPERATURE_UNIT := PStr hass_unit]>
  (<[ATTR_CTL_TEMPERATURE_UNIT := PStr hass_unit]>
  (<[ATTR_TARGET_TEMPERATURE := PNone]>
  (<[ATTR_CTL_TARGET_TEMPERATURE := PNone]>
  (<[ATTR_HVAC_MODE := PNone]>
  (<[ATTR_CTL_HVAC_MODE := PNone]>
  (<[ATTR_CURRENT_TEMPERATURE := PNone]>
  (<[ATTR_AVAILABLE := PBool false]>
  (<[ATTR_MAC := PStr mac]>
  (<[ATTR_NAME := PStr name]> ∅))))))))).

(** [AnovaMonitor.__init__]. *)
Definition monitor_init (d : gmap string pyval) : monitor :=
  {| data := d; keep_going := true; command_event := false;
     device := false; trace := [] |}.

Definition process_response (value : pyval) (key : string) : M unit :=
  if py_eq value PNone then
    log LWarn "Received %s for %s: %s" (ArgKey key)
  else
    stored ← getitem key;
    if py_ne value stored then
      setitem key value;;
      available ← getitem ATTR_AVAILABLE;
      if truthy available then data_handler else mret tt
    else mret tt.

Definition handle_map (rsp : string) (values : gmap string pyval) : pyval :=
  match values !! rsp with
  | Some v => v
  | None => PNone
  end.

(** ** Worked instances of the built-ins

    For the examples below the two built-ins are instantiated on the part of
    their domain the device uses: plain decimal numerals.  [float_of_decimal]
    reads an optional sign, digits, and an optional point followed by digits,
    up to fifteen digits in all (there the quotient of the two exactly
    represented integers is the correctly rounded value, which is what
    [float] returns); on every other string it gives [None], so exponent
    forms, [inf], [nan] and surrounding blanks are outside it.
    [str_of_tenths] renders a float that equals [k/10] for a natural
    [k < 1000] the way [str] does (["72.5"], ["60.0"]) and is the empty
    string elsewhere. *)

Definition digit_of (c : ascii) : option Z :=
  let n := Z.of_N (N_of_ascii c) in
  if (48 <=? n) && (n <=? 57) then Some (n - 48) else None.

(** Digits up to an optional point: the value read, and the rest after the
    point. *)
Fixpoint read_digits (s : string) (acc : Z) (count : nat) : option (Z * nat * option string) :=
  match s with
  | EmptyString => Some (acc, count, None)
  | String c s' =>
      if Ascii.eqb c "."%char then Some (acc, count, Some s')
      else match digit_of c with
           | Some d => read_digits s' (10 * acc + d) (S count)
           | None => None
           end
  end.

Definition float_of_Z (n : Z) : float := PrimFloat.of_uint63 (Uint63.of_Z n).

Definition unsigned_decimal (s : string) : option float :=
  match read_digits s 0 0 with
  | Some (whole, n, None) =>
      if bool_decide (0 < n ≤ 15)%nat then Some (float_of_Z whole) else None
  | Some (whole, n, Some rest) =>
      match read_digits rest whole 0 with
      | Some (mantissa, k, None) =>
          if bool_decide (0 < n + k ≤ 15)%nat
          then Some (float_of_Z mantissa / float_of_Z (10 ^ Z.of_nat k))%float
          else None
      | _ => None
      end
  | None => None
  end.

Definition float_of_decimal (s : string) : option float :=
  match s with
  | String "-" s' => PrimFloat.opp <$> unsigned_decimal s'
  | String "+" s' => unsigned_decimal s'
  | _ => unsigned_decimal s
  end.

Fixpoint find_tenths (fuel : nat) (k : Z) (f : float) : option Z :=
  match fuel with
  | O => None
  | S fuel' =>
      if PrimFloat.eqb (float_of_Z k / 10)%float f then Some k
      else find_tenths fuel' (k + 1) f
  end.

Definition str_of_tenths (f : float) : string :=
  match find_tenths 1000 0 f with
  | Some k => pretty (k `div` 10) +:+ "." +:+ pretty (k `mod` 10)
  | None => ""
  end.

(** ** Vocabulary of the statements *)

(** Every key that [setup_platform] creates is present, so that
    [self.data[key]] does not raise. *)
Definition has_keys (d : gmap string pyval) : Prop :=
  Forall (fun k => is_Some (d !! k)) KEYS.

(** The value under [key] is there and is not [None]. *)
Definition known (d : gmap string pyval) (key : string) : Prop :=
  exists v, d !! key = Some v /\ v <> PNone.

(** [data[ATTR_AVAILABLE]] is there and true. *)
Definition is_available (d : gmap string pyval) : Prop :=
  exists v, d !! ATTR_AVAILABLE = Some v /\ truthy v = true.

(** Projections of a trace: the device operations requested, the
    dictionaries shown to the observer, and the worker's actions (device
    requests and idle waits) in order. *)
Definition calls (t : list event) : list device_op :=
  omap (fun e => match e with EvCall op => Some op | _ => None end) t.

Definition snapshots (t : list event) : list (gmap string pyval) :=
  omap (fun e => match e with EvNotify d => Some d | _ => None end) t.

Definition actions (t : list event) : list event :=
  omap (fun e => match e with
                 | EvCall _ | EvWait _ => Some e
                 | _ => None
                 end) t.

Definition is_disconnect (op : device_op) : bool :=
  match op with OpDisconnect => true | _ => false end.

(** How often [disconnect] was requested. *)
Definition disconnects (t : list event) : nat :=
  length (filter (fun op => is_disconnect op = true) (calls t)).

(** The record [process_response] logs for a response without a value. *)
Definition warned (key : string) : event :=
  EvLog LWarn "Received %s for %s: %s" (ArgKey key).

(** [m'] continues [m]: its trace is the trace of [m] followed by [evs]. *)
Definition appended (m m' : monitor) (evs : list event) : Prop :=
  trace m' = trace m ++ evs.

(** Weakest precondition of a method body: [Q] holds of the way it ends. *)
Definition wp {A} (c : M A) (Q : result A -> monitor -> Prop) (m : monitor) : Prop :=
  Q (c m).1 (c m).2.

(** The seven methods that talk to the device share one shape: one call of
    the client, whose response is decoded and handed to
    [process_response]. *)
Definition exchange (op : device_op) (decode : string -> pyval) (key : string)
    (o : outcome) : M unit :=
  rsp ← device_call op o;
  process_response (decode rsp) key.

(** What one exchange leaves behind: the attributes are as before, the
    dictionary differs at most under [key], where a value that is not
    [None] may have been stored, and the trace has grown by the request and
    at most one notification, shown while [available] is true. *)
Record exchanged (op : device_op) (key : string) (o : outcome)
    (m : monitor) (r : result unit) (m' : monitor) : Prop := Exchanged {
  ex_keep_going : keep_going m' = keep_going m;
  ex_command_event : command_event m' = command_event m;
  ex_device : device m' = device m;
  ex_frame : forall k, k <> key -> data m' !! k = data m !! k;
  ex_key : data m' = data m \/ known (data m') key;
  ex_keys : has_keys (data m) -> has_keys (data m');
  ex_trace : exists evs, appended m m' evs /\
               actions evs = (if device m then [EvCall op] else []) /\
               forall s, s ∈ snapshots evs -> s = data m' /\ is_available s;
  ex_fault : forall e, device m = true -> o = Fault e ->
               r = Raise e /\ data m' = data m;
  ex_reply : forall rsp, device m = true -> o = Reply rsp ->
               is_Some (data m !! key) -> is_Some (data m !! ATTR_AVAILABLE) ->
               r = Ok tt
}.

(** The three readings that [available] stands for. *)
Definition readings_known (d : gmap string pyval) : Prop :=
  known d ATTR_CURRENT_TEMPERATURE /\ known d ATTR_TARGET_TEMPERATURE /\
  known d ATTR_TEMPERATURE_UNIT.

(** A property of the dictionary holds now and held at every notification. *)
Definition throughout (I : gmap string pyval -> Prop) (m : monitor) : Prop :=
  I (data m) /\ Forall I (snapshots (trace m)).

(** A method body keeps [P]: run from a monitor where [P] holds, it ends,
    normally or not, in one where [P] holds. *)
Definition keeps {A} (P : monitor -> Prop) (c : M A) : Prop :=
  forall m, P m -> wp c (fun _ m' => P m') m.

(** [P] survives what the [if]/[elif] chain of the inner loop does to the
    monitor: storing a value that is not [None] under a key other than
    [available], emptying a request field, a notification made while
    [available] is true, a log record, the idle wait, a device request other
    than [disconnect], and a write of the event flag or of [keep_going]. *)
Record quiet (P : monitor -> Prop) : Prop := Quiet {
  q_store : forall m key value,
    key <> ATTR_AVAILABLE -> value <> PNone -> P m ->
    P (with_data (<[key:=value]> (data m)) m);
  q_clear : forall m key,
    key ∈ [ATTR_CTL_TEMPERATURE_UNIT; ATTR_CTL_TARGET_TEMPERATURE; ATTR_CTL_HVAC_MODE] ->
    P m -> P (with_data (<[key:=PNone]> (data m)) m);
  q_notify : forall m, is_available (data m) -> P m -> P (emit (EvNotify (data m)) m);
  q_log : forall m lvl fmt arg, P m -> P (emit (EvLog lvl fmt arg) m);
  q_wait : forall m timeout, P m -> P (emit (EvWait timeout) m);
  q_call : forall m op, is_disconnect op = false -> P m -> P (emit (EvCall op) m);
  q_command_event : forall m b, P m -> P (with_command_event b m);
  q_keep_going : forall m b, P m -> P (with_keep_going b m)
}.

(** ... and a notification made at any time, as the [request_set_*]
    methods make it. *)
Record requesting (P : monitor -> Prop) : Prop := Requesting {
  rq_quiet : quiet P;
  rq_notify : forall m, P m -> P (emit (EvNotify (data m)) m)
}.

(** ... and the two writes of [available]: to false at any time, to true
    when the three readings are known. *)
Record closed (P : monitor -> Prop) : Prop := Closed {
  cl_requesting : requesting P;
  cl_down : forall m, P m -> P (with_data (<[ATTR_AVAILABLE:=PBool false]> (data m)) m);
  cl_up : forall m, readings_known (data m) -> P m ->
    P (with_data (<[ATTR_AVAILABLE:=PBool true]> (data m)) m)
}.

(** ... and what the end of a connection does: the [disconnect] request and
    dropping the client object. *)
Record closed_teardown (P : monitor -> Prop) : Prop := ClosedTeardown {
  ct_closed : closed P;
  ct_disconnect : forall m, P m -> P (emit (EvCall OpDisconnect) m);
  ct_device : forall m b, P m -> P (with_device b m)
}.

(** A property of the dictionary that the worker's writes keep. *)
Record stable (I : gmap string pyval -> Prop) : Prop := Stable {
  sb_store : forall d key value,
    key <> ATTR_AVAILABLE -> value <> PNone -> I d -> I (<[key:=value]> d);
  sb_clear : forall d key,
    key ∈ [ATTR_CTL_TEMPERATURE_UNIT; ATTR_CTL_TARGET_TEMPERATURE; ATTR_CTL_HVAC_MODE] ->
    I d -> I (<[key:=PNone]> d);
  sb_down : forall d, I d -> I (<[ATTR_AVAILABLE:=PBool false]> d);
  sb_up : forall d, readings_known d -> I d -> I (<[ATTR_AVAILABLE:=PBool true]> d)
}.

(** Since the trace was [t0], every notification was made while
    [available] was true. *)
Definition shown_available (t0 : list event) (m : monitor) : Prop :=
  exists evs, trace m = t0 ++ evs /\ Forall is_available (snapshots evs).

(** The dictionaries agree except perhaps under [available]. *)
Definition same_but_available (m m' : monitor) : Prop :=
  forall k, k <> ATTR_AVAILABLE -> data m' !! k = data m !! k.

(** A request field holds a request. *)
Definition is_set (field : option pyval) : bool :=
  match field with
  | Some PNone | None => false
  | Some _ => true
  end.

(** How many request fields held a request before and none after. *)
Definition consumed (before after : list (option pyval)) : nat :=
  length (filter (fun ba => is_set ba.1 && negb (is_set ba.2) = true)
                 (zip before after)).

(** The dictionary after [request_set_hvac_mode], [request_set_temperature]
    and a [request_set_temperature_unit] that writes: the request field and
    the live field hold the requested value. *)
Definition requested (ctl live : string) (v : pyval) (d : gmap string pyval) :
    gmap string pyval :=
  <[live:=v]> (<[ctl:=v]> d).

(** The monitor after a request that writes: both fields written, the event
    set, the observer notified. *)
Definition after_request (ctl live : string) (v : pyval) (m : monitor) : monitor :=
  let d' := requested ctl live v (data m) in
  emit (EvNotify d') (with_command_event true (with_data d' m)).

(** The monitor after the [finally] clause, given the monitor [m1] that
    lines 457-459 leave: [disconnect] is requested if the client is there,
    and if it raises, the exception is logged. *)
Definition disconnected (o : outcome) (m1 : monitor) : monitor :=
  if device m1 then
    match o with
    | Reply _ => emit (EvCall OpDisconnect) m1
    | Fault ex => emit (EvLog LDebug "%s" (ArgExn ex)) (emit (EvCall OpDisconnect) m1)
    end
  else m1.

(** From [m] to [m'] the client and [keep_going] are as before, no key was
    lost, and the dictionary changed at most under [available]. *)
Record kept (m m' : monitor) : Prop := Kept {
  kp_device : device m' = device m;
  kp_keep_going : keep_going m' = keep_going m;
  kp_keys : has_keys (data m) -> has_keys (data m');
  kp_frame : same_but_available m m'
}.

(** The monitor after [available] has been written and the observer told:
    the dictionary with the new flag, and one more event, the notification
    that shows it. *)
Definition turned (flag : bool) (m : monitor) : monitor :=
  let d' := <[ATTR_AVAILABLE:=PBool flag]> (data m) in
  emit (EvNotify d') (with_data d' m).

(** The client is there, no key is missing, and [disconnect] has been
    requested [n] times. *)
Definition settled (n : nat) (m : monitor) : Prop :=
  device m = true /\ has_keys (data m) /\ disconnects (trace m) = n.

(** [available] is only true when the three readings are known. *)
Definition available_sound (d : gmap string pyval) : Prop :=
  is_available d -> readings_known d.

(** The three request fields, in the order the worker looks at them. *)
Definition pending (d : gmap string pyval) : list (option pyval) :=
  [ d !! ATTR_CTL_TEMPERATURE_UNIT; d !! ATTR_CTL_TARGET_TEMPERATURE;
    d !! ATTR_CTL_HVAC_MODE ].

(** *** The priority rule as the design document words it

    "If a pending temperature-unit command exists, execute it, clear it;
    else if a pending target-temperature command exists, execute it, clear
    it; else if a pending hvac-mode command exists, execute it (start if
    Heat, stop if Off), clear it; else advance the poll sequence
    GetTemperatureUnit, GetStatus, GetCurrentTemperature,
    GetTargetTemperature, Idle." *)
Definition spec_poll (next_command : Z) : event :=
  if next_command =? MON_GET_TEMPERATURE_UNIT then EvCall OpGetUnit
  else if next_command =? MON_GET_STATUS then EvCall OpGetStatus
  else if next_command =? MON_GET_CURRENT_TEMPERATURE then EvCall OpGetCurrentTemperature
  else if next_command =? MON_GET_TARGET_TEMPERATURE then EvCall OpGetTargetTemperature
  else EvWait POLLING_CYCLE_SEC.

Definition spec_action (unit_ target mode : pyval) (next_command : Z) : event :=
  match unit_, target, mode with
  | PNone, PNone, PNone => spec_poll next_command
  | PNone, PNone, _ =>
      EvCall (if py_eq mode (PStr HVAC_MODE_HEAT) then OpStart else OpStop)
  | PNone, _, _ => EvCall (OpSetTemperature target)
  | _, _, _ =>
      EvCall (OpSetUnit (if py_eq unit_ (PStr TEMP_CELSIUS)
                         then ANOVA_TEMP_CELCIUS else ANOVA_TEMP_FAHRENHEIT))
  end.

(** [next_command] after the pass. *)
Definition spec_next (unit_ target mode : pyval) (next_command : Z) : Z :=
  match unit_, target, mode with
  | PNone, PNone, PNone =>
      if next_command =? MON_GET_TEMPERATURE_UNIT then MON_GET_STATUS
      else if next_command =? MON_GET_STATUS then MON_GET_CURRENT_TEMPERATURE
      else if next_command =? MON_GET_CURRENT_TEMPERATURE then MON_GET_TARGET_TEMPERATURE
      else if next_command =? MON_GET_TARGET_TEMPERATURE then MON_IDLE
      else MON_GET_STATUS
  | _, _, _ => next_command
  end.

(** The request fields after the pass: the one that was served is empty,
    the others are as they were. *)
Definition spec_pending (unit_ target mode : pyval) : list (option pyval) :=
  match unit_, target, mode with
  | PNone, PNone, _ => [Some PNone; Some PNone; Some PNone]
  | PNone, _, _ => [Some PNone; Some PNone; Some mode]
  | _, _, _ => [Some PNone; Some target; Some mode]
  end.

Definition is_wait (e : event) : bool :=
  match e with EvWait _ => true | _ => false end.

(** What lines 401-409 leave behind. *)
Record refreshed (m : monitor) (r : result unit) (m' : monitor) : Prop := Refreshed {
  rf_keep_going : keep_going m' = keep_going m;
  rf_command_event : command_event m' = command_event m;
  rf_device : device m' = device m;
  rf_frame : forall k, k <> ATTR_AVAILABLE -> data m' !! k = data m !! k;
  rf_available : is_available (data m) -> is_available (data m');
  rf_keys : has_keys (data m) -> has_keys (data m');
  rf_trace : exists evs, appended m m' evs /\ actions evs = [] /\
               forall s, s ∈ snapshots evs -> s = data m' /\ is_available s;
  rf_result : has_keys (data m) -> r = Ok tt
}.

(** The worker has moved from [m] to [m'] doing [acts]: [keep_going] and
    the client are as before, no key was lost, [available] has not turned
    false, and whatever was notified on the way was notified while
    [available] was true. *)
Record stepped (acts : list event) (m m' : monitor) : Prop := Stepped {
  st_keep_going : keep_going m' = keep_going m;
  st_device : device m' = device m;
  st_keys : has_keys (data m) -> has_keys (data m');
  st_available : is_available (data m) -> is_available (data m');
  st_trace : exists evs, appended m m' evs /\ actions evs = acts /\
               forall s, s ∈ snapshots evs -> is_available s
}.

(** What one pass of the inner loop leaves behind, when the request fields
    held [unit_], [target] and [mode] on entry: the one action the priority
    rule names; when the device answers (or the action is the idle wait)
    the pass ends normally with the served request field emptied; when the
    device call raises, the pass ends with that exception and the request
    fields are as they were. *)
Record passed (unit_ target mode : pyval) (o : outcome) (next_command : Z)
    (m : monitor) (r : result Z) (m' : monitor) : Prop := Passed {
  pa_stepped : stepped [spec_action unit_ target mode next_command] m m';
  pa_served :
    is_wait (spec_action unit_ target mode next_command) = true \/
    (exists rsp, o = Reply rsp) ->
    r = Ok (spec_next unit_ target mode next_command) /\
    pending (data m') = spec_pending unit_ target mode;
  pa_fault : forall e,
    is_wait (spec_action unit_ target mode next_command) = false ->
    o = Fault e ->
    r = Raise e /\ pending (data m') = pending (data m)
}.

(** The claim of the design document about start-up, as it is worded: every
    optional field is empty and [available] is false. *)
Definition created_empty (d : gmap string pyval) : Prop :=
  d !! ATTR_CURRENT_TEMPERATURE = Some PNone /\
  d !! ATTR_TARGET_TEMPERATURE = Some PNone /\
  d !! ATTR_CTL_TEMPERATURE_UNIT = Some PNone /\
  d !! ATTR_CTL_TARGET_TEMPERATURE = Some PNone /\
  d !! ATTR_CTL_HVAC_MODE = Some PNone /\
  d !! ATTR_AVAILABLE = Some (PBool false).

(** ** Examples: a monitor as [setup_platform] and [run] leave it *)

Definition boot : monitor :=
  monitor_init (setup_data "Anova" "F4:5E:AB:12:34:56" TEMP_CELSIUS).

(** The same monitor once [run] has created the device client. *)
Definition booted : monitor := with_device true boot.

(** ** The entity and the dictionary it reads *)

(** From [homeassistant.const] and [homeassistant.components.climate.const]. *)
Definition ATTR_TEMPERATURE : string := "temperature".
Definition PRECISION_WHOLE : float := 1.     (* the integer 1 *)
Definition PRECISION_HALVES : float := 0.5.
Definition SUPPORT_TARGET_TEMPERATURE : Z := 1.

(** Module constants of climate.py that the entity uses. *)
Definition DEFAULT_MIN_TEMP : Z := 0.
Definition DEFAULT_MAX_TEMP : Z := 99.
Definition HVAC_MODES : list string := [HVAC_MODE_OFF; HVAC_MODE_HEAT].
Definition SUPPORTED_FEATURES : Z := SUPPORT_TARGET_TEMPERATURE.

(** The worker can run: no key is missing and the client object is there. *)
Definition ready (m : monitor) : Prop := has_keys (data m) /\ device m = true.

(** A float that is a number: it equals itself, which a NaN does not. *)
Definition is_number (x : float) : bool := PrimFloat.eqb x x.

(** How often the unit was polled. *)
Definition is_get_unit (op : device_op) : bool :=
  match op with OpGetUnit => true | _ => false end.

Definition unit_polls (t : list event) : nat :=
  length (filter (fun op => is_get_unit op = true) (calls t)).

(** The kinds of value a field of the dictionary holds. *)
Definition none_or (p : pyval -> bool) (v : pyval) : bool :=
  match v with PNone => true | _ => p v end.
Definition is_bool (v : pyval) : bool :=
  match v with PBool _ => true | _ => false end.
Definition is_str (v : pyval) : bool :=
  match v with PStr _ => true | _ => false end.
Definition is_float (v : pyval) : bool :=
  match v with PFloat _ => true | _ => false end.
Definition is_unit (v : pyval) : bool :=
  py_eq v (PStr TEMP_CELSIUS) || py_eq v (PStr TEMP_FAHRENHEIT).

(** What each key of the dictionary of [setup_platform] holds, for an entity
    configured with [name] and [mac]: the two configured strings, the
    [available] flag, one of the two temperature units, and for the other
    fields [None] or a value of the field's kind.  No other key is there. *)
Definition typed (name mac : string) (key : string) (v : pyval) : bool :=
  if String.eqb key ATTR_NAME then py_eq v (PStr name)
  else if String.eqb key ATTR_MAC then py_eq v (PStr mac)
  else if String.eqb key ATTR_AVAILABLE then is_bool v
  else if String.eqb key ATTR_TEMPERATURE_UNIT then is_unit v
  else if String.eqb key ATTR_CTL_TEMPERATURE_UNIT then none_or is_str v
  else if String.eqb key ATTR_CURRENT_TEMPERATURE then none_or is_float v
  else if String.eqb key ATTR_TARGET_TEMPERATURE then none_or is_float v
  else if String.eqb key ATTR_CTL_TARGET_TEMPERATURE then none_or is_float v
  else if String.eqb key ATTR_HVAC_MODE then none_or is_str v
  else if String.eqb key ATTR_CTL_HVAC_MODE then none_or is_str v
  else false.

Definition well_formed (name mac : string) (d : gmap string pyval) : Prop :=
  has_keys d /\ map_Forall (fun key v => typed name mac key v = true) d.

Section Anova.

(** Python's built-in conversions, as far as the monitor uses them:
    [float(rsp)] on a response string ([None] when it raises), and [str(x)]
    on a float. *)
Variable py_float : string -> option float.
Variable py_str_float : float -> string.

Definition py_str (v : pyval) : string :=
  match v with
  | PNone => "None"
  | PBool true => "True"
  | PBool false => "False"
  | PStr s => s
  | PFloat f => py_str_float f
  end.

Definition handle_float (rsp : string) : pyval :=
  match py_float rsp with
  | Some value => PFloat value
  | None => PNone
  end.

Definition get_temperature_unit (o : outcome) : M unit :=
  rsp ← device_call OpGetUnit o;
  let value := handle_map rsp
                 {[ ANOVA_TEMP_CELCIUS := PStr TEMP_CELSIUS;
                    ANOVA_TEMP_FAHRENHEIT := PStr TEMP_FAHRENHEIT ]} in
  process_response value CONF_TEMPERATURE_UNIT.

Definition set_temperature_unit (unit_ : string) (o : outcome) : M unit :=
  rsp ← device_call (OpSetUnit unit_) o;
  let value := handle_map rsp TEMP_MAP in
  process_response value CONF_TEMPERATURE_UNIT.

Definition get_status (o : outcome) : M unit :=
  rsp ← device_call OpGetStatus o;
  let value := handle_map rsp
                 {[ ANOVA_STATE_RUNNING := PStr HVAC_MODE_HEAT;
                    ANOVA_STATE_STOPPED := PStr HVAC_MODE_OFF ]} in
  process_response value ATTR_HVAC_MODE.

Definition get_current_temperature (o : outcome) : M unit :=
  rsp ← device_call OpGetCurrentTemperature o;
  let value := handle_float rsp in
  process_response value ATTR_CURRENT_TEMPERATURE.

Definition get_target_temperature (o : outcome) : M unit :=
  rsp ← device_call OpGetTargetTemperature o;
  let value := handle_float rsp in
  process_response value ATTR_TARGET_TEMPERATURE.

Definition send_start (start : bool) (o : outcome) : M unit :=
  rsp ← (if start then device_call OpStart o else device_call OpStop o);
  let value := handle_map rsp CTL_MAP in
  process_response value ATTR_HVAC_MODE.

Definition set_target_temperature (temperature : pyval) (o : outcome) : M unit :=
  rsp ← device_call (OpSetTemperature temperature) o;
  let value := handle_map rsp {[ py_str temperature := temperature ]} in
  process_response value ATTR_TARGET_TEMPERATURE.

Definition request_set_hvac_mode (hvac_mode : string) : M unit :=
  setitem ATTR_CTL_HVAC_MODE (PStr hvac_mode);;
  setitem ATTR_HVAC_MODE (PStr hvac_mode);;
  event_set;;
  data_handler.

Definition request_set_temperature (temperature : float) : M unit :=
  setitem ATTR_CTL_TARGET_TEMPERATURE (PFloat temperature);;
  setitem ATTR_TARGET_TEMPERATURE (PFloat temperature);;
  event_set;;
  data_handler.

Definition request_set_temperature_unit (unit_ : string) : M unit :=
  current ← getitem CONF_TEMPERATURE_UNIT;
  if py_ne (PStr unit_) current then
    setitem ATTR_CTL_TEMPERATURE_UNIT (PStr unit_);;
    setitem ATTR_TEMPERATURE_UNIT (PStr unit_);;
    event_set;;
    data_handler
  else mret tt.

(** [terminate], up to the [join]: what the worker can see of it. *)
Definition terminate : M unit :=
  modify (with_keep_going false);;
  event_set.

(** *** The body of [run] *)

(** Lines 372-374 and again 457-459. *)
Definition mark_unavailable : M unit :=
  available ← getitem ATTR_AVAILABLE;
  if truthy available then
    setitem ATTR_AVAILABLE (PBool false);;
    data_handler
  else mret tt.

(** Lines 378-396: the connection attempt with its two debug records. *)
Definition connect (o : outcome) : M unit :=
  log LDebug "Connecting to {0} with timeout after {1} seconds" ArgNothing;;
  device_method;;
  _ ← getitem ATTR_NAME;
  _ ← getitem ATTR_MAC;
  _ ← invoke OpConnect o;
  _ ← getitem ATTR_NAME;
  _ ← getitem ATTR_MAC;
  log LDebug "Subscribed to %s (%s)" ArgNothing.

(** Lines 401-409. [and] evaluates its right operand only when the left one
    is true. *)
Definition refresh_available : M unit :=
  current ← getitem ATTR_CURRENT_TEMPERATURE;
  available ←
    (if py_ne current PNone then
       target ← getitem ATTR_TARGET_TEMPERATURE;
       if py_ne target PNone then
         unit ← getitem ATTR_TEMPERATURE_UNIT;
         mret (py_ne unit PNone)
       else mret false
     else mret false);
  flag ← getitem ATTR_AVAILABLE;
  if negb (truthy flag) && available then
    setitem ATTR_AVAILABLE (PBool true);;
    data_handler
  else mret tt.

(** Lines 411-443: the [if]/[elif] chain.  [o] is what the device client
    answers to the call made in this pass; the value returned is
    [next_command] at the end of the pass. *)
Definition dispatch (o : outcome) (next_command : Z) : M Z :=
  ctl_unit ← getitem ATTR_CTL_TEMPERATURE_UNIT;
  if py_ne ctl_unit PNone then
    ctl_unit' ← getitem ATTR_CTL_TEMPERATURE_UNIT;
    let unit := if py_eq ctl_unit' (PStr TEMP_CELSIUS)
                then ANOVA_TEMP_CELCIUS else ANOVA_TEMP_FAHRENHEIT in
    set_temperature_unit unit o;;
    setitem ATTR_CTL_TEMPERATURE_UNIT PNone;;
    mret next_command
  else
  ctl_target ← getitem ATTR_CTL_TARGET_TEMPERATURE;
  if py_ne ctl_target PNone then
    temperature ← getitem ATTR_CTL_TARGET_TEMPERATURE;
    set_target_temperature temperature o;;
    setitem ATTR_CTL_TARGET_TEMPERATURE PNone;;
    mret next_command
  else
  ctl_mode ← getitem ATTR_CTL_HVAC_MODE;
  if py_ne ctl_mode PNone then
    ctl_mode' ← getitem ATTR_CTL_HVAC_MODE;
    send_start (py_eq ctl_mode' (PStr HVAC_MODE_HEAT)) o;;
    setitem ATTR_CTL_HVAC_MODE PNone;;
    mret next_command
  else if next_command =? MON_GET_TEMPERATURE_UNIT then
    get_temperature_unit o;;
    mret MON_GET_STATUS
  else if next_command =? MON_GET_STATUS then
    get_status o;;
    mret MON_GET_CURRENT_TEMPERATURE
  else if next_command =? MON_GET_CURRENT_TEMPERATURE then
    get_current_temperature o;;
    mret MON_GET_TARGET_TEMPERATURE
  else if next_command =? MON_GET_TARGET_TEMPERATURE then
    get_target_temperature o;;
    mret MON_IDLE
  else
    event_clear;;
    event_wait POLLING_CYCLE_SEC;;
    mret MON_GET_STATUS.

(** Lines 401-443: one pass through the body of the inner [while]. *)
Definition loop_body (o : outcome) (next_command : Z) : M Z :=
  refresh_available;;
  dispatch o next_command.

(** Calls made on the monitor by other threads. *)
Inductive api_call :=
| RequestSetHvacMode (hvac_mode : string)
| RequestSetTemperature (temperature : float)
| RequestSetTemperatureUnit (unit : string)
| Terminate.

(** The call runs in the caller's thread: whatever it raises stays there,
    what it did to the monitor is seen by the worker. *)
Definition arrive (c : api_call) (m : monitor) : monitor :=
  snd (match c with
       | RequestSetHvacMode hvac_mode => request_set_hvac_mode hvac_mode m
       | RequestSetTemperature temperature => request_set_temperature temperature m
       | RequestSetTemperatureUnit unit => request_set_temperature_unit unit m
       | Terminate => terminate m
       end).

Definition arrivals (cs : list api_call) : M unit :=
  modify (fun m => foldl (fun m c => arrive c m) m cs).

(** One pass of the inner loop as the environment drives it: the calls of
    other threads that have landed since the previous loop test, and the
    device client's answer to the call this pass makes. *)
Record tick := Tick {
  landed : list api_call;
  answer : outcome
}.

Inductive loop_end :=
| LoopLeft                          (* [self.keep_going] was found false *)
| LoopRunning (next_command : Z).   (* the ticks ran out before the loop ended *)

(** Lines 400-443: the inner [while self.keep_going]. *)
Fixpoint connected_loop (ticks : list tick) (next_command : Z) : M loop_end :=
  match ticks with
  | [] =>
      going ← self_keep_going;
      if (going : bool) then mret (LoopRunning next_command) else mret LoopLeft
  | t :: ticks' =>
      arrivals (landed t);;
      going ← self_keep_going;
      if (going : bool) then
        next_command' ← loop_body (answer t) next_command;
        connected_loop ticks' next_command'
      else mret LoopLeft
  end.

(** Lines 445-455: the [except] clauses, tried in order. *)
Definition handle_exception (ex : exn) : M unit :=
  match ex with
  | ExceptionPexpect =>
      modify (with_keep_going false);;
      modify (with_device false)
  | NotConnectedError => log LError "Unable to connect: %s" (ArgExn ex)
  | NotificationTimeout => log LError "Unable to subscribe: %s" (ArgExn ex)
  | RuntimeError => log LError "Unable to send command: %s" (ArgExn ex)
  | _ => log LWarn "%s" (ArgExn ex)
  end.

(** Lines 456-467: the [finally] clause.  [o] is what [disconnect] comes
    back with if it is called.  (Line 461 assigns an attribute that nothing
    reads.) *)
Definition cleanup (o : outcome) : M unit :=
  mark_unavailable;;
  try_except
    (present ← self_device;
     if (present : bool) then _ ← device_call OpDisconnect o; mret tt else mret tt)
    (fun ex => log LDebug "%s" (ArgExn ex)).

Record session_input := SessionInput {
  early : list api_call;        (* calls landed before the outer loop test *)
  connect_answer : outcome;
  ticks : list tick;
  disconnect_answer : outcome
}.

Inductive session_end :=
| Stopped                   (* the inner loop ended and [break] left the outer loop *)
| Recovered (ex : exn)      (* an exception was handled; back to the outer loop test *)
| Connected (next_command : Z).   (* the ticks ran out inside the inner loop *)

(** Lines 376-467: the [try] statement.  A pass whose ticks run out is still
    inside the [try] block, so neither the handlers nor the [finally] clause
    have run. *)
Definition guarded (i : session_input) : M session_end :=
  fun m =>
    match (connect (connect_answer i);;
           connected_loop (ticks i) MON_GET_TEMPERATURE_UNIT) m with
    | (Ok (LoopRunning next_command), m1) => (Ok (Connected next_command), m1)
    | (Ok LoopLeft, m1) =>
        try_finally (mret Stopped) (cleanup (disconnect_answer i)) m1
    | (Raise ex, m1) =>
        try_finally (handle_exception ex;; mret (Recovered ex))
                    (cleanup (disconnect_answer i)) m1
    end.

(** Lines 372-467: one pass through the body of the outer [while]. *)
Definition session (i : session_input) : M session_end :=
  mark_unavailable;;
  guarded i.

Inductive run_end :=
| Returned      (* [run] returned: the thread has ended *)
| Running.      (* the script ran out first *)

(** Line 371: the outer [while self.keep_going]. *)
Fixpoint run_sessions (script : list session_input) : M run_end :=
  match script with
  | [] =>
      going ← self_keep_going;
      if (going : bool) then mret Running else mret Returned
  | i :: script' =>
      arrivals (early i);;
      going ← self_keep_going;
      if (going : bool) then
        e ← session i;
        match e with
        | Stopped => mret Returned
        | Recovered _ => run_sessions script'
        | Connected _ => mret Running
        end
      else mret Returned
  end.

(** From an exception raised inside the [try] block to the next connection:
    the handler and the [finally] clause of this pass of the outer loop, then
    lines 372-396 of the next pass. *)
Definition recover (ex : exn) (disconnect_answer connect_answer : outcome) : M unit :=
  handle_exception ex;;
  cleanup disconnect_answer;;
  mark_unavailable;;
  connect connect_answer.

(** [run]: the client object is created, then the outer loop runs. *)
Definition run (script : list session_input) : M run_end :=
  modify (with_device true);;
  run_sessions script.

(** ** AnovaClimate

    The entity reads the monitor's dictionary and hands requests to the
    monitor; its methods run in the caller's thread, on the monitor as it is
    at that moment. *)

Section Climate.

(** [homeassistant.util.temperature.convert], called with the two integer
    bounds, [TEMP_CELSIUS] and the unit the dictionary holds: the converted
    bound, or the exception it raises for a unit it does not know. *)
Variable convert_temperature : Z -> string -> pyval -> result float.

(** A call that does not touch the monitor. *)
Definition pure_call {A} (r : result A) : M A := fun m => (r, m).

Definition should_poll : bool := false.

Definition unique_id : M pyval := getitem ATTR_MAC.

Definition supported_features : Z := SUPPORTED_FEATURES.

Definition temperature_unit : M pyval := getitem ATTR_TEMPERATURE_UNIT.

Definition available : M pyval := getitem ATTR_AVAILABLE.

Definition target_temperature : M pyval := getitem ATTR_TARGET_TEMPERATURE.

Definition target_temperature_step : M float :=
  unit ← temperature_unit;
  if py_eq unit (PStr TEMP_CELSIUS) then mret PRECISION_HALVES
  else mret PRECISION_WHOLE.

Definition hvac_mode : M pyval := getitem ATTR_HVAC_MODE.

Definition current_temperature : M pyval := getitem ATTR_CURRENT_TEMPERATURE.

Definition hvac_modes : list string := HVAC_MODES.

Definition name : M pyval := getitem ATTR_NAME.

Definition min_temp : M float :=
  unit ← temperature_unit;
  pure_call (convert_temperature DEFAULT_MIN_TEMP TEMP_CELSIUS unit).

Definition max_temp : M float :=
  unit ← temperature_unit;
  pure_call (convert_temperature DEFAULT_MAX_TEMP TEMP_CELSIUS unit).

(** [set_temperature], called with keyword arguments.  The climate service hands the temperature
    over as a float when the call names one; [kwargs.get] gives [None]
    otherwise.  The two bounds are properties: each use evaluates them
    again. *)
Definition set_temperature (kwargs : gmap string float) : M unit :=
  match kwargs !! ATTR_TEMPERATURE with
  | None => mret tt
  | Some temperature =>
      lowest ← min_temp;
      temperature' ←
        (if (temperature <? lowest)%float then min_temp
         else
           highest ← max_temp;
           if (highest <? temperature)%float then max_temp
           else mret temperature);
      request_set_temperature temperature'
  end.

Definition set_hvac_mode (hvac_mode : string) : M unit :=
  request_set_hvac_mode hvac_mode.

End Climate.

(** ** What a script asks of the worker *)

Definition is_terminate (c : api_call) : bool :=
  match c with Terminate => true | _ => false end.


Definition is_pexpect (o : outcome) : bool :=
  match o with Fault ExceptionPexpect => true | _ => false end.

(** Nothing in a pass of the inner loop, or of the outer loop, ends the
    thread: [terminate] is not called and the transport process does not
    die.  (What [disconnect] answers does not matter: the [finally] clause
    swallows its exceptions.) *)
Definition calm (t : tick) : bool :=
  forallb (fun c => negb (is_terminate c)) (landed t) &&
  negb (is_pexpect (answer t)).

Definition recoverable (i : session_input) : bool :=
  forallb (fun c => negb (is_terminate c)) (early i) &&
  negb (is_pexpect (connect_answer i)) &&
  forallb calm (ticks i).



(** ** Example scripts *)

(** A connection that comes up and is then lost: the unit request of
    start-up is served, the four readings are polled, the worker idles once,
    and the next status poll finds the link gone. *)
Definition lost_connection : session_input :=
  {| early := [];
     connect_answer := Reply "";
     ticks := [ Tick [] (Reply "c"); Tick [] (Reply "c"); Tick [] (Reply "running");
                Tick [] (Reply "50.0"); Tick [] (Reply "60.0"); Tick [] (Reply "");
                Tick [] (Fault NotConnectedError) ];
     disconnect_answer := Reply "" |}.

(** The first five passes of that connection: the readings are in, and the
    worker has not yet looked at them. *)
Definition warming : session_input :=
  {| early := [];
     connect_answer := Reply "";
     ticks := take 5 (ticks lost_connection);
     disconnect_answer := Reply "" |}.

(** A connection on which the first command cannot be sent, and the
    reconnection after it. *)
Definition failed_send : session_input :=
  {| early := [];
     connect_answer := Reply "";
     ticks := [ Tick [] (Fault RuntimeError) ];
     disconnect_answer := Reply "" |}.

Definition reconnected : session_input :=
  {| early := [];
     connect_answer := Reply "";
     ticks := [ Tick [] (Reply "c") ];
     disconnect_answer := Reply "" |}.

(** A connection on which the transport process dies during the first
    command. *)
Definition transport_died : session_input :=
  {| early := [];
     connect_answer := Reply "";
     ticks := [ Tick [] (Fault ExceptionPexpect) ];
     disconnect_answer := Reply "" |}.

(** A connection that [terminate] ends after two passes. *)
Definition terminated : session_input :=
  {| early := [];
     connect_answer := Reply "";
     ticks := [ Tick [] (Reply "c"); Tick [] (Reply "c"); Tick [Terminate] (Reply "") ];
     disconnect_answer := Fault OtherException |}.


(** A worked instance of the conversion, on the units the entity meets:
    from Celsius to Celsius the bound itself, to Fahrenheit 1.8 times it
    plus 32 (the factor is the double nearest to 1.8); for every other unit
    it raises. *)
Definition celsius_to (temperature : Z) (from_unit : string) (to_unit : pyval) :
    result float :=
  if py_eq to_unit (PStr TEMP_CELSIUS) then Ok (float_of_Z temperature)
  else if py_eq to_unit (PStr TEMP_FAHRENHEIT)
  then Ok (float_of_Z temperature * 0x1.ccccccccccccdp+0 + 32)%float
  else Raise OtherException.
(** ** Elementary facts *)

Lemma py_eq_None v : py_eq v PNone = true <-> v = PNone.
Proof. destruct v; simpl; split; congruence. Qed.

Lemma py_eq_None_false v : py_eq v PNone = false <-> v <> PNone.
Proof. destruct v; simpl; split; congruence. Qed.

Lemma py_ne_None v : py_ne v PNone = true <-> v <> PNone.
Proof. unfold py_ne. rewrite negb_true_iff. apply py_eq_None_false. Qed.

Lemma py_ne_None_false v : py_ne v PNone = false <-> v = PNone.
Proof. unfold py_ne. rewrite negb_false_iff. apply py_eq_None. Qed.

Lemma calls_app t1 t2 : calls (t1 ++ t2) = calls t1 ++ calls t2.
Proof. apply omap_app. Qed.

Lemma snapshots_app t1 t2 : snapshots (t1 ++ t2) = snapshots t1 ++ snapshots t2.
Proof. apply omap_app. Qed.

Lemma actions_app t1 t2 : actions (t1 ++ t2) = actions t1 ++ actions t2.
Proof. apply omap_app. Qed.

Lemma disconnects_app t1 t2 : disconnects (t1 ++ t2) = (disconnects t1 + disconnects t2)%nat.
Proof. unfold disconnects. by rewrite calls_app, filter_app, length_app. Qed.

Lemma has_keys_insert d k v : has_keys d -> has_keys (<[k:=v]> d).
Proof.
  unfold has_keys. intros Hd. eapply Forall_impl; [exact Hd|]. intros k' Hk'.
  rewrite lookup_insert_is_Some. destruct (decide (k = k')); auto.
Qed.

Lemma has_keys_lookup d k : has_keys d -> k ∈ KEYS -> is_Some (d !! k).
Proof. unfold has_keys. rewrite Forall_forall. auto. Qed.

Lemma has_keys_missing d k : has_keys d -> k ∈ KEYS -> d !! k = None -> False.
Proof.
  intros Hd Hk Hnone. destruct (has_keys_lookup d k Hd Hk) as [v Hv]. congruence.
Qed.

Lemma known_insert_other d k k' v : k <> k' -> known (<[k:=v]> d) k' <-> known d k'.
Proof. intros Hne. unfold known. by rewrite lookup_insert_ne. Qed.

Lemma known_insert d k v : v <> PNone -> known (<[k:=v]> d) k.
Proof. intros Hv. exists v. by rewrite lookup_insert_eq. Qed.

(** ** Rules of the calculus *)

Lemma wp_ret {A} (a : A) Q m : Q (Ok a) m -> wp (mret a) Q m.
Proof. done. Qed.

Lemma wp_bind {A B} (c : M A) (f : A -> M B) Q m :
  wp c (fun r m' => match r with
                    | Ok a => wp (f a) Q m'
                    | Raise e => Q (Raise e) m'
                    end) m ->
  wp (c ≫= f) Q m.
Proof. unfold wp, mbind, M_bind, bind. by destruct (c m) as [[a|e] m']. Qed.

Lemma wp_getitem key Q m :
  match data m !! key with
  | Some v => Q (Ok v) m
  | None => Q (Raise KeyError) m
  end ->
  wp (getitem key) Q m.
Proof. unfold wp, getitem. by destruct (data m !! key). Qed.

Lemma wp_modify f Q m : Q (Ok tt) (f m) -> wp (modify f) Q m.
Proof. done. Qed.

Lemma wp_setitem key v Q m :
  Q (Ok tt) (with_data (<[key:=v]> (data m)) m) -> wp (setitem key v) Q m.
Proof. done. Qed.

Lemma wp_data_handler Q m :
  Q (Ok tt) (emit (EvNotify (data m)) m) -> wp data_handler Q m.
Proof. done. Qed.

Lemma wp_log lvl fmt arg Q m :
  Q (Ok tt) (emit (EvLog lvl fmt arg) m) -> wp (log lvl fmt arg) Q m.
Proof. done. Qed.

Lemma wp_event_set Q m : Q (Ok tt) (with_command_event true m) -> wp event_set Q m.
Proof. done. Qed.

Lemma wp_event_clear Q m : Q (Ok tt) (with_command_event false m) -> wp event_clear Q m.
Proof. done. Qed.

Lemma wp_event_wait timeout Q m :
  Q (Ok tt) (emit (EvWait timeout) m) -> wp (event_wait timeout) Q m.
Proof. done. Qed.

Lemma wp_self_keep_going Q m : Q (Ok (keep_going m)) m -> wp self_keep_going Q m.
Proof. done. Qed.

Lemma wp_self_device Q m : Q (Ok (device m)) m -> wp self_device Q m.
Proof. done. Qed.

Lemma wp_device_call op o Q m :
  (if device m
   then match o with
        | Reply rsp => Q (Ok rsp) (emit (EvCall op) m)
        | Fault e => Q (Raise e) (emit (EvCall op) m)
        end
   else Q (Raise AttributeError) m) ->
  wp (device_call op o) Q m.
Proof.
  unfold wp, device_call, device_method, invoke, mbind, M_bind, bind.
  by destruct (device m), o.
Qed.

Lemma wp_device_method Q m :
  (if device m then Q (Ok tt) m else Q (Raise AttributeError) m) ->
  wp device_method Q m.
Proof. unfold wp, device_method. by destruct (device m). Qed.

Lemma wp_invoke op o Q m :
  match o with
  | Reply rsp => Q (Ok rsp) (emit (EvCall op) m)
  | Fault e => Q (Raise e) (emit (EvCall op) m)
  end ->
  wp (invoke op o) Q m.
Proof. unfold wp, invoke. by destruct o. Qed.

Lemma wp_try_except {A} (body : M A) handler Q m :
  wp body (fun r m' => match r with
                       | Ok a => Q (Ok a) m'
                       | Raise e => wp (handler e) Q m'
                       end) m ->
  wp (try_except body handler) Q m.
Proof. unfold wp, try_except. by destruct (body m) as [[a|e] m']. Qed.

Lemma wp_try_finally {A} (body : M A) fin Q m :
  wp body (fun r m' => wp fin (fun r' m'' => match r' with
                                             | Ok _ => Q r m''
                                             | Raise e => Q (Raise e) m''
                                             end) m') m ->
  wp (try_finally body fin) Q m.
Proof.
  unfold wp, try_finally. destruct (body m) as [r m']. simpl.
  by destruct (fin m') as [[u|e] m''].
Qed.

Lemma wp_mono {A} (c : M A) (Q Q' : result A -> monitor -> Prop) m :
  wp c Q m -> (forall r m', Q r m' -> Q' r m') -> wp c Q' m.
Proof. unfold wp. auto. Qed.

Lemma wp_eq {A} (c : M A) (x : result A * monitor) m :
  wp c (fun r m' => (r, m') = x) m -> c m = x.
Proof. unfold wp. by destruct (c m). Qed.

(** Reduction of the record updates, and one step through a method body. *)
Ltac mcbn :=
  cbn [data keep_going command_event device trace with_data with_keep_going
       with_command_event with_device emit fst snd] in *.

Ltac wp_step :=
  lazymatch goal with
  | |- wp (mbind _ _) _ _ => apply wp_bind
  | |- wp (mret _) _ _ => apply wp_ret
  | |- wp (getitem ?k) _ ?m => apply wp_getitem; destruct (data m !! k) eqn:?
  | |- wp (setitem _ _) _ _ => apply wp_setitem
  | |- wp data_handler _ _ => apply wp_data_handler
  | |- wp (log _ _ _) _ _ => apply wp_log
  | |- wp event_set _ _ => apply wp_event_set
  | |- wp event_clear _ _ => apply wp_event_clear
  | |- wp (event_wait _) _ _ => apply wp_event_wait
  | |- wp self_keep_going _ _ => apply wp_self_keep_going
  | |- wp self_device _ _ => apply wp_self_device
  | |- wp (modify _) _ _ => apply wp_modify
  | |- wp (device_call _ ?o) _ ?m =>
      apply wp_device_call; destruct (device m) eqn:?; [destruct o|]
  | |- wp device_method _ ?m => apply wp_device_method; destruct (device m) eqn:?
  | |- wp (invoke _ ?o) _ _ => apply wp_invoke; destruct o
  | |- wp (try_except _ _) _ _ => apply wp_try_except
  | |- wp (try_finally _ _) _ _ => apply wp_try_finally
  | |- wp (if ?b then _ else _) _ _ => destruct b eqn:?
  end; mcbn.

(** ** [setup_platform] *)

Lemma setup_data_has_keys name mac hass_unit : has_keys (setup_data name mac hass_unit).
Proof. unfold has_keys, KEYS. repeat constructor; by eexists. Qed.

(** ** [process_response] *)

Lemma process_response_none key m :
  process_response PNone key m = (Ok tt, emit (warned key) m).
Proof. reflexivity. Qed.

Lemma process_response_same value key stored m :
  value <> PNone -> data m !! key = Some stored -> py_ne value stored = false ->
  process_response value key m = (Ok tt, m).
Proof.
  intros Hv Hk Hs. unfold process_response.
  rewrite (proj2 (py_eq_None_false value) Hv).
  unfold mbind, M_bind, bind, getitem. by rewrite Hk, Hs.
Qed.

Lemma process_response_store value key stored available m :
  value <> PNone -> data m !! key = Some stored -> py_ne value stored = true ->
  <[key:=value]> (data m) !! ATTR_AVAILABLE = Some available ->
  process_response value key m =
    (Ok tt,
     let m' := with_data (<[key:=value]> (data m)) m in
     if truthy available then emit (EvNotify (data m')) m' else m').
Proof.
  intros Hv Hk Hs Ha. unfold process_response.
  rewrite (proj2 (py_eq_None_false value) Hv).
  unfold mbind, M_bind, bind, getitem, setitem, modify. rewrite Hk, Hs. mcbn.
  rewrite Ha. by destruct (truthy available).
Qed.

(** The four ways [process_response] can end, as a rule of the calculus. *)
Lemma wp_process_response value key Q m :
  (value = PNone -> Q (Ok tt) (emit (warned key) m)) ->
  (value <> PNone -> data m !! key = None -> Q (Raise KeyError) m) ->
  (forall stored, value <> PNone -> data m !! key = Some stored ->
     py_ne value stored = false -> Q (Ok tt) m) ->
  (forall stored, value <> PNone -> data m !! key = Some stored ->
     py_ne value stored = true ->
     let m' := with_data (<[key:=value]> (data m)) m in
     match data m' !! ATTR_AVAILABLE with
     | None => Q (Raise KeyError) m'
     | Some available =>
         if truthy available then Q (Ok tt) (emit (EvNotify (data m')) m')
         else Q (Ok tt) m'
     end) ->
  wp (process_response value key) Q m.
Proof.
  intros Hnone Hmiss Hsame Hstore. unfold wp.
  destruct (py_eq value PNone) eqn:Hv.
  { apply py_eq_None in Hv. subst value. rewrite process_response_none. auto. }
  apply py_eq_None_false in Hv.
  destruct (data m !! key) as [stored|] eqn:Hk.
  2:{ unfold process_response. rewrite (proj2 (py_eq_None_false value) Hv).
      unfold mbind, M_bind, bind, getitem. rewrite Hk. auto. }
  destruct (py_ne value stored) eqn:Hs.
  2:{ erewrite process_response_same by eassumption. eauto. }
  specialize (Hstore stored Hv eq_refl Hs). cbn zeta in Hstore. mcbn.
  destruct (<[key:=value]> (data m) !! ATTR_AVAILABLE) as [available|] eqn:Ha.
  { erewrite process_response_store by eassumption. cbn zeta. mcbn.
    by destruct (truthy available). }
  unfold process_response. rewrite (proj2 (py_eq_None_false value) Hv).
  unfold mbind, M_bind, bind, getitem, setitem, modify. rewrite Hk, Hs. mcbn.
  by rewrite Ha.
Qed.

(** ** The device methods *)

Lemma get_temperature_unit_exchange o :
  get_temperature_unit o =
  exchange OpGetUnit (fun rsp => handle_map rsp TEMP_MAP) CONF_TEMPERATURE_UNIT o.
Proof. reflexivity. Qed.

Lemma set_temperature_unit_exchange unit_ o :
  set_temperature_unit unit_ o =
  exchange (OpSetUnit unit_) (fun rsp => handle_map rsp TEMP_MAP) CONF_TEMPERATURE_UNIT o.
Proof. reflexivity. Qed.

Lemma get_status_exchange o :
  get_status o =
  exchange OpGetStatus
    (fun rsp => handle_map rsp {[ ANOVA_STATE_RUNNING := PStr HVAC_MODE_HEAT;
                                  ANOVA_STATE_STOPPED := PStr HVAC_MODE_OFF ]})
    ATTR_HVAC_MODE o.
Proof. reflexivity. Qed.

Lemma get_current_temperature_exchange o :
  get_current_temperature o =
  exchange OpGetCurrentTemperature handle_float ATTR_CURRENT_TEMPERATURE o.
Proof. reflexivity. Qed.

Lemma get_target_temperature_exchange o :
  get_target_temperature o =
  exchange OpGetTargetTemperature handle_float ATTR_TARGET_TEMPERATURE o.
Proof. reflexivity. Qed.

Lemma send_start_exchange start o :
  send_start start o =
  exchange (if start then OpStart else OpStop) (fun rsp => handle_map rsp CTL_MAP)
    ATTR_HVAC_MODE o.
Proof. by destruct start. Qed.

Lemma set_target_temperature_exchange temperature o :
  set_target_temperature temperature o =
  exchange (OpSetTemperature temperature)
    (fun rsp => handle_map rsp {[ py_str temperature := temperature ]})
    ATTR_TARGET_TEMPERATURE o.
Proof. reflexivity. Qed.

Lemma exchange_no_device op decode key o m :
  device m = false -> exchange op decode key o m = (Raise AttributeError, m).
Proof.
  intros Hd.
  unfold exchange, device_call, device_method, invoke, mbind, M_bind, bind.
  by rewrite Hd.
Qed.

Lemma exchange_fault op decode key e m :
  device m = true ->
  exchange op decode key (Fault e) m = (Raise e, emit (EvCall op) m).
Proof.
  intros Hd.
  unfold exchange, device_call, device_method, invoke, mbind, M_bind, bind.
  by rewrite Hd.
Qed.

Lemma exchange_reply op decode key rsp m :
  device m = true ->
  exchange op decode key (Reply rsp) m =
  process_response (decode rsp) key (emit (EvCall op) m).
Proof.
  intros Hd.
  unfold exchange, device_call, device_method, invoke, mbind, M_bind, bind.
  by rewrite Hd.
Qed.

Lemma wp_exchange op decode key o Q m :
  (device m = false -> Q (Raise AttributeError) m) ->
  (forall e, device m = true -> o = Fault e -> Q (Raise e) (emit (EvCall op) m)) ->
  (forall rsp, device m = true -> o = Reply rsp ->
     wp (process_response (decode rsp) key) Q (emit (EvCall op) m)) ->
  wp (exchange op decode key o) Q m.
Proof.
  intros Hnone Hfault Hreply. unfold wp.
  destruct (device m) eqn:Hd.
  - destruct o as [rsp|e].
    + rewrite exchange_reply by done. by apply Hreply.
    + rewrite exchange_fault by done. by apply Hfault.
  - rewrite exchange_no_device by done. by apply Hnone.
Qed.

Ltac no_snapshots :=
  let s := fresh "s" in
  let Hs := fresh "Hs" in
  intros s Hs; exfalso; unfold snapshots in Hs; simpl in Hs;
  by apply not_elem_of_nil in Hs.

Ltac grown_by evs :=
  exists evs; split;
  [ unfold appended; mcbn; by rewrite <- ?app_assoc, ?app_nil_r | split ].

Ltac frame_field :=
  mcbn;
  first [ done
        | by left
        | by (right; apply known_insert)
        | by (intros; apply has_keys_insert)
        | by (intros; rewrite lookup_insert_ne)
        | by (intros; simplify_eq)
        | congruence ].

Lemma exchange_exchanged op decode key o m :
  key <> ATTR_AVAILABLE ->
  wp (exchange op decode key o) (exchanged op key o m) m.
Proof.
  intros Hkey. apply wp_exchange.
  - intros Hd. split; try frame_field.
    grown_by (@nil event); [by rewrite Hd|no_snapshots].
  - intros e Hd ->. split; try frame_field.
    grown_by [EvCall op]; [by rewrite Hd|no_snapshots].
  - intros rsp Hd ->. apply wp_process_response; mcbn.
    + intros Hv. split; try frame_field.
      grown_by [EvCall op; warned key]; [by rewrite Hd|no_snapshots].
    + intros Hv Hk. split; try frame_field.
      * grown_by [EvCall op]; [by rewrite Hd|no_snapshots].
      * intros rsp' _ _ [v Hv'] _. congruence.
    + intros stored Hv Hk Hs. split; try frame_field.
      grown_by [EvCall op]; [by rewrite Hd|no_snapshots].
    + intros stored Hv Hk Hs.
      destruct (<[key:=decode rsp]> (data m) !! ATTR_AVAILABLE) as [av|] eqn:Ha.
      2:{ split; try frame_field.
          - grown_by [EvCall op]; [by rewrite Hd|no_snapshots].
          - intros rsp' _ _ _ [v Hv']. rewrite lookup_insert_ne in Ha by done.
            congruence. }
      destruct (truthy av) eqn:Hav.
      * split; try frame_field.
        grown_by [EvCall op; EvNotify (<[key:=decode rsp]> (data m))];
          [by rewrite Hd|].
        intros s Hs'. unfold snapshots in Hs'. simpl in Hs'.
        apply list_elem_of_singleton in Hs'. subst s. split; [done|].
        by exists av.
      * split; try frame_field.
        grown_by [EvCall op]; [by rewrite Hd|no_snapshots].
Qed.

(** ** The [available] flag *)

Lemma is_available_insert_other d k v :
  k <> ATTR_AVAILABLE -> is_available (<[k:=v]> d) <-> is_available d.
Proof. intros Hne. unfold is_available. by rewrite lookup_insert_ne. Qed.

Lemma is_available_up d : is_available (<[ATTR_AVAILABLE:=PBool true]> d).
Proof. exists (PBool true). by rewrite lookup_insert_eq. Qed.

Lemma not_available_down d : ~ is_available (<[ATTR_AVAILABLE:=PBool false]> d).
Proof. intros [v [Hv Ht]]. rewrite lookup_insert_eq in Hv. by simplify_eq. Qed.

Lemma is_available_truthy d v :
  d !! ATTR_AVAILABLE = Some v -> is_available d <-> truthy v = true.
Proof. intros Hv. unfold is_available. rewrite Hv. naive_solver. Qed.

Lemma known_lookup d k v : d !! k = Some v -> known d k <-> py_ne v PNone = true.
Proof. intros Hv. unfold known. rewrite Hv, py_ne_None. naive_solver. Qed.

(** Lines 372-374 and 457-459: the three ways [mark_unavailable] ends. *)
Lemma wp_mark_unavailable Q m :
  (data m !! ATTR_AVAILABLE = None -> Q (Raise KeyError) m) ->
  (is_available (data m) ->
     let d' := <[ATTR_AVAILABLE:=PBool false]> (data m) in
     Q (Ok tt) (emit (EvNotify d') (with_data d' m))) ->
  (is_Some (data m !! ATTR_AVAILABLE) -> ~ is_available (data m) -> Q (Ok tt) m) ->
  wp mark_unavailable Q m.
Proof.
  intros Hmiss Hdown Hstay. unfold mark_unavailable.
  wp_step. wp_step; [|by apply Hmiss].
  pose proof (is_available_truthy _ _ Heqo) as Hav.
  wp_step.
  - do 3 wp_step. apply Hdown. by apply Hav.
  - wp_step. apply Hstay; [by eexists|]. rewrite Hav. congruence.
Qed.

(** Lines 401-409: the three ways [refresh_available] ends. *)
Lemma wp_refresh_available Q m :
  (~ has_keys (data m) -> Q (Raise KeyError) m) ->
  (readings_known (data m) -> ~ is_available (data m) ->
     let d' := <[ATTR_AVAILABLE:=PBool true]> (data m) in
     Q (Ok tt) (emit (EvNotify d') (with_data d' m))) ->
  (is_available (data m) \/ ~ readings_known (data m) -> Q (Ok tt) m) ->
  wp refresh_available Q m.
Proof.
  intros Hmiss Hup Hstay.
  assert (Hmissing : forall k, k ∈ KEYS -> data m !! k = None -> Q (Raise KeyError) m).
  { intros k Hk Hnone. apply Hmiss. intros Hkeys. by eapply has_keys_missing. }
  assert (Hfinish : forall available : bool,
    (available = true <-> readings_known (data m)) ->
    wp (flag ← getitem ATTR_AVAILABLE;
        if negb (truthy flag) && available
        then setitem ATTR_AVAILABLE (PBool true);; data_handler
        else mret tt) Q m).
  { intros available Hiff. wp_step. wp_step.
    2:{ apply (Hmissing ATTR_AVAILABLE); [set_solver|done]. }
    pose proof (is_available_truthy _ _ Heqo) as Hav.
    wp_step.
    - apply andb_true_iff in Heqb as [Hflag Havail]. do 3 wp_step.
      apply Hup; [by apply Hiff|]. rewrite Hav.
      apply negb_true_iff in Hflag. congruence.
    - wp_step. apply Hstay. apply andb_false_iff in Heqb as [Hflag|Havail].
      + left. apply Hav. by apply negb_false_iff in Hflag.
      + right. rewrite <- Hiff. congruence. }
  unfold refresh_available. wp_step. wp_step.
  2:{ apply (Hmissing ATTR_CURRENT_TEMPERATURE); [set_solver|done]. }
  pose proof (known_lookup _ _ _ Heqo) as Hcur.
  wp_step. wp_step.
  2:{ wp_step. apply Hfinish. unfold readings_known. rewrite Hcur. split; [done|].
      intros [? _]. congruence. }
  wp_step. wp_step.
  2:{ apply (Hmissing ATTR_TARGET_TEMPERATURE); [set_solver|done]. }
  pose proof (known_lookup _ _ _ Heqo0) as Htgt.
  wp_step.
  2:{ wp_step. apply Hfinish. unfold readings_known. rewrite Htgt. split; [done|].
      intros (_ & ? & _). congruence. }
  wp_step. wp_step.
  2:{ apply (Hmissing ATTR_TEMPERATURE_UNIT); [set_solver|done]. }
  pose proof (known_lookup _ _ _ Heqo1) as Hunit.
  wp_step. apply Hfinish. unfold readings_known. rewrite Hcur, Htgt, Hunit.
  naive_solver.
Qed.

Lemma refresh_available_refreshed m : wp refresh_available (refreshed m) m.
Proof.
  apply wp_refresh_available.
  - intros Hmiss. split; try frame_field.
    grown_by (@nil event); [done|no_snapshots].
  - intros Hknown Hdown. cbn zeta. split; try frame_field.
    grown_by [EvNotify (<[ATTR_AVAILABLE:=PBool true]> (data m))]; [done|].
    intros s Hs. unfold snapshots in Hs. simpl in Hs.
    apply list_elem_of_singleton in Hs. subst s. mcbn. split; [done|].
    apply is_available_up.
  - intros _. split; try frame_field.
    grown_by (@nil event); [done|no_snapshots].
Qed.

(** ** The priority rule, case by case *)

Lemma spec_unit unit_ target mode next_command :
  unit_ <> PNone ->
  spec_action unit_ target mode next_command =
    EvCall (OpSetUnit (if py_eq unit_ (PStr TEMP_CELSIUS)
                       then ANOVA_TEMP_CELCIUS else ANOVA_TEMP_FAHRENHEIT)) /\
  spec_next unit_ target mode next_command = next_command /\
  spec_pending unit_ target mode = [Some PNone; Some target; Some mode].
Proof. by destruct unit_. Qed.

Lemma spec_target target mode next_command :
  target <> PNone ->
  spec_action PNone target mode next_command = EvCall (OpSetTemperature target) /\
  spec_next PNone target mode next_command = next_command /\
  spec_pending PNone target mode = [Some PNone; Some PNone; Some mode].
Proof. by destruct target. Qed.

Lemma spec_mode mode next_command :
  mode <> PNone ->
  spec_action PNone PNone mode next_command =
    EvCall (if py_eq mode (PStr HVAC_MODE_HEAT) then OpStart else OpStop) /\
  spec_next PNone PNone mode next_command = next_command /\
  spec_pending PNone PNone mode = [Some PNone; Some PNone; Some PNone].
Proof. by destruct mode. Qed.

Ltac norm_lookup :=
  repeat (rewrite lookup_insert_eq || rewrite lookup_insert_ne by done).

(** ** Steps of the worker *)

Lemma appended_refl m : appended m m [].
Proof. unfold appended. by rewrite app_nil_r. Qed.

Lemma appended_trans m0 m1 m2 evs1 evs2 :
  appended m0 m1 evs1 -> appended m1 m2 evs2 -> appended m0 m2 (evs1 ++ evs2).
Proof. unfold appended. intros H1 H2. by rewrite H2, H1, app_assoc. Qed.

Lemma stepped_refl m : stepped [] m m.
Proof.
  split; try done. exists []. split; [apply appended_refl|]. split; [done|].
  no_snapshots.
Qed.

Lemma stepped_trans acts1 acts2 m0 m1 m2 :
  stepped acts1 m0 m1 -> stepped acts2 m1 m2 -> stepped (acts1 ++ acts2) m0 m2.
Proof.
  intros [Hkg1 Hdv1 Hks1 Hav1 (evs1 & Happ1 & Hact1 & Hsn1)]
         [Hkg2 Hdv2 Hks2 Hav2 (evs2 & Happ2 & Hact2 & Hsn2)].
  split; [congruence|congruence|auto|auto|].
  exists (evs1 ++ evs2). split; [by eapply appended_trans|].
  rewrite actions_app, Hact1, Hact2. split; [done|].
  intros s. rewrite snapshots_app, elem_of_app. intros [?|?]; auto.
Qed.

Lemma stepped_setitem key v m :
  key <> ATTR_AVAILABLE -> stepped [] m (with_data (<[key:=v]> (data m)) m).
Proof.
  intros Hkey. split; mcbn; try done.
  - apply has_keys_insert.
  - by apply is_available_insert_other.
  - grown_by (@nil event); [done|no_snapshots].
Qed.

Lemma stepped_command_event b m : stepped [] m (with_command_event b m).
Proof.
  split; mcbn; try done.
  grown_by (@nil event); [done|no_snapshots].
Qed.

Lemma stepped_wait timeout m : stepped [EvWait timeout] m (emit (EvWait timeout) m).
Proof.
  split; mcbn; try done.
  exists [EvWait timeout]. split; [done|]. split; [done|]. no_snapshots.
Qed.

Lemma refreshed_stepped m r m' : refreshed m r m' -> stepped [] m m'.
Proof.
  intros [Hkg Hce Hdv Hfr Hav Hks (evs & Happ & Hact & Hsn) Hres].
  split; try done. exists evs. repeat split; try done. intros s Hs. by apply Hsn.
Qed.

Lemma exchanged_stepped op key o m r m' :
  key <> ATTR_AVAILABLE -> device m = true ->
  exchanged op key o m r m' -> stepped [EvCall op] m m'.
Proof.
  intros Hkey Hdev [Hkg Hce Hdv Hfr Hk Hks (evs & Happ & Hact & Hsn) Hfault Hreply].
  split; try done.
  - unfold is_available. by rewrite Hfr.
  - exists evs. rewrite Hdev in Hact. repeat split; try done.
    intros s Hs. by apply Hsn.
Qed.

Lemma pending_frame (d d' : gmap string pyval) key :
  key ∉ [ATTR_CTL_TEMPERATURE_UNIT; ATTR_CTL_TARGET_TEMPERATURE; ATTR_CTL_HVAC_MODE] ->
  (forall k, k <> key -> d' !! k = d !! k) ->
  pending d' = pending d.
Proof.
  intros Hkey Hfr. unfold pending.
  rewrite !Hfr; [done|intros Heq; apply Hkey; rewrite <- Heq; set_solver ..].
Qed.

(** A branch of the loop that talks to the device: the exchange, then a
    continuation that does nothing the observer or the device sees. *)
Lemma branch_passed unit_ target mode o next_command next_command' m m0
    op decode key (k : M Z) :
  stepped [] m m0 -> pending (data m0) = pending (data m) ->
  has_keys (data m0) -> device m0 = true ->
  key <> ATTR_AVAILABLE -> key ∈ KEYS ->
  key ∉ [ATTR_CTL_TEMPERATURE_UNIT; ATTR_CTL_TARGET_TEMPERATURE; ATTR_CTL_HVAC_MODE] ->
  spec_action unit_ target mode next_command = EvCall op ->
  spec_next unit_ target mode next_command = next_command' ->
  (forall m1, pending (data m1) = pending (data m) ->
     wp k (fun r m2 => r = Ok next_command' /\ stepped [] m1 m2 /\
                       pending (data m2) = spec_pending unit_ target mode) m1) ->
  wp (exchange op decode key o;; k) (passed unit_ target mode o next_command m) m0.
Proof.
  intros Hst0 Hpend0 Hkeys0 Hdev0 Hkey Hin Hnotctl Hact Hnext Hk.
  apply wp_bind. eapply wp_mono; [by apply exchange_exchanged|].
  intros r1 m1 Hex. pose proof (exchanged_stepped _ _ _ _ _ _ Hkey Hdev0 Hex) as Hst1.
  destruct Hex as [_ _ _ Hfr1 _ _ _ Hfault Hreply].
  assert (Hpend1 : pending (data m1) = pending (data m)).
  { rewrite <- Hpend0. by eapply pending_frame. }
  assert (Hst01 : stepped [EvCall op] m m1).
  { change [EvCall op] with ([] ++ [EvCall op]). by eapply stepped_trans. }
  destruct o as [rsp|e].
  - rewrite (Hreply rsp Hdev0 eq_refl).
    2:{ by apply has_keys_lookup. }
    2:{ apply has_keys_lookup; [done|]. unfold KEYS. set_solver. }
    eapply wp_mono; [by apply Hk|]. intros r2 m2 (-> & Hst2 & Hpend2).
    split.
    + rewrite Hact. rewrite <- (app_nil_r [EvCall op]). by eapply stepped_trans.
    + intros _. by rewrite Hnext.
    + by intros e _ [=].
  - destruct (Hfault e Hdev0 eq_refl) as [-> Hd1].
    split.
    + by rewrite Hact.
    + rewrite Hact. by intros [[=]|[rsp [=]]].
    + by intros e' _ [= ->].
Qed.

Ltac by_branch :=
  eapply branch_passed;
  [ eassumption | eassumption | eassumption | eassumption | done
  | unfold KEYS; set_solver | set_solver | | | ].

Lemma loop_body_passed unit_ target mode o next_command m :
  has_keys (data m) -> device m = true ->
  pending (data m) = [Some unit_; Some target; Some mode] ->
  wp (loop_body o next_command) (passed unit_ target mode o next_command m) m.
Proof.
  intros Hkeys Hdev Hpend. unfold loop_body.
  apply wp_bind. eapply wp_mono; [apply refresh_available_refreshed|].
  intros r0 m0 Hrf. pose proof (refreshed_stepped _ _ _ Hrf) as Hst0.
  destruct Hrf as [_ _ Hdv0 Hfr0 _ Hks0 _ Hres0].
  rewrite (Hres0 Hkeys). specialize (Hks0 Hkeys). rewrite <- Hdv0 in Hdev.
  assert (Hpend0 : pending (data m0) = pending (data m)).
  { unfold pending. by rewrite !Hfr0. }
  pose proof Hpend0 as Hp0. rewrite Hpend in Hp0. injection Hp0 as Hu0 Ht0 Hm0.
  unfold dispatch. apply wp_bind, wp_getitem. rewrite Hu0.
  destruct (py_ne unit_ PNone) eqn:Hpu.
  { apply py_ne_None in Hpu.
    destruct (spec_unit unit_ target mode next_command Hpu) as (Ha & Hn & Hp).
    apply wp_bind, wp_getitem. rewrite Hu0. cbn zeta.
    rewrite set_temperature_unit_exchange.
    by_branch; [done|done|].
    intros m1 Hpend1. do 3 wp_step. split; [done|].
    split; [by apply stepped_setitem|].
    rewrite Hp. rewrite Hpend in Hpend1. injection Hpend1 as Hu1 Ht1 Hm1.
    unfold pending. norm_lookup. by rewrite Ht1, Hm1. }
  apply py_ne_None_false in Hpu. subst unit_.
  apply wp_bind, wp_getitem. rewrite Ht0.
  destruct (py_ne target PNone) eqn:Hpt.
  { apply py_ne_None in Hpt.
    destruct (spec_target target mode next_command Hpt) as (Ha & Hn & Hp).
    apply wp_bind, wp_getitem. rewrite Ht0.
    rewrite set_target_temperature_exchange.
    by_branch; [done|done|].
    intros m1 Hpend1. do 3 wp_step. split; [done|].
    split; [by apply stepped_setitem|].
    rewrite Hp. rewrite Hpend in Hpend1. injection Hpend1 as Hu1 Ht1 Hm1.
    unfold pending. norm_lookup. by rewrite Hu1, Hm1. }
  apply py_ne_None_false in Hpt. subst target.
  apply wp_bind, wp_getitem. rewrite Hm0.
  destruct (py_ne mode PNone) eqn:Hpm.
  { apply py_ne_None in Hpm.
    destruct (spec_mode mode next_command Hpm) as (Ha & Hn & Hp).
    apply wp_bind, wp_getitem. rewrite Hm0.
    rewrite send_start_exchange.
    by_branch; [done|done|].
    intros m1 Hpend1. do 3 wp_step. split; [done|].
    split; [by apply stepped_setitem|].
    rewrite Hp. rewrite Hpend in Hpend1. injection Hpend1 as Hu1 Ht1 Hm1.
    unfold pending. norm_lookup. by rewrite Hu1, Ht1. }
  apply py_ne_None_false in Hpm. subst mode.
  assert (Hpoll : forall m1, pending (data m1) = pending (data m) ->
            forall n : Z, wp (mret n)
              (fun r m2 => r = Ok n /\ stepped [] m1 m2 /\
                           pending (data m2) = spec_pending PNone PNone PNone) m1).
  { intros m1 Hpend1 n. wp_step. split; [done|]. split; [apply stepped_refl|].
    by rewrite Hpend1, Hpend. }
  destruct (next_command =? MON_GET_TEMPERATURE_UNIT) eqn:H1.
  { rewrite get_temperature_unit_exchange.
    by_branch; [| |auto].
    - cbv [spec_action spec_poll]. by rewrite H1.
    - cbv [spec_next]. by rewrite H1. }
  destruct (next_command =? MON_GET_STATUS) eqn:H2.
  { rewrite get_status_exchange.
    by_branch; [| |auto].
    - cbv [spec_action spec_poll]. by rewrite H1, H2.
    - cbv [spec_next]. by rewrite H1, H2. }
  destruct (next_command =? MON_GET_CURRENT_TEMPERATURE) eqn:H3.
  { rewrite get_current_temperature_exchange.
    by_branch; [| |auto].
    - cbv [spec_action spec_poll]. by rewrite H1, H2, H3.
    - cbv [spec_next]. by rewrite H1, H2, H3. }
  destruct (next_command =? MON_GET_TARGET_TEMPERATURE) eqn:H4.
  { rewrite get_target_temperature_exchange.
    by_branch; [| |auto].
    - cbv [spec_action spec_poll]. by rewrite H1, H2, H3, H4.
    - cbv [spec_next]. by rewrite H1, H2, H3, H4. }
  assert (Hact : spec_action PNone PNone PNone next_command = EvWait POLLING_CYCLE_SEC).
  { cbv [spec_action spec_poll]. by rewrite H1, H2, H3, H4. }
  assert (Hnext : spec_next PNone PNone PNone next_command = MON_GET_STATUS).
  { cbv [spec_next]. by rewrite H1, H2, H3, H4. }
  do 5 wp_step. rewrite <- Hnext. split.
  - rewrite Hact. change [EvWait POLLING_CYCLE_SEC] with ([] ++ [] ++ [EvWait POLLING_CYCLE_SEC]).
    eapply stepped_trans; [exact Hst0|].
    eapply stepped_trans; [apply stepped_command_event|apply stepped_wait].
  - intros _. split; [done|]. mcbn. by rewrite Hpend0, Hpend.
  - rewrite Hact. by intros e [=].
Qed.

(** ** Properties of the monitor that every step keeps *)

Section Rules.

Variable P : monitor -> Prop.

Lemma keeps_ret {A} (a : A) : keeps P (mret a).
Proof. by intros m Hm. Qed.

Lemma keeps_bind {A B} (c : M A) (f : A -> M B) :
  keeps P c -> (forall a, keeps P (f a)) -> keeps P (c ≫= f).
Proof.
  intros Hc Hf m Hm. apply wp_bind. eapply wp_mono; [by apply Hc|].
  intros [a|e] m' Hm'; [by apply Hf|done].
Qed.

Lemma keeps_getitem key : keeps P (getitem key).
Proof. intros m Hm. apply wp_getitem. by destruct (data m !! key). Qed.

Lemma keeps_self_keep_going : keeps P self_keep_going.
Proof. by intros m Hm. Qed.

Lemma keeps_self_device : keeps P self_device.
Proof. by intros m Hm. Qed.

Lemma keeps_try_except {A} (body : M A) handler :
  keeps P body -> (forall e, keeps P (handler e)) -> keeps P (try_except body handler).
Proof.
  intros Hb Hh m Hm. apply wp_try_except. eapply wp_mono; [by apply Hb|].
  intros [a|e] m' Hm'; [done|by apply Hh].
Qed.

Lemma keeps_try_finally {A} (body : M A) fin :
  keeps P body -> keeps P fin -> keeps P (try_finally body fin).
Proof.
  intros Hb Hf m Hm. apply wp_try_finally. eapply wp_mono; [by apply Hb|].
  intros r m' Hm'. eapply wp_mono; [by apply Hf|]. by intros [u|e] m'' Hm''.
Qed.

(** *** The [if]/[elif] chain and the connection attempt *)

Section Quiet.

Hypothesis HP : quiet P.

Lemma keeps_store key v : key <> ATTR_AVAILABLE -> v <> PNone -> keeps P (setitem key v).
Proof. intros Hk Hv m Hm. by apply wp_setitem, (q_store P HP). Qed.

Lemma keeps_clear key :
  key ∈ [ATTR_CTL_TEMPERATURE_UNIT; ATTR_CTL_TARGET_TEMPERATURE; ATTR_CTL_HVAC_MODE] ->
  keeps P (setitem key PNone).
Proof. intros Hk m Hm. by apply wp_setitem, (q_clear P HP). Qed.

Lemma keeps_log lvl fmt arg : keeps P (log lvl fmt arg).
Proof. intros m Hm. by apply wp_log, (q_log P HP). Qed.

Lemma keeps_event_set : keeps P event_set.
Proof. intros m Hm. by apply wp_event_set, (q_command_event P HP). Qed.

Lemma keeps_event_clear : keeps P event_clear.
Proof. intros m Hm. by apply wp_event_clear, (q_command_event P HP). Qed.

Lemma keeps_event_wait timeout : keeps P (event_wait timeout).
Proof. intros m Hm. by apply wp_event_wait, (q_wait P HP). Qed.

Lemma keeps_with_keep_going b : keeps P (modify (with_keep_going b)).
Proof. intros m Hm. by apply wp_modify, (q_keep_going P HP). Qed.

Lemma keeps_device_call op o : is_disconnect op = false -> keeps P (device_call op o).
Proof.
  intros Hop m Hm. apply wp_device_call.
  destruct (device m); [|done]. by destruct o; apply (q_call P HP).
Qed.

Lemma keeps_device_method : keeps P device_method.
Proof. intros m Hm. apply wp_device_method. by destruct (device m). Qed.

Lemma keeps_invoke op o : is_disconnect op = false -> keeps P (invoke op o).
Proof. intros Hop m Hm. apply wp_invoke. by destruct o; apply (q_call P HP). Qed.

Lemma keeps_process_response value key :
  key <> ATTR_AVAILABLE -> keeps P (process_response value key).
Proof.
  intros Hkey m Hm. apply wp_process_response.
  - intros _. by apply (q_log P HP).
  - done.
  - done.
  - intros stored Hv Hk Hs. cbn zeta. mcbn.
    assert (Hm' : P (with_data (<[key:=value]> (data m)) m)).
    { by apply (q_store P HP). }
    destruct (<[key:=value]> (data m) !! ATTR_AVAILABLE) as [av|] eqn:Ha; [|done].
    destruct (truthy av) eqn:Hav; [|done].
    pose proof (q_notify P HP (with_data (<[key:=value]> (data m)) m)) as Hn.
    mcbn. apply Hn; [|done]. by exists av.
Qed.

Lemma keeps_exchange op decode key o :
  is_disconnect op = false -> key <> ATTR_AVAILABLE ->
  keeps P (exchange op decode key o).
Proof.
  intros Hop Hkey. apply keeps_bind; [by apply keeps_device_call|].
  intros rsp. by apply keeps_process_response.
Qed.

Lemma keeps_get_temperature_unit o : keeps P (get_temperature_unit o).
Proof. rewrite get_temperature_unit_exchange. by apply keeps_exchange. Qed.

Lemma keeps_set_temperature_unit unit_ o : keeps P (set_temperature_unit unit_ o).
Proof. rewrite set_temperature_unit_exchange. by apply keeps_exchange. Qed.

Lemma keeps_get_status o : keeps P (get_status o).
Proof. rewrite get_status_exchange. by apply keeps_exchange. Qed.

Lemma keeps_get_current_temperature o : keeps P (get_current_temperature o).
Proof. rewrite get_current_temperature_exchange. by apply keeps_exchange. Qed.

Lemma keeps_get_target_temperature o : keeps P (get_target_temperature o).
Proof. rewrite get_target_temperature_exchange. by apply keeps_exchange. Qed.

Lemma keeps_send_start start o : keeps P (send_start start o).
Proof. rewrite send_start_exchange. apply keeps_exchange; [by destruct start|done]. Qed.

Lemma keeps_set_target_temperature temperature o :
  keeps P (set_target_temperature temperature o).
Proof. rewrite set_target_temperature_exchange. by apply keeps_exchange. Qed.

Ltac keeps_quiet :=
  repeat first
    [ apply keeps_ret
    | apply keeps_getitem
    | apply keeps_log
    | apply keeps_event_set
    | apply keeps_event_clear
    | apply keeps_event_wait
    | apply keeps_self_keep_going
    | apply keeps_self_device
    | apply keeps_with_keep_going
    | apply keeps_device_call; done
    | apply keeps_device_method
    | apply keeps_invoke; done
    | apply keeps_get_temperature_unit
    | apply keeps_set_temperature_unit
    | apply keeps_get_status
    | apply keeps_get_current_temperature
    | apply keeps_get_target_temperature
    | apply keeps_send_start
    | apply keeps_set_target_temperature
    | apply keeps_store; done
    | apply keeps_clear; set_solver
    | apply keeps_bind; [|intros ?]
    | match goal with |- keeps _ (if ?b then _ else _) => destruct b end ].

Lemma keeps_dispatch o next_command : keeps P (dispatch o next_command).
Proof. unfold dispatch. keeps_quiet. Qed.

Lemma keeps_connect o : keeps P (connect o).
Proof. unfold connect. keeps_quiet. Qed.

(** Lines 401-409 need one thing more: that [available] may be set when
    the three readings are known. *)
Hypothesis P_up : forall m, readings_known (data m) -> P m ->
  P (with_data (<[ATTR_AVAILABLE:=PBool true]> (data m)) m).

Lemma keeps_refresh_available : keeps P refresh_available.
Proof.
  intros m Hm. apply wp_refresh_available; [done| |done].
  intros Hknown _. cbn zeta.
  pose proof (q_notify P HP (with_data (<[ATTR_AVAILABLE:=PBool true]> (data m)) m)) as Hn.
  mcbn. apply Hn; [apply is_available_up|by apply P_up].
Qed.

Lemma keeps_loop_body o next_command : keeps P (loop_body o next_command).
Proof.
  unfold loop_body. apply keeps_bind; [apply keeps_refresh_available|].
  intros _. apply keeps_dispatch.
Qed.

End Quiet.

(** *** Requests from other threads *)

Section Requesting.

Hypothesis HP : requesting P.

Lemma keeps_data_handler : keeps P data_handler.
Proof. intros m Hm. by apply wp_data_handler, (rq_notify P HP). Qed.

Lemma keeps_request_set_hvac_mode hvac_mode : keeps P (request_set_hvac_mode hvac_mode).
Proof.
  destruct HP as [HQ _]. unfold request_set_hvac_mode.
  repeat (apply keeps_bind; [|intros _]);
    [by apply keeps_store..|by apply keeps_event_set|apply keeps_data_handler].
Qed.

Lemma keeps_request_set_temperature temperature :
  keeps P (request_set_temperature temperature).
Proof.
  destruct HP as [HQ _]. unfold request_set_temperature.
  repeat (apply keeps_bind; [|intros _]);
    [by apply keeps_store..|by apply keeps_event_set|apply keeps_data_handler].
Qed.

Lemma keeps_request_set_temperature_unit unit_ :
  keeps P (request_set_temperature_unit unit_).
Proof.
  destruct HP as [HQ _]. unfold request_set_temperature_unit.
  apply keeps_bind; [apply keeps_getitem|]. intros current.
  destruct (py_ne (PStr unit_) current); [|apply keeps_ret].
  repeat (apply keeps_bind; [|intros _]);
    [by apply keeps_store..|by apply keeps_event_set|apply keeps_data_handler].
Qed.

Lemma keeps_terminate : keeps P terminate.
Proof.
  destruct HP as [HQ _]. unfold terminate.
  apply keeps_bind; [by apply keeps_with_keep_going|]. intros _.
  by apply keeps_event_set.
Qed.

Lemma keeps_arrive c m : P m -> P (arrive c m).
Proof.
  intros Hm. unfold arrive. destruct c as [hvac_mode|temperature|unit|].
  - by apply (keeps_request_set_hvac_mode hvac_mode m).
  - by apply (keeps_request_set_temperature temperature m).
  - by apply (keeps_request_set_temperature_unit unit m).
  - by apply (keeps_terminate m).
Qed.

Lemma keeps_arrivals cs : keeps P (arrivals cs).
Proof.
  intros m Hm. apply wp_modify. revert m Hm.
  induction cs as [|c cs IH]; intros m Hm; [done|].
  simpl. by apply IH, keeps_arrive.
Qed.

(** Lines 400-443: the inner loop, with the requests that land between its
    passes. *)
Hypothesis P_up : forall m, readings_known (data m) -> P m ->
  P (with_data (<[ATTR_AVAILABLE:=PBool true]> (data m)) m).

Lemma keeps_connected_loop ticks next_command :
  keeps P (connected_loop ticks next_command).
Proof.
  pose proof (rq_quiet P HP) as HQ.
  revert next_command. induction ticks as [|t ticks IH]; intros next_command; simpl.
  - apply keeps_bind; [apply keeps_self_keep_going|].
    intros [|]; apply keeps_ret.
  - apply keeps_bind; [by apply keeps_arrivals|]. intros _.
    apply keeps_bind; [apply keeps_self_keep_going|]. intros going.
    destruct going; [|apply keeps_ret].
    apply keeps_bind; [by apply keeps_loop_body|]. intros nc. apply IH.
Qed.

End Requesting.

(** *** A connection, from the attempt to the end of the inner loop *)

Section Closed.

Hypothesis HP : closed P.

Lemma keeps_mark_unavailable : keeps P mark_unavailable.
Proof.
  intros m Hm. apply wp_mark_unavailable; [done| |done].
  intros _. cbn zeta.
  pose proof (rq_notify P (cl_requesting P HP)
                (with_data (<[ATTR_AVAILABLE:=PBool false]> (data m)) m)) as Hn.
  mcbn. by apply Hn, (cl_down P HP).
Qed.

End Closed.

(** *** The whole thread *)

Section Teardown.

Hypothesis HP : closed_teardown P.

Lemma keeps_handle_exception ex : keeps P (handle_exception ex).
Proof.
  destruct HP as [[[HQ _] _ _] _ Hdev].
  destruct ex; simpl; try by apply keeps_log.
  apply keeps_bind; [by apply keeps_with_keep_going|]. intros _.
  intros m Hm. by apply wp_modify, Hdev.
Qed.

Lemma keeps_cleanup o : keeps P (cleanup o).
Proof.
  destruct HP as [Hcl Hdis _].
  unfold cleanup. apply keeps_bind; [by apply keeps_mark_unavailable|]. intros _.
  apply keeps_try_except; [|intros e; apply keeps_log, Hcl].
  apply keeps_bind; [apply keeps_self_device|]. intros [|]; [|apply keeps_ret].
  apply keeps_bind; [|intros _; apply keeps_ret].
  intros m Hm. apply wp_device_call.
  destruct (device m); [|done]. by destruct o; apply Hdis.
Qed.

Lemma keeps_guarded i : keeps P (guarded i).
Proof.
  intros m Hm. unfold wp, guarded.
  assert (Hloop : keeps P (connect (connect_answer i);;
                           connected_loop (ticks i) MON_GET_TEMPERATURE_UNIT)).
  { apply keeps_bind; [apply keeps_connect, HP|]. intros _.
    apply keeps_connected_loop; apply HP. }
  specialize (Hloop m Hm). unfold wp in Hloop.
  destruct ((connect (connect_answer i);;
             connected_loop (ticks i) MON_GET_TEMPERATURE_UNIT) m) as [[[|nc]|ex] m1];
    simpl in Hloop.
  - apply (keeps_try_finally (mret Stopped) _ (keeps_ret Stopped)
             (keeps_cleanup _) m1 Hloop).
  - done.
  - refine (keeps_try_finally _ _ _ (keeps_cleanup _) m1 Hloop).
    apply keeps_bind; [apply keeps_handle_exception|]. intros _. apply keeps_ret.
Qed.

Lemma keeps_session i : keeps P (session i).
Proof.
  unfold session. apply keeps_bind; [apply keeps_mark_unavailable, HP|].
  intros _. apply keeps_guarded.
Qed.

Lemma keeps_run_sessions script : keeps P (run_sessions script).
Proof.
  induction script as [|i script IH]; simpl.
  { apply keeps_bind; [apply keeps_self_keep_going|]. intros [|]; apply keeps_ret. }
  apply keeps_bind; [apply keeps_arrivals, HP|]. intros _.
  apply keeps_bind; [apply keeps_self_keep_going|]. intros going.
  destruct going; [|apply keeps_ret].
  apply keeps_bind; [apply keeps_session|].
  intros [| |]; [apply keeps_ret|apply IH|apply keeps_ret].
Qed.

Lemma keeps_run script : keeps P (run script).
Proof.
  unfold run. apply keeps_bind; [|intros _; apply keeps_run_sessions].
  intros m Hm. apply wp_modify, (ct_device P HP), Hm.
Qed.

End Teardown.

End Rules.

(** ** Instances *)

Lemma throughout_emit I e m :
  snapshots [e] = [] -> throughout I m -> throughout I (emit e m).
Proof.
  intros He [Hd Hsn]. split; [done|]. mcbn.
  by rewrite snapshots_app, He, app_nil_r.
Qed.

Lemma throughout_notify I m : throughout I m -> throughout I (emit (EvNotify (data m)) m).
Proof.
  intros [Hd Hsn]. split; [done|]. mcbn. rewrite snapshots_app.
  apply Forall_app. split; [done|]. by repeat constructor.
Qed.

Lemma throughout_quiet I : stable I -> quiet (throughout I).
Proof.
  intros [Hstore Hclear _ _]. split.
  - intros m k v Hk Hv [Hd Hs]. split; [by apply Hstore|done].
  - intros m k Hk [Hd Hs]. split; [by apply Hclear|done].
  - intros m _ Hm. by apply throughout_notify.
  - intros m lvl fmt arg Hm. by apply throughout_emit.
  - intros m timeout Hm. by apply throughout_emit.
  - intros m op _ Hm. by apply throughout_emit.
  - by intros m b [Hd Hs].
  - by intros m b [Hd Hs].
Qed.

Lemma throughout_closed I : stable I -> closed_teardown (throughout I).
Proof.
  intros HI. pose proof (throughout_quiet I HI) as HQ.
  destruct HI as [_ _ Hdown Hup].
  split; [split; [split|..]|..]; try done.
  - intros m Hm. by apply throughout_notify.
  - intros m [Hd Hs]. split; [by apply Hdown|done].
  - intros m Hk [Hd Hs]. split; [by apply Hup|done].
  - intros m Hm. by apply throughout_emit.
Qed.

Lemma data_closed (I : gmap string pyval -> Prop) :
  stable I -> closed_teardown (fun m => I (data m)).
Proof.
  intros [Hstore Hclear Hdown Hup].
  split; [split; [split; [split|]|..]|..]; mcbn; try done; intros; auto.
Qed.

Lemma known_stable key :
  key ∉ [ATTR_AVAILABLE; ATTR_CTL_TEMPERATURE_UNIT; ATTR_CTL_TARGET_TEMPERATURE;
         ATTR_CTL_HVAC_MODE] ->
  stable (fun d => known d key).
Proof.
  intros Hkey. split.
  - intros d k v Hk Hv Hd. destruct (decide (k = key)) as [->|Hne].
    + by apply known_insert.
    + by apply known_insert_other.
  - intros d k Hk Hd. apply known_insert_other; [|done].
    intros ->. apply Hkey. set_solver.
  - intros d Hd. apply known_insert_other; [|done].
    intros Heq. apply Hkey. rewrite <- Heq. set_solver.
  - intros d _ Hd. apply known_insert_other; [|done].
    intros Heq. apply Hkey. rewrite <- Heq. set_solver.
Qed.

Lemma readings_known_insert d key value :
  key <> ATTR_AVAILABLE -> value <> PNone ->
  readings_known d -> readings_known (<[key:=value]> d).
Proof.
  intros Hk Hv (Hc & Ht & Hu). unfold readings_known.
  repeat split.
  - destruct (decide (key = ATTR_CURRENT_TEMPERATURE)) as [->|Hne];
      [by apply known_insert|by apply known_insert_other].
  - destruct (decide (key = ATTR_TARGET_TEMPERATURE)) as [->|Hne];
      [by apply known_insert|by apply known_insert_other].
  - destruct (decide (key = ATTR_TEMPERATURE_UNIT)) as [->|Hne];
      [by apply known_insert|by apply known_insert_other].
Qed.

Lemma readings_known_insert_other d key value :
  key ∉ [ATTR_CURRENT_TEMPERATURE; ATTR_TARGET_TEMPERATURE; ATTR_TEMPERATURE_UNIT] ->
  readings_known (<[key:=value]> d) <-> readings_known d.
Proof.
  intros Hk. unfold readings_known.
  rewrite !known_insert_other; [done|intros Heq; apply Hk; rewrite Heq; set_solver ..].
Qed.

Lemma available_sound_stable : stable available_sound.
Proof.
  split; unfold available_sound.
  - intros d k v Hk Hv Hd Ha. apply readings_known_insert; [done..|].
    by apply Hd, (is_available_insert_other d k v).
  - intros d k Hk Hd Ha.
    assert (k <> ATTR_AVAILABLE) by (intros ->; set_solver).
    apply readings_known_insert_other; [set_solver|].
    by apply Hd, (is_available_insert_other d k PNone).
  - intros d Hd Ha. by apply not_available_down in Ha.
  - intros d Hk Hd _. apply readings_known_insert_other; [set_solver|done].
Qed.

Lemma disconnects_emit e m :
  match e with EvCall op => is_disconnect op = false | _ => True end ->
  disconnects (trace m ++ [e]) = disconnects (trace m).
Proof.
  intros He. rewrite disconnects_app.
  assert (disconnects [e] = 0%nat) as ->; [|lia].
  destruct e as [[]| | |]; done.
Qed.

Lemma settled_closed n : closed (settled n).
Proof.
  unfold settled. split; [split; [split|]|..]; mcbn.
  - intros m k v _ _ (? & ? & ?). by auto using has_keys_insert.
  - intros m k _ (? & ? & ?). by auto using has_keys_insert.
  - intros m _ (? & ? & ?). by rewrite disconnects_emit.
  - intros m lvl fmt arg (? & ? & ?). by rewrite disconnects_emit.
  - intros m timeout (? & ? & ?). by rewrite disconnects_emit.
  - intros m op Hop (? & ? & ?). by rewrite disconnects_emit.
  - by intros m b (? & ? & ?).
  - by intros m b (? & ? & ?).
  - intros m (? & ? & ?). by rewrite disconnects_emit.
  - intros m (? & ? & ?). by auto using has_keys_insert.
  - intros m _ (? & ? & ?). by auto using has_keys_insert.
Qed.

Lemma flag_requesting v : requesting (fun m => data m !! ATTR_AVAILABLE = v).
Proof.
  split; [split|]; mcbn; try done.
  - intros m k val Hk _ Hm. by rewrite lookup_insert_ne.
  - intros m k Hk Hm. rewrite lookup_insert_ne; [done|].
    intros Heq. rewrite Heq in Hk. set_solver.
Qed.

Lemma is_available_quiet : quiet (fun m => is_available (data m)).
Proof.
  split; mcbn; try done.
  - intros m k v Hk _ Hm. by apply is_available_insert_other.
  - intros m k Hk Hm. apply is_available_insert_other; [|done].
    intros Heq. rewrite Heq in Hk. set_solver.
Qed.

Lemma shown_available_refl m : shown_available (trace m) m.
Proof. exists []. by rewrite app_nil_r. Qed.

Lemma shown_available_emit t0 e m :
  match e with EvNotify d => is_available d | _ => True end ->
  shown_available t0 m -> shown_available t0 (emit e m).
Proof.
  intros He (evs & Ht & Hsn). exists (evs ++ [e]). mcbn.
  rewrite Ht, app_assoc. split; [done|].
  rewrite snapshots_app. apply Forall_app. split; [done|].
  destruct e; try done. by repeat constructor.
Qed.

Lemma shown_available_quiet t0 : quiet (shown_available t0).
Proof.
  split; mcbn; try done.
  - intros m Ha Hm. by apply shown_available_emit.
  - intros m lvl fmt arg Hm. by apply shown_available_emit.
  - intros m timeout Hm. by apply shown_available_emit.
  - intros m op _ Hm. by apply shown_available_emit.
Qed.

(** ** The state at start-up *)

(** C7 (as amended). The dictionary that [setup_platform] creates has
    [available] false and the two temperatures, the target-temperature
    request, the mode request and the mode empty; the unit request is not
    empty: like the unit itself it holds the host's configured unit. *)
Theorem C7_initial_state (name mac hass_unit : string) :
  let m := monitor_init (setup_data name mac hass_unit) in
  data m !! ATTR_AVAILABLE = Some (PBool false) /\
  data m !! ATTR_CURRENT_TEMPERATURE = Some PNone /\
  data m !! ATTR_TARGET_TEMPERATURE = Some PNone /\
  data m !! ATTR_CTL_TARGET_TEMPERATURE = Some PNone /\
  data m !! ATTR_CTL_HVAC_MODE = Some PNone /\
  data m !! ATTR_HVAC_MODE = Some PNone /\
  data m !! ATTR_CTL_TEMPERATURE_UNIT = Some (PStr hass_unit) /\
  data m !! ATTR_TEMPERATURE_UNIT = Some (PStr hass_unit) /\
  ~ is_available (data m) /\
  has_keys (data m) /\
  keep_going m = true /\ command_event m = false /\ device m = false /\ trace m = [].
Proof.
  cbn zeta. unfold monitor_init. mcbn.
  repeat split; try reflexivity.
  - intros [v [Hv Ht]]. by injection Hv as <-.
  - apply setup_data_has_keys.
Qed.

(** ** Responses *)

Lemma handle_map_unmapped rsp (values : gmap string pyval) :
  values !! rsp = None -> handle_map rsp values = PNone.
Proof. intros H. unfold handle_map. by rewrite H. Qed.

Lemma handle_float_malformed rsp : py_float rsp = None -> handle_float rsp = PNone.
Proof. intros H. unfold handle_float. by rewrite H. Qed.

Lemma process_response_data value key stored m :
  data m !! key = Some stored ->
  data (process_response value key m).2 = data m \/
  (py_ne value stored = true /\ value <> PNone /\
   data (process_response value key m).2 = <[key:=value]> (data m)).
Proof.
  intros Hk.
  apply (wp_process_response value key
           (fun _ m' => data m' = data m \/
              (py_ne value stored = true /\ value <> PNone /\
               data m' = <[key:=value]> (data m)))).
  - by left.
  - by left.
  - by left.
  - intros stored' Hv Hk' Hs. cbn zeta. mcbn.
    assert (stored' = stored) as -> by congruence.
    destruct (<[key:=value]> (data m) !! ATTR_AVAILABLE) as [av|]; [|by right].
    by destruct (truthy av); right.
Qed.

Lemma exchange_ignored op decode key rsp m :
  device m = true -> decode rsp = PNone ->
  exchange op decode key (Reply rsp) m =
  (Ok tt, emit (warned key) (emit (EvCall op) m)).
Proof. intros Hd Hv. by rewrite exchange_reply, Hv, process_response_none. Qed.

Lemma exchange_same op decode key rsp stored m :
  device m = true -> decode rsp <> PNone -> data m !! key = Some stored ->
  py_ne (decode rsp) stored = false ->
  exchange op decode key (Reply rsp) m = (Ok tt, emit (EvCall op) m).
Proof.
  intros Hd Hv Hk Hs. rewrite exchange_reply by done.
  by erewrite process_response_same.
Qed.

(** C5. A response is stored only when it differs from the stored value
    (Python's [!=]); a response outside the expected mapping, or one that
    [float] cannot read, decodes to [None], is logged and leaves the
    dictionary as it is; a response equal to the stored value leaves the
    monitor as it is. In none of these cases is the observer notified: the
    monitor afterwards is the monitor before plus the device request and, for
    a response without a value, the log record. *)
Theorem C5_responses_stored_or_ignored :
  (forall value key stored m,
     data m !! key = Some stored ->
     data (process_response value key m).2 = data m \/
     (py_ne value stored = true /\ value <> PNone /\
      data (process_response value key m).2 = <[key:=value]> (data m))) /\
  (forall value key stored m,
     value <> PNone -> data m !! key = Some stored -> py_ne value stored = false ->
     process_response value key m = (Ok tt, m)) /\
  (forall rsp values key m,
     values !! rsp = None ->
     process_response (handle_map rsp values) key m = (Ok tt, emit (warned key) m)) /\
  (forall rsp key m,
     py_float rsp = None ->
     process_response (handle_float rsp) key m = (Ok tt, emit (warned key) m)) /\
  (forall rsp m,
     device m = true -> rsp <> ANOVA_STATE_RUNNING -> rsp <> ANOVA_STATE_STOPPED ->
     get_status (Reply rsp) m =
       (Ok tt, emit (warned ATTR_HVAC_MODE) (emit (EvCall OpGetStatus) m))) /\
  (forall rsp m,
     device m = true -> rsp <> ANOVA_TEMP_CELCIUS -> rsp <> ANOVA_TEMP_FAHRENHEIT ->
     get_temperature_unit (Reply rsp) m =
       (Ok tt, emit (warned CONF_TEMPERATURE_UNIT) (emit (EvCall OpGetUnit) m))) /\
  (forall rsp m,
     device m = true -> py_float rsp = None ->
     get_current_temperature (Reply rsp) m =
       (Ok tt, emit (warned ATTR_CURRENT_TEMPERATURE)
                 (emit (EvCall OpGetCurrentTemperature) m)) /\
     get_target_temperature (Reply rsp) m =
       (Ok tt, emit (warned ATTR_TARGET_TEMPERATURE)
                 (emit (EvCall OpGetTargetTemperature) m))) /\
  (forall rsp value stored m,
     device m = true -> py_float rsp = Some value ->
     data m !! ATTR_CURRENT_TEMPERATURE = Some stored ->
     py_ne (PFloat value) stored = false ->
     get_current_temperature (Reply rsp) m =
       (Ok tt, emit (EvCall OpGetCurrentTemperature) m)).
Proof.
  repeat split.
  - intros. by apply process_response_data.
  - intros. by eapply process_response_same.
  - intros rsp values key m H. by rewrite handle_map_unmapped, process_response_none.
  - intros rsp key m H. by rewrite handle_float_malformed, process_response_none.
  - intros rsp m Hd H1 H2. rewrite get_status_exchange.
    apply exchange_ignored; [done|]. apply handle_map_unmapped.
    by rewrite lookup_insert_ne, lookup_singleton_ne.
  - intros rsp m Hd H1 H2. rewrite get_temperature_unit_exchange.
    apply exchange_ignored; [done|]. apply handle_map_unmapped.
    unfold TEMP_MAP. by rewrite lookup_insert_ne, lookup_singleton_ne.
  - rewrite get_current_temperature_exchange.
    apply exchange_ignored; [done|]. by apply handle_float_malformed.
  - rewrite get_target_temperature_exchange.
    apply exchange_ignored; [done|]. by apply handle_float_malformed.
  - intros rsp value stored m Hd Hf Hk Hs. rewrite get_current_temperature_exchange.
    eapply exchange_same; try done; unfold handle_float; by rewrite Hf.
Qed.

(** ** Notifications *)

Lemma process_response_shown value key m :
  shown_available (trace m) (process_response value key m).2.
Proof.
  apply (wp_process_response value key (fun _ m' => shown_available (trace m) m')).
  - intros _. apply shown_available_emit; [done|apply shown_available_refl].
  - intros _ _. apply shown_available_refl.
  - intros stored _ _ _. apply shown_available_refl.
  - intros stored Hv Hk Hs. cbn zeta. mcbn.
    assert (Hm' : shown_available (trace m) (with_data (<[key:=value]> (data m)) m)).
    { exists []. mcbn. by rewrite app_nil_r. }
    destruct (<[key:=value]> (data m) !! ATTR_AVAILABLE) as [av|] eqn:Ha; [|done].
    destruct (truthy av) eqn:Hav; [|done].
    apply shown_available_emit; [|done]. by exists av.
Qed.

Lemma loop_body_shown o next_command m :
  shown_available (trace m) (loop_body o next_command m).2.
Proof.
  apply (keeps_loop_body _ (shown_available_quiet (trace m))).
  - intros m' _ Hm'. done.
  - apply shown_available_refl.
Qed.

Lemma request_set_hvac_mode_eq hvac_mode m :
  request_set_hvac_mode hvac_mode m =
  (Ok tt, after_request ATTR_CTL_HVAC_MODE ATTR_HVAC_MODE (PStr hvac_mode) m).
Proof. reflexivity. Qed.

Lemma request_set_temperature_eq temperature m :
  request_set_temperature temperature m =
  (Ok tt, after_request ATTR_CTL_TARGET_TEMPERATURE ATTR_TARGET_TEMPERATURE
            (PFloat temperature) m).
Proof. reflexivity. Qed.

Lemma request_set_temperature_unit_eq unit_ m :
  request_set_temperature_unit unit_ m =
  match data m !! CONF_TEMPERATURE_UNIT with
  | None => (Raise KeyError, m)
  | Some current =>
      if py_ne (PStr unit_) current
      then (Ok tt, after_request ATTR_CTL_TEMPERATURE_UNIT ATTR_TEMPERATURE_UNIT
                     (PStr unit_) m)
      else (Ok tt, m)
  end.
Proof.
  unfold request_set_temperature_unit, mbind, M_bind, bind, getitem.
  destruct (data m !! CONF_TEMPERATURE_UNIT) as [current|]; [|done].
  by destruct (py_ne (PStr unit_) current).
Qed.

(** C4. Whatever [process_response] appends to the trace, and whatever a
    whole pass of the inner loop appends, contains only notifications made
    while [available] was true. The [request_set_*] methods, when they
    write, write the request field and the live field, set the event and
    notify once, whatever [available] is; [request_set_temperature_unit]
    writes unless the unit is the one already stored. *)
Theorem C4_notification_gate :
  (forall value key m, shown_available (trace m) (process_response value key m).2) /\
  (forall o next_command m,
     shown_available (trace m) (loop_body o next_command m).2) /\
  (forall hvac_mode m,
     request_set_hvac_mode hvac_mode m =
     (Ok tt, after_request ATTR_CTL_HVAC_MODE ATTR_HVAC_MODE (PStr hvac_mode) m)) /\
  (forall temperature m,
     request_set_temperature temperature m =
     (Ok tt, after_request ATTR_CTL_TARGET_TEMPERATURE ATTR_TARGET_TEMPERATURE
               (PFloat temperature) m)) /\
  (forall unit_ current m,
     data m !! CONF_TEMPERATURE_UNIT = Some current ->
     request_set_temperature_unit unit_ m =
     if py_ne (PStr unit_) current
     then (Ok tt, after_request ATTR_CTL_TEMPERATURE_UNIT ATTR_TEMPERATURE_UNIT
                    (PStr unit_) m)
     else (Ok tt, m)) /\
  (forall ctl live v m,
     snapshots (trace (after_request ctl live v m)) =
       snapshots (trace m) ++ [requested ctl live v (data m)] /\
     data (after_request ctl live v m) = requested ctl live v (data m) /\
     command_event (after_request ctl live v m) = true).
Proof.
  split; [exact process_response_shown|].
  split; [exact loop_body_shown|].
  split; [exact request_set_hvac_mode_eq|].
  split; [exact request_set_temperature_eq|].
  split.
  - intros unit_ current m Hk. by rewrite request_set_temperature_unit_eq, Hk.
  - intros ctl live v m. unfold after_request. cbn zeta. mcbn.
    by rewrite snapshots_app.
Qed.

(** ** The target temperature comes back *)

Lemma target_echo_same temperature m :
  py_eq temperature temperature = true -> temperature <> PNone ->
  device m = true ->
  data m !! ATTR_TARGET_TEMPERATURE = Some temperature ->
  set_target_temperature temperature (Reply (py_str temperature)) m =
  (Ok tt, emit (EvCall (OpSetTemperature temperature)) m).
Proof.
  intros Heq Hv Hd Hk. rewrite set_target_temperature_exchange.
  eapply exchange_same; [done| | |].
  - unfold handle_map. by rewrite lookup_singleton_eq.
  - mcbn. exact Hk.
  - unfold handle_map. rewrite lookup_singleton_eq. unfold py_ne. by rewrite Heq.
Qed.

Lemma target_echo_other temperature rsp m :
  rsp <> py_str temperature -> device m = true ->
  set_target_temperature temperature (Reply rsp) m =
  (Ok tt, emit (warned ATTR_TARGET_TEMPERATURE)
            (emit (EvCall (OpSetTemperature temperature)) m)).
Proof.
  intros Hrsp Hd. rewrite set_target_temperature_exchange.
  apply exchange_ignored; [done|]. apply handle_map_unmapped.
  by rewrite lookup_singleton_ne.
Qed.

(** C8. After [request_set_temperature(72.5)] the target and the request
    both hold 72.5. When the worker then sends the request and the device
    echoes ["72.5"], which is [str(72.5)], the value decoded is 72.5, equal
    to the stored one: the target stays 72.5 and the trace gains the device
    request only, no notification. Any other echo decodes to [None], is
    logged, and leaves the dictionary as it is. *)
Theorem C8_target_round_trip (m : monitor) :
  py_str_float 72.5 = "72.5" ->
  device m = true ->
  let m1 := (request_set_temperature 72.5 m).2 in
  data m1 !! ATTR_TARGET_TEMPERATURE = Some (PFloat 72.5) /\
  data m1 !! ATTR_CTL_TARGET_TEMPERATURE = Some (PFloat 72.5) /\
  set_target_temperature (PFloat 72.5) (Reply "72.5") m1 =
    (Ok tt, emit (EvCall (OpSetTemperature (PFloat 72.5))) m1) /\
  forall rsp, rsp <> "72.5" ->
    set_target_temperature (PFloat 72.5) (Reply rsp) m1 =
    (Ok tt, emit (warned ATTR_TARGET_TEMPERATURE)
              (emit (EvCall (OpSetTemperature (PFloat 72.5))) m1)).
Proof.
  intros Hstr Hd. rewrite request_set_temperature_eq. cbn zeta.
  unfold after_request, requested. cbn zeta. mcbn.
  split; [by rewrite lookup_insert_eq|].
  split; [by rewrite lookup_insert_ne, lookup_insert_eq|].
  split.
  - rewrite <- Hstr. change (py_str_float 72.5) with (py_str (PFloat 72.5)).
    apply target_echo_same; try done. mcbn. by rewrite lookup_insert_eq.
  - intros rsp Hrsp. apply target_echo_other; [|done]. simpl. by rewrite Hstr.
Qed.

(** ** One pass of the inner loop *)

Lemma consumed_same (u t md : option pyval) :
  consumed [u; t; md] [u; t; md] = 0%nat.
Proof. by destruct u as [[]|], t as [[]|], md as [[]|]. Qed.

Lemma consumed_spec unit_ target mode :
  (consumed [Some unit_; Some target; Some mode] (spec_pending unit_ target mode) <= 1)%nat.
Proof. destruct unit_, target, mode; vm_compute; lia. Qed.

(** C1. One pass of the inner loop does exactly one action, a request to
    the device or the idle wait, and it is the one the priority rule names:
    the unit request if there is one, else the target-temperature request,
    else the mode request (start for heat, stop otherwise), else the next
    poll step. When the device answers, the pass ends normally, the request
    field that was served is empty and the other two are as before; at most
    one field is consumed. *)
Theorem C1_one_action_by_priority (unit_ target mode : pyval) (o : outcome)
    (next_command : Z) (m : monitor) :
  has_keys (data m) -> device m = true ->
  pending (data m) = [Some unit_; Some target; Some mode] ->
  exists r m' evs,
    loop_body o next_command m = (r, m') /\
    trace m' = trace m ++ evs /\
    actions evs = [spec_action unit_ target mode next_command] /\
    (consumed (pending (data m)) (pending (data m')) <= 1)%nat /\
    (is_wait (spec_action unit_ target mode next_command) = true \/
     (exists rsp, o = Reply rsp) ->
     r = Ok (spec_next unit_ target mode next_command) /\
     pending (data m') = spec_pending unit_ target mode).
Proof.
  intros Hkeys Hdev Hpend.
  pose proof (loop_body_passed unit_ target mode o next_command m Hkeys Hdev Hpend) as H.
  unfold wp in H. destruct (loop_body o next_command m) as [r m']. simpl in H.
  destruct H as [[_ _ _ _ (evs & Happ & Hact & _)] Hserved Hfault].
  exists r, m', evs. do 3 (split; [done|]). split; [|exact Hserved].
  destruct (is_wait (spec_action unit_ target mode next_command)) eqn:Hw.
  - destruct Hserved as [_ ->]; [by left|]. rewrite Hpend. apply consumed_spec.
  - destruct o as [rsp|e].
    + destruct Hserved as [_ ->]; [right; by exists rsp|].
      rewrite Hpend. apply consumed_spec.
    + destruct (Hfault e eq_refl eq_refl) as [_ ->].
      rewrite Hpend, consumed_same. lia.
Qed.

(** ** A pass that ends in a fault *)

Lemma spec_action_pending unit_ target mode n n' :
  (is_set (Some unit_) || is_set (Some target) || is_set (Some mode)) = true ->
  spec_action unit_ target mode n = spec_action unit_ target mode n'.
Proof. by destruct unit_, target, mode. Qed.

Lemma handle_exception_eq ex m :
  handle_exception ex m =
  (Ok tt,
   match ex with
   | ExceptionPexpect => with_device false (with_keep_going false m)
   | NotConnectedError => emit (EvLog LError "Unable to connect: %s" (ArgExn ex)) m
   | NotificationTimeout => emit (EvLog LError "Unable to subscribe: %s" (ArgExn ex)) m
   | RuntimeError => emit (EvLog LError "Unable to send command: %s" (ArgExn ex)) m
   | _ => emit (EvLog LWarn "%s" (ArgExn ex)) m
   end).
Proof. by destruct ex. Qed.

Lemma mark_unavailable_eq v m :
  data m !! ATTR_AVAILABLE = Some v ->
  mark_unavailable m =
  (Ok tt,
   if truthy v
   then emit (EvNotify (<[ATTR_AVAILABLE:=PBool false]> (data m)))
          (with_data (<[ATTR_AVAILABLE:=PBool false]> (data m)) m)
   else m).
Proof.
  intros Hv. unfold mark_unavailable, mbind, M_bind, bind, getitem. rewrite Hv.
  by destruct (truthy v).
Qed.


Lemma kept_refl m : kept m m.
Proof. by split. Qed.

Lemma kept_trans m0 m1 m2 : kept m0 m1 -> kept m1 m2 -> kept m0 m2.
Proof.
  intros [Hd1 Hg1 Hk1 Hf1] [Hd2 Hg2 Hk2 Hf2].
  split; [congruence|congruence|auto|].
  intros k Hk. by rewrite Hf2, Hf1.
Qed.

Lemma kept_pending m m' : kept m m' -> pending (data m') = pending (data m).
Proof. intros [_ _ _ Hf]. unfold pending. by rewrite !Hf. Qed.

Lemma mark_unavailable_kept v m :
  data m !! ATTR_AVAILABLE = Some v -> kept m (mark_unavailable m).2.
Proof.
  intros Hv. rewrite (mark_unavailable_eq v m Hv). simpl.
  destruct (truthy v); [|apply kept_refl].
  split; mcbn; try done.
  - apply has_keys_insert.
  - intros k Hk. mcbn. by rewrite lookup_insert_ne.
Qed.

Lemma mark_unavailable_disconnects v m :
  data m !! ATTR_AVAILABLE = Some v ->
  disconnects (trace (mark_unavailable m).2) = disconnects (trace m).
Proof.
  intros Hv. rewrite (mark_unavailable_eq v m Hv). simpl.
  destruct (truthy v); mcbn; [|done]. by rewrite disconnects_emit.
Qed.

Lemma kept_disconnected o m : kept m (disconnected o m).
Proof. unfold disconnected. destruct (device m), o; by split. Qed.

Lemma disconnected_disconnects o m :
  disconnects (trace (disconnected o m)) =
  if device m then S (disconnects (trace m)) else disconnects (trace m).
Proof.
  unfold disconnected. destruct (device m); [|done].
  destruct o; mcbn; rewrite !disconnects_app; unfold disconnects; simpl; lia.
Qed.

(** Lines 456-467: the [finally] clause always ends normally. *)
Lemma cleanup_eq o v m :
  data m !! ATTR_AVAILABLE = Some v ->
  cleanup o m = (Ok tt, disconnected o (mark_unavailable m).2).
Proof.
  intros Hv. unfold cleanup, mbind, M_bind, bind.
  rewrite (mark_unavailable_eq v m Hv). simpl.
  unfold try_except, self_device, device_call, device_method, invoke, disconnected,
    log, modify, mbind, M_bind, bind, mret, M_ret, ret.
  set (m1 := if truthy v then _ else m). clearbody m1.
  destruct (device m1) eqn:Hd; [|done]. rewrite Hd. by destruct o.
Qed.

Lemma connect_eq o name mac m :
  data m !! ATTR_NAME = Some name -> data m !! ATTR_MAC = Some mac ->
  device m = true ->
  connect o m =
  let m1 := emit (EvCall OpConnect)
              (emit (EvLog LDebug "Connecting to {0} with timeout after {1} seconds"
                       ArgNothing) m) in
  match o with
  | Reply _ => (Ok tt, emit (EvLog LDebug "Subscribed to %s (%s)" ArgNothing) m1)
  | Fault ex => (Raise ex, m1)
  end.
Proof.
  intros Hn Hm Hd. apply wp_eq. unfold connect.
  repeat wp_step; congruence.
Qed.

Lemma kept_same_data m m' :
  device m' = device m -> keep_going m' = keep_going m -> data m' = data m ->
  kept m m'.
Proof. intros Hd Hg He. split; try done; [by rewrite He|]. intros k _. by rewrite He. Qed.

Lemma connect_kept o m : kept m (connect o m).2.
Proof.
  assert (H : wp (connect o) (fun _ m' => kept m m') m); [|exact H].
  unfold connect. repeat wp_step; by apply kept_same_data.
Qed.

Lemma handle_exception_kept ex m :
  ex <> ExceptionPexpect -> kept m (handle_exception ex m).2.
Proof. intros Hex. rewrite handle_exception_eq. by destruct ex. Qed.

Lemma handle_exception_data ex m : data (handle_exception ex m).2 = data m.
Proof. rewrite handle_exception_eq. by destruct ex. Qed.

Lemma has_keys_available d : has_keys d -> exists v, d !! ATTR_AVAILABLE = Some v.
Proof. intros Hd. apply (has_keys_lookup d ATTR_AVAILABLE Hd). unfold KEYS. set_solver. Qed.

Lemma recover_kept ex d rsp m :
  ex <> ExceptionPexpect -> has_keys (data m) -> device m = true ->
  exists m', recover ex d (Reply rsp) m = (Ok tt, m') /\ kept m m'.
Proof.
  intros Hex Hkeys Hdev. unfold recover, mbind, M_bind, bind.
  pose proof (handle_exception_kept ex m Hex) as Hk1.
  rewrite handle_exception_eq in *. simpl in Hk1 |- *.
  set (m1 := match ex with ExceptionPexpect => _ | _ => _ end) in *. clearbody m1.
  destruct (has_keys_available (data m1)) as [v1 Hv1]; [by apply Hk1|].
  pose proof (kept_trans _ _ _ (mark_unavailable_kept v1 m1 Hv1)
                (kept_disconnected d _)) as Hk2.
  rewrite (cleanup_eq d v1 m1 Hv1).
  set (m2 := disconnected d _) in *. clearbody m2.
  pose proof (kept_trans _ _ _ Hk1 Hk2) as Hk12.
  destruct (has_keys_available (data m2)) as [v2 Hv2]; [by apply Hk12|].
  pose proof (mark_unavailable_kept v2 m2 Hv2) as Hk3.
  destruct (mark_unavailable m2) as [r3 m3] eqn:Hm3.
  rewrite (mark_unavailable_eq v2 m2 Hv2) in Hm3. injection Hm3 as <- Hm3.
  simpl in Hk3. pose proof (kept_trans _ _ _ Hk12 Hk3) as Hk123.
  pose proof (connect_kept (Reply rsp) m3) as Hk4.
  destruct (has_keys_lookup (data m3) ATTR_NAME) as [name Hname];
    [by apply Hk123|unfold KEYS; set_solver|].
  destruct (has_keys_lookup (data m3) ATTR_MAC) as [mac Hmac];
    [by apply Hk123|unfold KEYS; set_solver|].
  rewrite (connect_eq (Reply rsp) name mac m3 Hname Hmac) in *;
    [|by rewrite (kp_device _ _ Hk123)..].
  eexists. split; [done|]. by eapply kept_trans.
Qed.

Lemma spec_action_pending_call unit_ target mode n :
  (is_set (Some unit_) || is_set (Some target) || is_set (Some mode)) = true ->
  is_wait (spec_action unit_ target mode n) = false.
Proof. by destruct unit_, target, mode. Qed.

(** C3 (as amended). When the device call of a pending command raises, the
    pass ends with that exception and the three request fields are as they
    were: the field that triggered the command is cleared only after the
    call has returned. The handlers and the [finally] clause do not touch the
    request fields either, so after a fault that the worker recovers from and
    a successful reconnection the first pass of the inner loop sends the same
    command again. *)
Theorem C3_pending_survives_fault (unit_ target mode : pyval) (ex : exn)
    (next_command : Z) (d o' : outcome) (rsp : string) (m : monitor) :
  has_keys (data m) -> device m = true ->
  pending (data m) = [Some unit_; Some target; Some mode] ->
  (is_set (Some unit_) || is_set (Some target) || is_set (Some mode)) = true ->
  exists m1 evs1,
    loop_body (Fault ex) next_command m = (Raise ex, m1) /\
    trace m1 = trace m ++ evs1 /\
    actions evs1 = [spec_action unit_ target mode next_command] /\
    pending (data m1) = [Some unit_; Some target; Some mode] /\
    (ex <> ExceptionPexpect ->
     exists m2 r3 m3 evs3,
       recover ex d (Reply rsp) m1 = (Ok tt, m2) /\
       pending (data m2) = [Some unit_; Some target; Some mode] /\
       loop_body o' MON_GET_TEMPERATURE_UNIT m2 = (r3, m3) /\
       trace m3 = trace m2 ++ evs3 /\
       actions evs3 = [spec_action unit_ target mode next_command]).
Proof.
  intros Hkeys Hdev Hpend Hset.
  pose proof (loop_body_passed unit_ target mode (Fault ex) next_command m
                Hkeys Hdev Hpend) as H.
  unfold wp in H. destruct (loop_body (Fault ex) next_command m) as [r m1]. simpl in H.
  destruct H as [[_ Hdev1 Hkeys1 _ (evs1 & Happ1 & Hact1 & _)] _ Hfault].
  destruct (Hfault ex) as [-> Hpend1]; [by apply spec_action_pending_call|done|].
  exists m1, evs1. do 3 (split; [done|]). split; [congruence|].
  intros Hex.
  destruct (recover_kept ex d rsp m1 Hex) as (m2 & Hrec & Hkept); [auto|congruence|].
  assert (Hpend2 : pending (data m2) = [Some unit_; Some target; Some mode]).
  { rewrite (kept_pending _ _ Hkept). congruence. }
  assert (Hkeys2 : has_keys (data m2)) by (apply Hkept; auto).
  assert (Hdev2 : device m2 = true) by (rewrite (kp_device _ _ Hkept); congruence).
  pose proof (loop_body_passed unit_ target mode o' MON_GET_TEMPERATURE_UNIT m2
                Hkeys2 Hdev2 Hpend2) as H3.
  unfold wp in H3.
  destruct (loop_body o' MON_GET_TEMPERATURE_UNIT m2) as [r3 m3] eqn:Hbody.
  simpl in H3. destruct H3 as [[_ _ _ _ (evs3 & Happ3 & Hact3 & _)] _ _].
  exists m2, r3, m3, evs3. do 3 (split; [done|]). split; [exact Happ3|].
  rewrite Hact3. f_equal. by apply spec_action_pending.
Qed.

(** ** The end of a connection *)

Lemma try_finally_cleanup {A} (body : M A) o v r m m1 :
  body m = (r, m1) -> data m1 !! ATTR_AVAILABLE = Some v ->
  try_finally body (cleanup o) m = (r, disconnected o (mark_unavailable m1).2).
Proof.
  intros Hbody Hv. unfold try_finally. by rewrite Hbody, (cleanup_eq o v m1 Hv).
Qed.

(** One pass of the outer loop, whatever [disconnect] answers: how it ends,
    and the monitor [m1] that lines 457-459 leave for the [disconnect]
    request. *)
Lemma session_ends early connect_answer ticks m :
  has_keys (data m) -> device m = true ->
  exists e m1,
    (forall d, session (SessionInput early connect_answer ticks d) m =
               (Ok e, match e with Connected _ => m1 | _ => disconnected d m1 end)) /\
    disconnects (trace m1) = disconnects (trace m) /\
    match e with
    | Recovered ExceptionPexpect => device m1 = false /\ keep_going m1 = false
    | _ => device m1 = true
    end.
Proof.
  intros Hkeys Hdev.
  assert (Hset : settled (disconnects (trace m)) m) by done.
  set (n := disconnects (trace m)) in *.
  pose proof (settled_closed n) as Hcl.
  destruct (has_keys_available (data m) Hkeys) as [v Hv].
  pose proof (keeps_mark_unavailable _ Hcl m Hset) as H0. unfold wp in H0.
  set (loop := (connect connect_answer;;
                connected_loop ticks MON_GET_TEMPERATURE_UNIT)).
  assert (Hloop : keeps (settled n) loop).
  { apply keeps_bind; [apply keeps_connect, Hcl|]. intros _.
    apply keeps_connected_loop; apply Hcl. }
  assert (Hsession : forall d, session (SessionInput early connect_answer ticks d) m =
            guarded (SessionInput early connect_answer ticks d) (mark_unavailable m).2).
  { intros d. unfold session, mbind, M_bind, bind.
    by rewrite (mark_unavailable_eq v m Hv). }
  set (m0 := (mark_unavailable m).2) in *. clearbody m0.
  specialize (Hloop m0 H0). unfold wp in Hloop.
  destruct (loop m0) as [[[|nc]|ex] m1] eqn:Hrun; simpl in Hloop;
    destruct Hloop as (Hdev1 & Hkeys1 & Hn1).
  - (* the inner loop was left: break *)
    destruct (has_keys_available (data m1) Hkeys1) as [v1 Hv1].
    exists Stopped, (mark_unavailable m1).2. split; [|split].
    + intros d. rewrite Hsession. unfold guarded. simpl. fold loop. rewrite Hrun.
      by apply (try_finally_cleanup _ d v1).
    + by rewrite (mark_unavailable_disconnects v1 m1 Hv1).
    + by rewrite (kp_device _ _ (mark_unavailable_kept v1 m1 Hv1)).
  - (* the ticks ran out *)
    exists (Connected nc), m1. split; [|done].
    intros d. rewrite Hsession. unfold guarded. simpl. fold loop. by rewrite Hrun.
  - (* an exception *)
    set (m2 := (handle_exception ex m1).2).
    assert (Hv2 : exists v2, data m2 !! ATTR_AVAILABLE = Some v2).
    { apply has_keys_available. unfold m2. by rewrite handle_exception_data. }
    destruct Hv2 as [v2 Hv2].
    exists (Recovered ex), (mark_unavailable m2).2. split; [|split].
    + intros d. rewrite Hsession. unfold guarded. simpl. fold loop. rewrite Hrun.
      apply (try_finally_cleanup _ d v2); [|done].
      unfold mbind, M_bind, bind, m2. by rewrite handle_exception_eq.
    + rewrite (mark_unavailable_disconnects v2 m2 Hv2).
      unfold m2. rewrite handle_exception_eq. simpl.
      by destruct ex; mcbn; rewrite ?disconnects_emit.
    + pose proof (mark_unavailable_kept v2 m2 Hv2) as [Hd Hg _ _].
      rewrite Hd, Hg. unfold m2. rewrite handle_exception_eq. simpl.
      by destruct ex.
Qed.

(** C6 (as amended). A pass of the outer loop that leaves the inner loop,
    through [terminate] or through a fault the worker recovers from,
    requests [disconnect] exactly once, and a [disconnect] that raises is
    logged and changes nothing else: the pass ends normally and in the same
    way. After [ExceptionPexpect] the client object has been dropped and
    [disconnect] is not requested; the worker stops. *)
Theorem C6_disconnect_on_exit (early : list api_call) (connect_answer : outcome)
    (ticks : list tick) (m : monitor) :
  has_keys (data m) -> device m = true ->
  exists e m1,
    (forall d, session (SessionInput early connect_answer ticks d) m =
               (Ok e, match e with Connected _ => m1 | _ => disconnected d m1 end)) /\
    match e with
    | Connected _ => disconnects (trace m1) = disconnects (trace m)
    | Recovered ExceptionPexpect =>
        (forall d, disconnects (trace (disconnected d m1)) = disconnects (trace m)) /\
        device m1 = false /\ keep_going m1 = false
    | _ =>
        (forall d, disconnects (trace (disconnected d m1)) = S (disconnects (trace m))) /\
        (forall ex rsp,
           disconnected (Fault ex) m1 =
           emit (EvLog LDebug "%s" (ArgExn ex)) (disconnected (Reply rsp) m1))
    end.
Proof.
  intros Hkeys Hdev.
  destruct (session_ends early connect_answer ticks m Hkeys Hdev)
    as (e & m1 & Hsession & Hn & He).
  exists e, m1. split; [done|].
  assert (Hon : device m1 = true ->
    (forall d, disconnects (trace (disconnected d m1)) = S (disconnects (trace m))) /\
    (forall ex rsp,
       disconnected (Fault ex) m1 =
       emit (EvLog LDebug "%s" (ArgExn ex)) (disconnected (Reply rsp) m1))).
  { intros Hd. split.
    - intros d. by rewrite disconnected_disconnects, Hd, Hn.
    - intros ex rsp. unfold disconnected. by rewrite Hd. }
  destruct e as [|ex|nc]; [by apply Hon| |done].
  destruct ex; try by apply Hon.
  destruct He as [Hd Hg]. split; [|done].
  intros d. by rewrite disconnected_disconnects, Hd, Hn.
Qed.

(** ** [available] *)

Lemma refresh_available_up m :
  has_keys (data m) -> readings_known (data m) -> ~ is_available (data m) ->
  refresh_available m = (Ok tt, turned true m).
Proof.
  intros Hkeys Hknown Hdown. apply wp_eq, wp_refresh_available; [done..|].
  by intros [?|?].
Qed.

Lemma refresh_available_stay m :
  has_keys (data m) -> is_available (data m) \/ ~ readings_known (data m) ->
  refresh_available m = (Ok tt, m).
Proof.
  intros Hkeys Hstay. apply wp_eq, wp_refresh_available; [done| |done].
  intros Hknown Hdown. by destruct Hstay.
Qed.

Lemma mark_unavailable_down_eq m :
  is_available (data m) -> mark_unavailable m = (Ok tt, turned false m).
Proof.
  intros Ha. apply wp_eq, wp_mark_unavailable; [|done..].
  intros Hnone. destruct Ha as [v [Hv _]]. congruence.
Qed.

Lemma mark_unavailable_stay m :
  is_Some (data m !! ATTR_AVAILABLE) -> ~ is_available (data m) ->
  mark_unavailable m = (Ok tt, m).
Proof.
  intros [v Hv] Ha. apply wp_eq, wp_mark_unavailable; [congruence|done|done].
Qed.

Lemma dispatch_flag o next_command m :
  data (dispatch o next_command m).2 !! ATTR_AVAILABLE = data m !! ATTR_AVAILABLE.
Proof.
  by apply (keeps_dispatch _ (rq_quiet _ (flag_requesting (data m !! ATTR_AVAILABLE)))
              o next_command m).
Qed.

Lemma arrive_flag c m : data (arrive c m) !! ATTR_AVAILABLE = data m !! ATTR_AVAILABLE.
Proof. by apply (keeps_arrive _ (flag_requesting (data m !! ATTR_AVAILABLE)) c m). Qed.

Lemma connect_flag o m :
  data (connect o m).2 !! ATTR_AVAILABLE = data m !! ATTR_AVAILABLE.
Proof.
  by apply (keeps_connect _ (rq_quiet _ (flag_requesting (data m !! ATTR_AVAILABLE)))
              o m).
Qed.

Lemma setup_throughout I name mac hass_unit :
  I (setup_data name mac hass_unit) ->
  throughout I (monitor_init (setup_data name mac hass_unit)).
Proof. intros HI. split; [done|]. by apply Forall_nil. Qed.

Lemma setup_not_available name mac hass_unit :
  ~ is_available (setup_data name mac hass_unit).
Proof. intros [v [Hv Ht]]. by injection Hv as <-. Qed.

(** C2 (as amended). Whenever [available] is true the current temperature,
    the target temperature and the unit are all known: in every run from
    the dictionary of [setup_platform] this holds of the dictionary at the end
    and of every dictionary shown to the observer. (The converse does not
    hold: the readings stay known while [available] is false after a
    disconnection.) [available] is written in two places, lines 407-409 and
    lines 372-374/457-459, and each write that changes it is followed by
    exactly one notification; the [if]/[elif] chain, the requests of other
    threads, the connection attempt and the exception handlers leave it as
    it is. *)
Theorem C2_available_sound_and_notified :
  (forall script name mac hass_unit,
     throughout available_sound
       (run script (monitor_init (setup_data name mac hass_unit))).2) /\
  (forall m,
     has_keys (data m) -> readings_known (data m) -> ~ is_available (data m) ->
     refresh_available m = (Ok tt, turned true m)) /\
  (forall m,
     has_keys (data m) -> is_available (data m) \/ ~ readings_known (data m) ->
     refresh_available m = (Ok tt, m)) /\
  (forall m,
     is_available (data m) -> mark_unavailable m = (Ok tt, turned false m)) /\
  (forall m,
     is_Some (data m !! ATTR_AVAILABLE) -> ~ is_available (data m) ->
     mark_unavailable m = (Ok tt, m)) /\
  (forall flag m,
     trace (turned flag m) =
       trace m ++ [EvNotify (<[ATTR_AVAILABLE:=PBool flag]> (data m))] /\
     data (turned flag m) = <[ATTR_AVAILABLE:=PBool flag]> (data m)) /\
  (forall o next_command m,
     data (dispatch o next_command m).2 !! ATTR_AVAILABLE = data m !! ATTR_AVAILABLE) /\
  (forall c m, data (arrive c m) !! ATTR_AVAILABLE = data m !! ATTR_AVAILABLE) /\
  (forall o m, data (connect o m).2 !! ATTR_AVAILABLE = data m !! ATTR_AVAILABLE) /\
  (forall ex m, data (handle_exception ex m).2 = data m).
Proof.
  split.
  { intros script name mac hass_unit.
    apply (keeps_run _ (throughout_closed _ available_sound_stable)).
    apply setup_throughout. intros Ha. by apply setup_not_available in Ha. }
  split; [exact refresh_available_up|].
  split; [exact refresh_available_stay|].
  split; [exact mark_unavailable_down_eq|].
  split; [exact mark_unavailable_stay|].
  split; [done|].
  split; [exact dispatch_flag|].
  split; [exact arrive_flag|].
  split; [exact connect_flag|exact handle_exception_data].
Qed.

(** ** Readings are never lost *)

Lemma process_response_never_none value key m :
  data (process_response value key m).2 = data m \/
  (value <> PNone /\ data (process_response value key m).2 = <[key:=value]> (data m)).
Proof.
  apply (wp_process_response value key
           (fun _ m' => data m' = data m \/
                        (value <> PNone /\ data m' = <[key:=value]> (data m)))).
  - by left.
  - by left.
  - by left.
  - intros stored Hv Hk Hs. cbn zeta. mcbn.
    destruct (<[key:=value]> (data m) !! ATTR_AVAILABLE) as [av|]; [|by right].
    by destruct (truthy av); right.
Qed.

Lemma is_available_requesting : requesting (fun m => is_available (data m)).
Proof. split; [apply is_available_quiet|done]. Qed.

Lemma connected_loop_available ticks next_command m :
  is_available (data m) ->
  is_available (data (connected_loop ticks next_command m).2).
Proof.
  apply (keeps_connected_loop _ is_available_requesting).
  intros m' _ _. mcbn. apply is_available_up.
Qed.

Lemma loop_body_available o next_command m :
  is_available (data m) -> is_available (data (loop_body o next_command m).2).
Proof.
  apply (keeps_loop_body _ is_available_quiet).
  intros m' _ _. mcbn. apply is_available_up.
Qed.

Lemma run_known key script m :
  key = ATTR_CURRENT_TEMPERATURE \/ key = ATTR_TARGET_TEMPERATURE ->
  known (data m) key -> known (data (run script m).2) key.
Proof.
  intros Hkey.
  assert (Hnot : key ∉ [ATTR_AVAILABLE; ATTR_CTL_TEMPERATURE_UNIT;
                        ATTR_CTL_TARGET_TEMPERATURE; ATTR_CTL_HVAC_MODE]).
  { destruct Hkey as [->| ->]; set_solver. }
  apply (keeps_run _ (data_closed _ (known_stable key Hnot))).
Qed.

(** C10. [process_response] never stores [None], and no step of the thread
    or request of another thread empties the current temperature or the
    target temperature: once known, each stays known to the end of [run].
    Inside the inner loop, passes and the requests landing between them
    included, [available] never goes from true to false; it is set to false
    only by lines 372-374 and 457-459. *)
Theorem C10_readings_monotone :
  (forall value key m,
     data (process_response value key m).2 = data m \/
     (value <> PNone /\
      data (process_response value key m).2 = <[key:=value]> (data m))) /\
  (forall key script m,
     key = ATTR_CURRENT_TEMPERATURE \/ key = ATTR_TARGET_TEMPERATURE ->
     known (data m) key -> known (data (run script m).2) key) /\
  (forall o next_command m,
     is_available (data m) -> is_available (data (loop_body o next_command m).2)) /\
  (forall ticks next_command m,
     is_available (data m) ->
     is_available (data (connected_loop ticks next_command m).2)) /\
  (forall m,
     is_available (data m) -> mark_unavailable m = (Ok tt, turned false m) /\
     ~ is_available (data (turned false m))).
Proof.
  split; [exact process_response_never_none|].
  split; [exact run_known|].
  split; [exact loop_body_available|].
  split; [exact connected_loop_available|].
  intros m Ha. split; [by apply mark_unavailable_down_eq|].
  unfold turned. cbn zeta. mcbn. apply not_available_down.
Qed.

(** ** The wake-up *)

Lemma dispatch_idle o next_command m :
  pending (data m) = [Some PNone; Some PNone; Some PNone] ->
  spec_poll next_command = EvWait POLLING_CYCLE_SEC ->
  dispatch o next_command m =
  (Ok MON_GET_STATUS, emit (EvWait POLLING_CYCLE_SEC) (event_clear m).2).
Proof.
  intros [= Hu Ht Hm] Hidle. apply wp_eq. unfold dispatch, spec_poll in *.
  wp_step. wp_step; [|congruence]. simplify_eq. simpl.
  wp_step. wp_step; [|congruence]. simplify_eq. simpl.
  wp_step. wp_step; [|congruence]. simplify_eq. simpl.
  repeat case_match; try done; by repeat wp_step.
Qed.

(** C9 (the code at the failing interleaving). The [else] branch of the
    inner loop is [command_event.clear()] followed by
    [command_event.wait(30)], entered after the three request fields were
    found empty. A request that lands after the [clear] leaves the flag set:
    the wait returns at once. A request that lands before the [clear], that
    is between the checks and the wait, has its flag erased: the worker goes
    to sleep with the request staged, until the polling cycle is over or
    another request sets the flag. *)
Theorem C9_wakeup_lost_before_clear :
  (forall o next_command m,
     pending (data m) = [Some PNone; Some PNone; Some PNone] ->
     spec_poll next_command = EvWait POLLING_CYCLE_SEC ->
     dispatch o next_command m =
     (Ok MON_GET_STATUS, emit (EvWait POLLING_CYCLE_SEC) (event_clear m).2)) /\
  (forall hvac_mode m,
     let woken := (request_set_hvac_mode hvac_mode (event_clear m).2).2 in
     event_sleeps woken = false /\
     data woken !! ATTR_CTL_HVAC_MODE = Some (PStr hvac_mode)) /\
  (forall hvac_mode m,
     let raced := (event_clear (request_set_hvac_mode hvac_mode m).2).2 in
     event_sleeps raced = true /\
     data raced !! ATTR_CTL_HVAC_MODE = Some (PStr hvac_mode) /\
     data raced !! ATTR_HVAC_MODE = Some (PStr hvac_mode)) /\
  (forall temperature m,
     let raced := (event_clear (request_set_temperature temperature m).2).2 in
     event_sleeps raced = true /\
     data raced !! ATTR_CTL_TARGET_TEMPERATURE = Some (PFloat temperature)).
Proof.
  split; [exact dispatch_idle|].
  split; [|split]; intros; cbn zeta; unfold event_sleeps; simpl; mcbn;
    repeat split; try done; by norm_lookup.
Qed.

(** ** Comparison of floats *)

Lemma SFcompare_antisym x y :
  SFcompare x y = option_map CompOpp (SFcompare y x).
Proof.
  destruct x as [sx|sx| |sx mx ex], y as [sy|sy| |sy my ey]; simpl;
    try done; try (by destruct sx); try (by destruct sy);
    try (by destruct sx, sy).
  destruct sx, sy; simpl; try done; f_equal;
    rewrite (Z.compare_antisym ey ex);
    destruct (ey ?= ex)%Z; simpl; try done; rewrite ?CompOpp_involutive.
  - exact (Pos.compare_cont_antisym mx my Eq).
  - symmetry. exact (Pos.compare_cont_antisym my mx Eq).
Qed.

Lemma SFcompare_refl x c y : SFcompare x y = Some c -> SFcompare x x = Some Eq.
Proof.
  destruct x as [sx|sx| |sx mx ex]; simpl; try done.
  - by destruct sx.
  - intros _. pose proof (Pos.compare_cont_refl mx Eq) as Hm.
    destruct sx; rewrite Z.compare_refl; simpl; by rewrite Hm.
Qed.

Lemma float_compare (x y : float) :
  (x <? y)%float = match SFcompare (Prim2SF x) (Prim2SF y) with
                   | Some Lt => true | _ => false end /\
  (x <=? y)%float = match SFcompare (Prim2SF x) (Prim2SF y) with
                    | Some (Lt | Eq) => true | _ => false end /\
  is_number x = match SFcompare (Prim2SF x) (Prim2SF x) with
                | Some Eq => true | _ => false end.
Proof.
  unfold is_number.
  by rewrite FloatAxioms.ltb_spec, FloatAxioms.leb_spec, FloatAxioms.eqb_spec.
Qed.

(** [x <= y] holds of numbers only. *)
Lemma leb_is_number x y :
  (x <=? y)%float = true -> is_number x = true /\ is_number y = true.
Proof.
  destruct (float_compare x y) as (_ & -> & ->).
  destruct (float_compare y x) as (_ & _ & ->).
  destruct (SFcompare (Prim2SF x) (Prim2SF y)) as [c|] eqn:Hc; [|done].
  intros _. rewrite (SFcompare_refl _ _ _ Hc).
  rewrite SFcompare_antisym in Hc.
  destruct (SFcompare (Prim2SF y) (Prim2SF x)) as [c'|] eqn:Hc'; [|done].
  by rewrite (SFcompare_refl _ _ _ Hc').
Qed.

Lemma leb_refl x : is_number x = true -> (x <=? x)%float = true.
Proof.
  destruct (float_compare x x) as (_ & -> & ->).
  by destruct (SFcompare (Prim2SF x) (Prim2SF x)) as [[]|].
Qed.

Lemma SFcompare_numbers x y :
  SFcompare x x = Some Eq -> SFcompare y y = Some Eq ->
  exists c, SFcompare x y = Some c.
Proof. destruct x, y; simpl; try done; eauto. Qed.

(** Among numbers, [x < y] fails exactly when [y <= x]. *)
Lemma ltb_false_leb x y :
  is_number x = true -> is_number y = true ->
  (x <? y)%float = false <-> (y <=? x)%float = true.
Proof.
  destruct (float_compare x y) as (-> & _ & ->).
  destruct (float_compare y x) as (_ & -> & ->).
  intros Hx Hy.
  destruct (SFcompare (Prim2SF x) (Prim2SF x)) as [[]|] eqn:Hcx; try done.
  destruct (SFcompare (Prim2SF y) (Prim2SF y)) as [[]|] eqn:Hcy; try done.
  destruct (SFcompare_numbers _ _ Hcx Hcy) as [c Hc].
  rewrite (SFcompare_antisym (Prim2SF y) (Prim2SF x)), Hc. by destruct c.
Qed.

Lemma leb_ltb_false x y : (x <=? y)%float = true -> (y <? x)%float = false.
Proof.
  intros Hle. destruct (leb_is_number x y Hle) as [Hx Hy].
  by apply ltb_false_leb.
Qed.

(** A NaN is neither below nor above anything. *)
Lemma nan_ltb x y :
  is_number x = false -> (x <? y)%float = false /\ (y <? x)%float = false.
Proof.
  intros Hx. split.
  - destruct ((x <? y)%float) eqn:Hlt; [|done].
    destruct (float_compare x y) as (Hs & _ & Hn). rewrite Hs in Hlt. rewrite Hn in Hx.
    destruct (SFcompare (Prim2SF x) (Prim2SF y)) as [c|] eqn:Hc; [|done].
    by rewrite (SFcompare_refl _ _ _ Hc) in Hx.
  - destruct ((y <? x)%float) eqn:Hlt; [|done].
    destruct (float_compare y x) as (Hs & _ & _). rewrite Hs in Hlt.
    destruct (float_compare x x) as (_ & _ & Hn). rewrite Hn in Hx.
    rewrite SFcompare_antisym in Hlt.
    destruct (SFcompare (Prim2SF x) (Prim2SF y)) as [c|] eqn:Hc; [|done].
    by rewrite (SFcompare_refl _ _ _ Hc) in Hx.
Qed.

(** ** The entity *)

Section ClimateFacts.

Variable convert_temperature : Z -> string -> pyval -> result float.

Lemma min_temp_eq u m :
  data m !! ATTR_TEMPERATURE_UNIT = Some u ->
  min_temp convert_temperature m =
  (convert_temperature DEFAULT_MIN_TEMP TEMP_CELSIUS u, m).
Proof.
  intros Hu. unfold min_temp, temperature_unit, pure_call, mbind, M_bind, bind, getitem.
  by rewrite Hu.
Qed.

Lemma max_temp_eq u m :
  data m !! ATTR_TEMPERATURE_UNIT = Some u ->
  max_temp convert_temperature m =
  (convert_temperature DEFAULT_MAX_TEMP TEMP_CELSIUS u, m).
Proof.
  intros Hu. unfold max_temp, temperature_unit, pure_call, mbind, M_bind, bind, getitem.
  by rewrite Hu.
Qed.

(** [set_temperature] when the two bounds are there: the value it hands to
    the monitor. *)
Lemma set_temperature_eq kwargs t u lo hi m :
  kwargs !! ATTR_TEMPERATURE = Some t ->
  data m !! ATTR_TEMPERATURE_UNIT = Some u ->
  convert_temperature DEFAULT_MIN_TEMP TEMP_CELSIUS u = Ok lo ->
  convert_temperature DEFAULT_MAX_TEMP TEMP_CELSIUS u = Ok hi ->
  set_temperature convert_temperature kwargs m =
  request_set_temperature
    (if (t <? lo)%float then lo else if (hi <? t)%float then hi else t) m.
Proof.
  intros Hk Hu Hlo Hhi. unfold set_temperature. rewrite Hk.
  unfold mbind, M_bind, bind. rewrite (min_temp_eq u m Hu), Hlo.
  destruct (t <? lo)%float.
  - by rewrite (min_temp_eq u m Hu), Hlo.
  - rewrite (max_temp_eq u m Hu), Hhi. simpl.
    destruct (hi <? t)%float; [|done].
    by rewrite (max_temp_eq u m Hu), Hhi.
Qed.

(** X1. [set_temperature] leaves the monitor as it is unless it stages a
    request: without a temperature it returns at once, and when the
    dictionary has no unit or the conversion of a bound raises, the exception
    goes to the caller before anything is written. *)
Theorem set_temperature_all_or_nothing :
  (forall kwargs m,
     kwargs !! ATTR_TEMPERATURE = None ->
     set_temperature convert_temperature kwargs m = (Ok tt, m)) /\
  (forall kwargs t m,
     kwargs !! ATTR_TEMPERATURE = Some t ->
     data m !! ATTR_TEMPERATURE_UNIT = None ->
     set_temperature convert_temperature kwargs m = (Raise KeyError, m)) /\
  (forall kwargs t u e m,
     kwargs !! ATTR_TEMPERATURE = Some t ->
     data m !! ATTR_TEMPERATURE_UNIT = Some u ->
     convert_temperature DEFAULT_MIN_TEMP TEMP_CELSIUS u = Raise e ->
     set_temperature convert_temperature kwargs m = (Raise e, m)) /\
  (forall kwargs m,
     (exists e, set_temperature convert_temperature kwargs m = (Raise e, m)) \/
     set_temperature convert_temperature kwargs m = (Ok tt, m) \/
     exists r,
       set_temperature convert_temperature kwargs m =
       (Ok tt, after_request ATTR_CTL_TARGET_TEMPERATURE ATTR_TARGET_TEMPERATURE
                 (PFloat r) m)).
Proof.
  assert (Hnone : forall kwargs m,
     kwargs !! ATTR_TEMPERATURE = None ->
     set_temperature convert_temperature kwargs m = (Ok tt, m)).
  { intros kwargs m Hk. unfold set_temperature. by rewrite Hk. }
  assert (Hunit : forall kwargs t m,
     kwargs !! ATTR_TEMPERATURE = Some t ->
     data m !! ATTR_TEMPERATURE_UNIT = None ->
     set_temperature convert_temperature kwargs m = (Raise KeyError, m)).
  { intros kwargs t m Hk Hu. unfold set_temperature. rewrite Hk.
    unfold min_temp, temperature_unit, mbind, M_bind, bind, getitem. by rewrite Hu. }
  assert (Hmin : forall kwargs t u e m,
     kwargs !! ATTR_TEMPERATURE = Some t ->
     data m !! ATTR_TEMPERATURE_UNIT = Some u ->
     convert_temperature DEFAULT_MIN_TEMP TEMP_CELSIUS u = Raise e ->
     set_temperature convert_temperature kwargs m = (Raise e, m)).
  { intros kwargs t u e m Hk Hu He. unfold set_temperature. rewrite Hk.
    unfold mbind, M_bind, bind. by rewrite (min_temp_eq u m Hu), He. }
  do 3 (split; [done|]). intros kwargs m.
  destruct (kwargs !! ATTR_TEMPERATURE) as [t|] eqn:Hk; [|right; left; by apply Hnone].
  destruct (data m !! ATTR_TEMPERATURE_UNIT) as [u|] eqn:Hu;
    [|left; exists KeyError; by eapply Hunit].
  destruct (convert_temperature DEFAULT_MIN_TEMP TEMP_CELSIUS u) as [lo|e] eqn:Hlo;
    [|left; exists e; by eapply Hmin].
  destruct (convert_temperature DEFAULT_MAX_TEMP TEMP_CELSIUS u) as [hi|e] eqn:Hhi.
  { right; right. eexists. rewrite (set_temperature_eq kwargs t u lo hi m) by done.
    apply request_set_temperature_eq. }
  unfold set_temperature. rewrite Hk. unfold mbind, M_bind, bind.
  rewrite (min_temp_eq u m Hu), Hlo.
  destruct (t <? lo)%float.
  - right; right. exists lo. by rewrite (min_temp_eq u m Hu), Hlo.
  - left. exists e. by rewrite (max_temp_eq u m Hu), Hhi.
Qed.

(** X2. A temperature that is a number is staged within the bounds: below
    [min_temp] it becomes [min_temp], above [max_temp] it becomes [max_temp],
    and in between it is handed on as it is.  The request is written to the
    request field and to the live field, and the observer is told once. *)
Theorem set_temperature_within_bounds kwargs t u lo hi m :
  kwargs !! ATTR_TEMPERATURE = Some t ->
  data m !! ATTR_TEMPERATURE_UNIT = Some u ->
  convert_temperature DEFAULT_MIN_TEMP TEMP_CELSIUS u = Ok lo ->
  convert_temperature DEFAULT_MAX_TEMP TEMP_CELSIUS u = Ok hi ->
  (lo <=? hi)%float = true -> is_number t = true ->
  exists r,
    set_temperature convert_temperature kwargs m =
      (Ok tt, after_request ATTR_CTL_TARGET_TEMPERATURE ATTR_TARGET_TEMPERATURE
                (PFloat r) m) /\
    (lo <=? r)%float = true /\ (r <=? hi)%float = true /\
    ((lo <=? t)%float = true -> (t <=? hi)%float = true -> r = t) /\
    ((t <? lo)%float = true -> r = lo) /\
    ((t <? lo)%float = false -> (hi <? t)%float = true -> r = hi).
Proof.
  intros Hk Hu Hlo Hhi Hle Ht.
  destruct (leb_is_number lo hi Hle) as [Hnlo Hnhi].
  eexists. split.
  { rewrite (set_temperature_eq kwargs t u lo hi m) by done.
    apply request_set_temperature_eq. }
  destruct (t <? lo)%float eqn:Hlt.
  { split; [by apply leb_refl|]. split; [done|]. split; [|done].
    intros Hin _. by rewrite (leb_ltb_false lo t Hin) in Hlt. }
  destruct (hi <? t)%float eqn:Hgt.
  { split; [done|]. split; [by apply leb_refl|]. split; [|done].
    intros _ Hin. by rewrite (leb_ltb_false t hi Hin) in Hgt. }
  split; [by apply (ltb_false_leb t lo)|].
  split; [by apply (ltb_false_leb hi t)|]. done.
Qed.

(** X3. A temperature that is not a number passes both comparisons: it is
    staged as it is, whatever the bounds are. *)
Theorem set_temperature_nan_unclamped kwargs t u lo hi m :
  kwargs !! ATTR_TEMPERATURE = Some t ->
  data m !! ATTR_TEMPERATURE_UNIT = Some u ->
  convert_temperature DEFAULT_MIN_TEMP TEMP_CELSIUS u = Ok lo ->
  convert_temperature DEFAULT_MAX_TEMP TEMP_CELSIUS u = Ok hi ->
  is_number t = false ->
  set_temperature convert_temperature kwargs m =
    (Ok tt, after_request ATTR_CTL_TARGET_TEMPERATURE ATTR_TARGET_TEMPERATURE
              (PFloat t) m) /\
  pending (data (set_temperature convert_temperature kwargs m).2) =
    [data m !! ATTR_CTL_TEMPERATURE_UNIT; Some (PFloat t); data m !! ATTR_CTL_HVAC_MODE].
Proof.
  intros Hk Hu Hlo Hhi Ht.
  assert (Heq : set_temperature convert_temperature kwargs m =
    (Ok tt, after_request ATTR_CTL_TARGET_TEMPERATURE ATTR_TARGET_TEMPERATURE
              (PFloat t) m)).
  { rewrite (set_temperature_eq kwargs t u lo hi m) by done.
    destruct (nan_ltb t lo Ht) as [-> _]. destruct (nan_ltb t hi Ht) as [_ ->].
    apply request_set_temperature_eq. }
  split; [done|]. rewrite Heq. unfold pending, after_request, requested. mcbn.
  by norm_lookup.
Qed.

End ClimateFacts.

(** ** Requests from other threads *)

Lemma ready_closed : closed ready.
Proof.
  unfold ready. split; [split; [split|]|..]; mcbn;
    try (by intros; destruct_and?; auto using has_keys_insert).
Qed.

Lemma arrive_eq c m :
  arrive c m =
  match c with
  | RequestSetHvacMode mode =>
      after_request ATTR_CTL_HVAC_MODE ATTR_HVAC_MODE (PStr mode) m
  | RequestSetTemperature temperature =>
      after_request ATTR_CTL_TARGET_TEMPERATURE ATTR_TARGET_TEMPERATURE
        (PFloat temperature) m
  | RequestSetTemperatureUnit unit_ =>
      match data m !! CONF_TEMPERATURE_UNIT with
      | Some current =>
          if py_ne (PStr unit_) current
          then after_request ATTR_CTL_TEMPERATURE_UNIT ATTR_TEMPERATURE_UNIT
                 (PStr unit_) m
          else m
      | None => m
      end
  | Terminate => with_command_event true (with_keep_going false m)
  end.
Proof.
  destruct c as [mode|temperature|unit_|]; unfold arrive; try done.
  rewrite request_set_temperature_unit_eq.
  destruct (data m !! CONF_TEMPERATURE_UNIT) as [current|]; [|done].
  by destruct (py_ne (PStr unit_) current).
Qed.

(** A call from another thread leaves the client object alone, sends
    nothing to the device, loses no key, and changes [keep_going] only if
    it is [terminate]. *)
Lemma arrive_frame c m :
  device (arrive c m) = device m /\
  keep_going (arrive c m) = keep_going m && negb (is_terminate c) /\
  (has_keys (data m) -> has_keys (data (arrive c m))) /\
  exists evs, trace (arrive c m) = trace m ++ evs /\ actions evs = [].
Proof.
  rewrite arrive_eq.
  assert (Hsame : device m = device m /\
            keep_going m = keep_going m && true /\
            (has_keys (data m) -> has_keys (data m)) /\
            exists evs, trace m = trace m ++ evs /\ actions evs = []).
  { rewrite andb_true_r. do 3 (split; [done|]). exists []. by rewrite app_nil_r. }
  assert (Hreq : forall ctl live v,
            device (after_request ctl live v m) = device m /\
            keep_going (after_request ctl live v m) = keep_going m && true /\
            (has_keys (data m) -> has_keys (data (after_request ctl live v m))) /\
            exists evs, trace (after_request ctl live v m) = trace m ++ evs /\
                        actions evs = []).
  { intros ctl live v. unfold after_request, requested. mcbn.
    rewrite andb_true_r. do 2 (split; [done|]).
    split; [by auto using has_keys_insert|]. by eexists. }
  destruct c as [mode|temperature|unit_|]; simpl; try apply Hreq.
  - destruct (data m !! CONF_TEMPERATURE_UNIT) as [current|]; [|done].
    destruct (py_ne (PStr unit_) current); [apply Hreq|done].
  - mcbn. rewrite andb_false_r. do 3 (split; [done|]).
    exists []. by rewrite app_nil_r.
Qed.

Lemma arrivals_frame cs m :
  let m' := foldl (fun m c => arrive c m) m cs in
  device m' = device m /\
  keep_going m' = keep_going m && forallb (fun c => negb (is_terminate c)) cs /\
  (has_keys (data m) -> has_keys (data m')) /\
  exists evs, trace m' = trace m ++ evs /\ actions evs = [].
Proof.
  cbn zeta. revert m. induction cs as [|c cs IH]; intros m; simpl.
  { rewrite andb_true_r. do 3 (split; [done|]). exists []. by rewrite app_nil_r. }
  destruct (arrive_frame c m) as (Hd & Hg & Hk & evs1 & Ht1 & Ha1).
  destruct (IH (arrive c m)) as (Hd' & Hg' & Hk' & evs2 & Ht2 & Ha2).
  split; [congruence|]. split; [by rewrite Hg', Hg, andb_assoc|].
  split; [auto|]. exists (evs1 ++ evs2).
  split; [by rewrite Ht2, Ht1, app_assoc|]. by rewrite actions_app, Ha1, Ha2.
Qed.

Lemma forallb_terminate cs :
  Terminate ∈ cs -> forallb (fun c => negb (is_terminate c)) cs = false.
Proof.
  induction cs as [|c cs IH]; [by intros ?%elem_of_nil|].
  intros [<-|Hin]%elem_of_cons; simpl; [done|].
  rewrite IH by done. apply andb_false_r.
Qed.

(** X4. Once [terminate] has been called, the next loop test ends the loop:
    whatever else has been requested, the pass that would follow is not
    run, and nothing is sent to the device.  This holds of the inner loop
    and of the outer one. *)
Theorem terminate_ends_the_loops :
  (forall cs o ticks next_command m,
     keep_going m = false \/ Terminate ∈ cs ->
     let m' := foldl (fun m c => arrive c m) m cs in
     connected_loop (Tick cs o :: ticks) next_command m = (Ok LoopLeft, m') /\
     actions (trace m') = actions (trace m) /\ keep_going m' = false) /\
  (forall i script m,
     keep_going m = false \/ Terminate ∈ early i ->
     let m' := foldl (fun m c => arrive c m) m (early i) in
     run_sessions (i :: script) m = (Ok Returned, m') /\
     actions (trace m') = actions (trace m) /\ keep_going m' = false).
Proof.
  assert (Hstop : forall cs m,
    keep_going m = false \/ Terminate ∈ cs ->
    let m' := foldl (fun m c => arrive c m) m cs in
    actions (trace m') = actions (trace m) /\ keep_going m' = false).
  { intros cs m Hor. cbn zeta.
    destruct (arrivals_frame cs m) as (_ & Hg & _ & evs & Ht & Ha).
    split; [by rewrite Ht, actions_app, Ha, app_nil_r|].
    rewrite Hg. destruct Hor as [->|Hin]; [done|].
    rewrite (forallb_terminate cs Hin). apply andb_false_r. }
  split.
  - intros cs o ticks next_command m Hor. cbn zeta.
    destruct (Hstop cs m Hor) as [Ha Hg]. split; [|done].
    simpl. unfold arrivals, modify, self_keep_going, mbind, M_bind, bind. simpl.
    by rewrite Hg.
  - intros i script m Hor. cbn zeta.
    destruct (Hstop (early i) m Hor) as [Ha Hg]. split; [|done].
    simpl. unfold arrivals, modify, self_keep_going, mbind, M_bind, bind. simpl.
    by rewrite Hg.
Qed.

(** ** The poll sequence *)

Lemma calls_actions t : calls (actions t) = calls t.
Proof.
  unfold calls, actions. induction t as [|e t IH]; [done|].
  destruct e; simpl; [f_equal| | |]; exact IH.
Qed.

Lemma unit_polls_app t1 t2 : unit_polls (t1 ++ t2) = (unit_polls t1 + unit_polls t2)%nat.
Proof. unfold unit_polls. by rewrite calls_app, filter_app, length_app. Qed.

Lemma unit_polls_actions t : unit_polls (actions t) = unit_polls t.
Proof. unfold unit_polls. by rewrite calls_actions. Qed.

(** What one pass does to the count: the unit is polled only from the
    first step of the sequence, and no pass leads back to that step. *)
Lemma spec_unit_polls unit_ target mode next_command :
  (unit_polls [spec_action unit_ target mode next_command] +
   (if Z.eqb (spec_next unit_ target mode next_command) MON_GET_TEMPERATURE_UNIT
    then 1 else 0)
   <= if Z.eqb next_command MON_GET_TEMPERATURE_UNIT then 1 else 0)%nat.
Proof.
  assert (Hserved : forall op, is_get_unit op = false ->
    (unit_polls [EvCall op] + (if Z.eqb next_command MON_GET_TEMPERATURE_UNIT then 1 else 0)
     <= if Z.eqb next_command MON_GET_TEMPERATURE_UNIT then 1 else 0)%nat).
  { intros op Hop. unfold unit_polls. simpl. rewrite filter_cons, Hop.
    rewrite decide_False by done. simpl. lia. }
  destruct unit_, target, mode; cbn [spec_action spec_next];
    try (apply Hserved; first [done | by destruct (py_eq _ _)]).
  unfold spec_poll.
  destruct (next_command =? MON_GET_TEMPERATURE_UNIT) eqn:H1; [vm_compute; lia|].
  destruct (next_command =? MON_GET_STATUS); [vm_compute; lia|].
  destruct (next_command =? MON_GET_CURRENT_TEMPERATURE); [vm_compute; lia|].
  destruct (next_command =? MON_GET_TARGET_TEMPERATURE); vm_compute; lia.
Qed.

Lemma has_keys_pending d :
  has_keys d -> exists unit_ target mode, pending d = [Some unit_; Some target; Some mode].
Proof.
  intros Hd. unfold pending.
  destruct (has_keys_lookup d ATTR_CTL_TEMPERATURE_UNIT Hd) as [u ->];
    [unfold KEYS; set_solver|].
  destruct (has_keys_lookup d ATTR_CTL_TARGET_TEMPERATURE Hd) as [t ->];
    [unfold KEYS; set_solver|].
  destruct (has_keys_lookup d ATTR_CTL_HVAC_MODE Hd) as [md ->];
    [unfold KEYS; set_solver|].
  by exists u, t, md.
Qed.

(** How a pass ends is settled by the action and the device's answer. *)
Lemma passed_result unit_ target mode o next_command m r m' :
  passed unit_ target mode o next_command m r m' ->
  r = Ok (spec_next unit_ target mode next_command) \/
  exists e, o = Fault e /\ r = Raise e.
Proof.
  intros [_ Hserved Hfault].
  destruct (is_wait (spec_action unit_ target mode next_command)) eqn:Hw.
  { left. by apply Hserved; left. }
  destruct o as [rsp|e].
  - left. apply Hserved. right. by exists rsp.
  - right. exists e. split; [done|]. by apply (Hfault e).
Qed.

Lemma connected_loop_unit_polls ticks next_command m :
  ready m ->
  wp (connected_loop ticks next_command)
     (fun _ m' => exists evs, trace m' = trace m ++ evs /\
        (unit_polls evs <= if Z.eqb next_command MON_GET_TEMPERATURE_UNIT then 1 else 0)%nat)
     m.
Proof.
  revert next_command m. induction ticks as [|t ticks IH]; intros next_command m [Hkeys Hdev];
    simpl.
  { do 2 wp_step. wp_step; wp_step; exists []; rewrite app_nil_r; split; try done;
      unfold unit_polls; simpl; lia. }
  apply wp_bind, wp_modify.
  destruct (arrivals_frame (landed t) m) as (Hd1 & _ & Hk1 & evs1 & Ht1 & Ha1).
  set (m1 := foldl (fun m c => arrive c m) m (landed t)) in *.
  assert (Hp1 : unit_polls evs1 = 0%nat).
  { by rewrite <- unit_polls_actions, Ha1. }
  do 2 wp_step. wp_step.
  2:{ wp_step. exists evs1. split; [done|]. rewrite Hp1. lia. }
  destruct (has_keys_pending (data m1) (Hk1 Hkeys)) as (u & tg & md & Hpend).
  apply wp_bind. eapply wp_mono.
  { apply (loop_body_passed u tg md (answer t) next_command m1); [auto|congruence|done]. }
  intros r m2 Hpass.
  pose proof (spec_unit_polls u tg md next_command) as Hcount.
  destruct (passed_result _ _ _ _ _ _ _ _ Hpass) as [->|(e & _ & ->)];
    destruct Hpass as [[_ Hd2 Hk2 _ (evs2 & Ht2 & Ha2 & _)] _ _];
    assert (Hp2 : unit_polls evs2 =
                  unit_polls [spec_action u tg md next_command])
      by (by rewrite <- unit_polls_actions, Ha2).
  - eapply wp_mono; [apply IH; split; [auto|congruence]|].
    intros _ m3 (evs3 & Ht3 & Hp3). exists (evs1 ++ evs2 ++ evs3).
    split; [by rewrite Ht3, Ht2, Ht1, !app_assoc|].
    rewrite !unit_polls_app, Hp1, Hp2. simpl.
    destruct (spec_next u tg md next_command =? MON_GET_TEMPERATURE_UNIT); lia.
  - exists (evs1 ++ evs2). split; [by rewrite Ht2, Ht1, !app_assoc|].
    rewrite unit_polls_app, Hp1, Hp2. lia.
Qed.

(** X5. Within one connection the unit is polled at most once, by the first
    poll: whatever is requested meanwhile and however the device answers,
    the inner loop started at [MON_GET_TEMPERATURE_UNIT] asks the device for
    its unit at most once, and started at any other step it never does. *)
Theorem unit_polled_once_per_connection ticks next_command m :
  has_keys (data m) -> device m = true ->
  exists evs,
    trace (connected_loop ticks next_command m).2 = trace m ++ evs /\
    (unit_polls evs <= 1)%nat /\
    (next_command <> MON_GET_TEMPERATURE_UNIT -> unit_polls evs = 0%nat).
Proof.
  intros Hkeys Hdev.
  destruct (connected_loop_unit_polls ticks next_command m (conj Hkeys Hdev))
    as (evs & Ht & Hp).
  exists evs. split; [done|]. split.
  - destruct (next_command =? MON_GET_TEMPERATURE_UNIT); lia.
  - intros Hne. apply Z.eqb_neq in Hne. rewrite Hne in Hp. lia.
Qed.

(** ** How the loops end *)

Lemma pexpect_calm e : negb (is_pexpect (Fault e)) = true -> e <> ExceptionPexpect.
Proof. by intros He ->. Qed.

(** The inner loop: it is only left when [keep_going] is false, and while
    nothing ends the thread [keep_going] stays true and no exception of the
    transport comes out. *)
Lemma connected_loop_outcome ticks next_command m :
  ready m ->
  wp (connected_loop ticks next_command)
     (fun r m' => ready m' /\
        (r = Ok LoopLeft -> keep_going m' = false) /\
        (keep_going m = true -> forallb calm ticks = true ->
         keep_going m' = true /\ r <> Raise ExceptionPexpect))
     m.
Proof.
  revert next_command m.
  induction ticks as [|t ticks IH]; intros next_command m [Hkeys Hdev]; simpl.
  { do 2 wp_step. wp_step; wp_step; (split; [done|]); split; try done;
      intros Hg _; congruence. }
  apply wp_bind, wp_modify.
  destruct (arrivals_frame (landed t) m) as (Hd1 & Hg1 & Hk1 & _).
  set (m1 := foldl (fun m c => arrive c m) m (landed t)) in *.
  do 2 wp_step. wp_step.
  2:{ wp_step. split; [split; [auto|congruence]|]. split; [done|].
      intros Hg [[Hl _]%andb_true_iff _]%andb_true_iff.
      rewrite Hg, Hl in Hg1. simpl in Hg1. congruence. }
  destruct (has_keys_pending (data m1) (Hk1 Hkeys)) as (u & tg & md & Hpend).
  apply wp_bind. eapply wp_mono.
  { apply (loop_body_passed u tg md (answer t) next_command m1); [auto|congruence|done]. }
  intros r m2 Hpass.
  destruct (passed_result _ _ _ _ _ _ _ _ Hpass) as [->|(e & Ho & ->)];
    destruct Hpass as [[Hg2 Hd2 Hk2 _ _] _ _].
  - eapply wp_mono; [apply IH; split; [auto|congruence]|].
    intros r3 m3 (Hready & Hleft & Hcalm). split; [done|]. split; [done|].
    intros Hg [_ Hticks]%andb_true_iff. apply Hcalm; [congruence|done].
  - split; [split; [auto|congruence]|]. split; [done|].
    intros Hg [[_ Hans]%andb_true_iff _]%andb_true_iff.
    split; [congruence|]. rewrite Ho in Hans. intros [= ->]. done.
Qed.

Lemma connect_outcome o m :
  ready m ->
  exists m1,
    connect o m = (match o with Reply _ => Ok tt | Fault e => Raise e end, m1) /\
    ready m1 /\ keep_going m1 = keep_going m.
Proof.
  intros [Hkeys Hdev].
  destruct (has_keys_lookup (data m) ATTR_NAME Hkeys) as [name' Hname];
    [unfold KEYS; set_solver|].
  destruct (has_keys_lookup (data m) ATTR_MAC Hkeys) as [mac' Hmac];
    [unfold KEYS; set_solver|].
  rewrite (connect_eq o name' mac' m Hname Hmac Hdev). cbn zeta.
  destruct o; eexists; (split; [done|]); by split.
Qed.

Lemma disconnected_data o m : data (disconnected o m) = data m.
Proof. unfold disconnected. by destruct (device m), o. Qed.

Lemma mark_unavailable_not_available v m :
  data m !! ATTR_AVAILABLE = Some v -> ~ is_available (data (mark_unavailable m).2).
Proof.
  intros Hv. rewrite (mark_unavailable_eq v m Hv). simpl.
  destruct (truthy v) eqn:Ht; mcbn; [apply not_available_down|].
  rewrite (is_available_truthy _ _ Hv). congruence.
Qed.

(** What the [finally] clause leaves. *)
Lemma cleanup_kept {A} (body : M A) o r m m1 :
  body m = (r, m1) -> has_keys (data m1) ->
  exists m', try_finally body (cleanup o) m = (r, m') /\ kept m1 m' /\
             ~ is_available (data m').
Proof.
  intros Hbody Hkeys. destruct (has_keys_available (data m1) Hkeys) as [v Hv].
  eexists. split; [by apply (try_finally_cleanup body o v)|]. split.
  - eapply kept_trans; [by apply (mark_unavailable_kept v)|apply kept_disconnected].
  - rewrite disconnected_data. by apply (mark_unavailable_not_available v).
Qed.

(** One pass of the outer loop always ends normally. *)
Lemma session_outcome i m :
  ready m ->
  exists e m',
    session i m = (Ok e, m') /\ has_keys (data m') /\
    (e = Stopped -> keep_going m' = false) /\
    (device m' = true \/ keep_going m' = false) /\
    (keep_going m = true -> negb (is_pexpect (connect_answer i)) = true ->
     forallb calm (ticks i) = true ->
     keep_going m' = true /\ device m' = true /\ e <> Stopped) /\
    match e with Connected _ => True | _ => ~ is_available (data m') end.
Proof.
  intros [Hkeys Hdev].
  destruct (has_keys_available (data m) Hkeys) as [v Hv].
  pose proof (mark_unavailable_kept v m Hv) as [Hd0 Hg0 Hk0 _].
  assert (Hsession : session i m = guarded i (mark_unavailable m).2).
  { unfold session, mbind, M_bind, bind. by rewrite (mark_unavailable_eq v m Hv). }
  rewrite Hsession. set (m0 := (mark_unavailable m).2) in *. clearbody m0.
  assert (Hready0 : ready m0) by (split; [auto|congruence]).
  destruct (connect_outcome (connect_answer i) m0 Hready0) as (m1 & Hconn & Hready1 & Hg1).
  pose proof (connected_loop_outcome (ticks i) MON_GET_TEMPERATURE_UNIT m1 Hready1)
    as Hloop. unfold wp in Hloop.
  set (loop := (connect (connect_answer i);;
                connected_loop (ticks i) MON_GET_TEMPERATURE_UNIT)).
  assert (Hrun : exists r m2, loop m0 = (r, m2) /\ ready m2 /\
            (r = Ok LoopLeft -> keep_going m2 = false) /\
            (keep_going m = true -> negb (is_pexpect (connect_answer i)) = true ->
             forallb calm (ticks i) = true ->
             keep_going m2 = true /\ r <> Raise ExceptionPexpect)).
  { unfold loop, mbind, M_bind, bind. rewrite Hconn.
    destruct (connect_answer i) as [rsp|e] eqn:Hanswer.
    - destruct (connected_loop (ticks i) MON_GET_TEMPERATURE_UNIT m1) as [r m2].
      simpl in Hloop. destruct Hloop as (Hready2 & Hleft & Hcalm).
      exists r, m2. do 3 (split; [done|]). intros Hg _ Hticks.
      apply Hcalm; [congruence|done].
    - exists (Raise e), m1. do 2 (split; [done|]). split; [done|].
      intros Hg He _. split; [congruence|]. intros [= ->]. done. }
  destruct Hrun as (r & m2 & Hrun & [Hkeys2 Hdev2] & Hleft & Hcalm).
  unfold guarded. fold loop. rewrite Hrun. destruct r as [[|nc]|ex].
  - (* the inner loop was left *)
    destruct (cleanup_kept (mret Stopped) (disconnect_answer i) (Ok Stopped) m2 m2
                eq_refl Hkeys2) as (m' & -> & [Hd Hg Hk _] & Hdown).
    exists Stopped, m'. split; [done|]. split; [auto|].
    assert (Hfalse : keep_going m' = false) by (rewrite Hg; auto).
    split; [done|]. split; [by right|]. split; [|done].
    intros Hg' Hc Ht. destruct (Hcalm Hg' Hc Ht) as [Hg2 _].
    rewrite Hleft in Hg2; done.
  - (* the ticks ran out *)
    exists (Connected nc), m2. split; [done|]. split; [done|]. split; [done|].
    split; [by left|]. split; [|done].
    intros Hg' Hc Ht. destruct (Hcalm Hg' Hc Ht) as [Hg2 _]. done.
  - (* an exception *)
    set (m3 := (handle_exception ex m2).2).
    assert (Hbody : (handle_exception ex;; mret (Recovered ex)) m2 = (Ok (Recovered ex), m3)).
    { unfold mbind, M_bind, bind, m3. by rewrite handle_exception_eq. }
    assert (Hkeys3 : has_keys (data m3)).
    { unfold m3. by rewrite handle_exception_data. }
    destruct (cleanup_kept _ (disconnect_answer i) _ m2 m3 Hbody Hkeys3)
      as (m' & -> & [Hd Hg Hk _] & Hdown).
    exists (Recovered ex), m'. split; [done|]. split; [auto|]. split; [done|].
    assert (Hex : ex = ExceptionPexpect /\ keep_going m3 = false \/
                  ex <> ExceptionPexpect /\ device m3 = device m2 /\
                  keep_going m3 = keep_going m2).
    { unfold m3. rewrite handle_exception_eq. simpl. destruct ex; auto. }
    split.
    + destruct Hex as [[_ Hg3]|(_ & Hd3 & _)]; [right|left]; congruence.
    + split; [|done].
      intros Hg' Hc Ht. destruct (Hcalm Hg' Hc Ht) as [Hg2 Hne].
      destruct Hex as [[-> _]|(_ & Hd3 & Hg3)]; [done|].
      split; [congruence|]. split; [congruence|done].
Qed.

Lemma run_sessions_outcome script m :
  has_keys (data m) -> device m = true \/ keep_going m = false ->
  exists e m',
    run_sessions script m = (Ok e, m') /\
    (e = Returned -> keep_going m' = false) /\
    (keep_going m = true -> forallb recoverable script = true ->
     e = Running /\ keep_going m' = true) /\
    (~ is_available (data m) -> e = Returned -> ~ is_available (data m')).
Proof.
  revert m. induction script as [|i script IH]; intros m Hkeys Hor; simpl.
  { unfold self_keep_going, mbind, M_bind, bind.
    destruct (keep_going m) eqn:Hg; eexists _, m; (split; [done|]); by repeat split. }
  unfold arrivals, modify, self_keep_going, mbind, M_bind, bind. simpl.
  destruct (arrivals_frame (early i) m) as (Hd1 & Hg1 & Hk1 & _).
  set (m1 := foldl (fun m c => arrive c m) m (early i)) in *.
  assert (Hflag1 : is_available (data m1) <-> is_available (data m)).
  { unfold is_available, m1. clear. revert m.
    induction (early i) as [|c cs IHcs]; intros m; [done|]. simpl.
    by rewrite IHcs, arrive_flag. }
  destruct (keep_going m1) eqn:Hgoing.
  2:{ exists Returned, m1. split; [done|]. split; [done|]. split.
      - intros Hg [[[He _]%andb_true_iff _]%andb_true_iff _]%andb_true_iff.
        rewrite Hg, He in Hg1. done.
      - intros Hdown _. by rewrite Hflag1. }
  assert (Hready : ready m1).
  { split; [auto|]. rewrite Hd1. destruct Hor as [|Hg]; [done|].
    rewrite Hg in Hg1. done. }
  destruct (session_outcome i m1 Hready)
    as (e & m2 & -> & Hkeys2 & Hstop & Hor2 & Hcalm & Hdown2).
  destruct e as [|ex|nc].
  - exists Returned, m2. split; [done|]. split; [auto|]. split; [|done].
    intros Hg [[[_ Hc]%andb_true_iff Ht]%andb_true_iff _]%andb_true_iff.
    by destruct (Hcalm Hgoing Hc Ht) as (_ & _ & ?).
  - destruct (IH m2 Hkeys2 Hor2) as (e & m' & -> & Hret & Hrun & Hdown).
    exists e, m'. split; [done|]. split; [done|]. split; [|auto].
    intros Hg [[[_ Hc]%andb_true_iff Ht]%andb_true_iff Hrest]%andb_true_iff.
    destruct (Hcalm Hgoing Hc Ht) as (Hg2 & _ & _). by apply Hrun.
  - exists Running, m2. split; [done|]. split; [done|]. split; [|done].
    intros Hg [[[_ Hc]%andb_true_iff Ht]%andb_true_iff _]%andb_true_iff.
    by destruct (Hcalm Hgoing Hc Ht) as (? & _ & _).
Qed.

(** X6. [run] never ends by an exception: whatever the device client raises,
    at the connection attempt or at any command, is handled inside the
    thread.  And when [run] returns, [keep_going] is false: the thread ends
    only after [terminate] or after the transport process has died; an
    entity that was unavailable when the thread started is unavailable when
    it ends. *)
Theorem run_never_raises script m :
  has_keys (data m) ->
  exists e m',
    run script m = (Ok e, m') /\
    (e = Returned ->
     keep_going m' = false /\
     (~ is_available (data m) -> ~ is_available (data m'))).
Proof.
  intros Hkeys. unfold run, modify, mbind, M_bind, bind. simpl.
  destruct (run_sessions_outcome script (with_device true m) Hkeys (or_introl eq_refl))
    as (e & m' & Hrun & Hret & _ & Hdown).
  exists e, m'. split; [done|]. intros He. split; auto.
Qed.

(** X7. No fault the worker recovers from ends the thread: as long as
    [terminate] is not called and the device client does not raise
    [ExceptionPexpect], [run] is still running when the script ends, with
    [keep_going] true, however many connections were lost on the way. *)
Theorem recoverable_faults_keep_running script m :
  has_keys (data m) -> keep_going m = true ->
  forallb recoverable script = true ->
  exists m', run script m = (Ok Running, m') /\ keep_going m' = true.
Proof.
  intros Hkeys Hg Hscript. unfold run, modify, mbind, M_bind, bind. simpl.
  destruct (run_sessions_outcome script (with_device true m) Hkeys (or_introl eq_refl))
    as (e & m' & Hrun & _ & Hcalm & _).
  destruct (Hcalm Hg Hscript) as [-> Hg']. by exists m'.
Qed.

(** X15. When a connection has ended, by [terminate] or by an exception, the
    entity is unavailable: one pass of the outer loop always ends normally,
    and unless the script ends inside the connection, [available] is false
    in the dictionary it leaves. *)
Theorem unavailable_after_connection i m :
  has_keys (data m) -> device m = true ->
  exists e m',
    session i m = (Ok e, m') /\
    match e with
    | Connected _ => True
    | _ => ~ is_available (data m')
    end.
Proof.
  intros Hkeys Hdev.
  destruct (session_outcome i m (conj Hkeys Hdev)) as (e & m' & Hs & _ & _ & _ & _ & Hdown).
  by exists e, m'.
Qed.

(** ** Requests, the pass that serves them, and the device's answer *)

Lemma calls_of_actions evs op : actions evs = [EvCall op] -> calls evs = [op].
Proof. intros Ha. by rewrite <- calls_actions, Ha. Qed.

(** One pass over a monitor whose request fields are [unit_], [target] and
    [mode], as an equation. *)
Lemma loop_body_pass unit_ target mode o next_command m :
  ready m -> pending (data m) = [Some unit_; Some target; Some mode] ->
  exists r m' evs,
    loop_body o next_command m = (r, m') /\ trace m' = trace m ++ evs /\
    actions evs = [spec_action unit_ target mode next_command] /\
    (forall rsp, o = Reply rsp ->
       r = Ok (spec_next unit_ target mode next_command) /\
       pending (data m') = spec_pending unit_ target mode) /\
    (forall e, o = Fault e ->
       is_wait (spec_action unit_ target mode next_command) = false ->
       r = Raise e /\ pending (data m') = pending (data m)).
Proof.
  intros [Hkeys Hdev] Hpend.
  pose proof (loop_body_passed unit_ target mode o next_command m Hkeys Hdev Hpend) as H.
  unfold wp in H. destruct (loop_body o next_command m) as [r m']. simpl in H.
  destruct H as [[_ _ _ _ (evs & Happ & Hact & _)] Hserved Hfault].
  exists r, m', evs. do 3 (split; [done|]). split.
  - intros rsp ->. apply Hserved. right. by exists rsp.
  - intros e -> Hw. by apply Hfault.
Qed.

(** X8. Of two requests that land before the worker's next pass, only the
    later one is sent: the request field holds one value, so the second
    request replaces the first, and the pass that serves it empties the
    field. *)
Theorem last_request_wins o next_command m :
  has_keys (data m) -> device m = true ->
  data m !! ATTR_CTL_TEMPERATURE_UNIT = Some PNone ->
  (forall first second,
     let m2 := arrive (RequestSetTemperature second)
                 (arrive (RequestSetTemperature first) m) in
     exists r m' evs,
       loop_body o next_command m2 = (r, m') /\ trace m' = trace m2 ++ evs /\
       calls evs = [OpSetTemperature (PFloat second)] /\
       (forall rsp, o = Reply rsp ->
          r = Ok next_command /\
          pending (data m') = [Some PNone; Some PNone; data m !! ATTR_CTL_HVAC_MODE])) /\
  (forall first second,
     data m !! ATTR_CTL_TARGET_TEMPERATURE = Some PNone ->
     let m2 := arrive (RequestSetHvacMode second)
                 (arrive (RequestSetHvacMode first) m) in
     exists r m' evs,
       loop_body o next_command m2 = (r, m') /\ trace m' = trace m2 ++ evs /\
       calls evs = [if String.eqb second HVAC_MODE_HEAT then OpStart else OpStop] /\
       (forall rsp, o = Reply rsp ->
          r = Ok next_command /\
          pending (data m') = [Some PNone; Some PNone; Some PNone])).
Proof.
  intros Hkeys Hdev Hunit.
  destruct (has_keys_lookup (data m) ATTR_CTL_HVAC_MODE Hkeys) as [md Hmode];
    [unfold KEYS; set_solver|].
  split.
  - intros first second. cbn zeta. rewrite !arrive_eq.
    set (m2 := after_request _ _ (PFloat second) _).
    assert (Hready : ready m2).
    { split; [|done]. unfold m2, after_request, requested. mcbn.
      by auto using has_keys_insert. }
    assert (Hpend : pending (data m2) = [Some PNone; Some (PFloat second); Some md]).
    { unfold m2, pending, after_request, requested. mcbn. norm_lookup.
      by rewrite Hunit, Hmode. }
    destruct (loop_body_pass _ _ _ o next_command m2 Hready Hpend)
      as (r & m' & evs & Hbody & Happ & Hact & Hreply & _).
    destruct (spec_target (PFloat second) md next_command) as (Ha & Hn & Hp); [done|].
    exists r, m', evs. do 2 (split; [done|]).
    split; [apply calls_of_actions; by rewrite Hact, Ha|].
    intros rsp Ho. destruct (Hreply rsp Ho) as [-> ->]. by rewrite Hn, Hp, Hmode.
  - intros first second Htarget. cbn zeta. rewrite !arrive_eq.
    set (m2 := after_request _ _ (PStr second) _).
    assert (Hready : ready m2).
    { split; [|done]. unfold m2, after_request, requested. mcbn.
      by auto using has_keys_insert. }
    assert (Hpend : pending (data m2) = [Some PNone; Some PNone; Some (PStr second)]).
    { unfold m2, pending, after_request, requested. mcbn. norm_lookup.
      by rewrite Hunit, Htarget. }
    destruct (loop_body_pass _ _ _ o next_command m2 Hready Hpend)
      as (r & m' & evs & Hbody & Happ & Hact & Hreply & _).
    destruct (spec_mode (PStr second) next_command) as (Ha & Hn & Hp); [done|].
    exists r, m', evs. do 2 (split; [done|]).
    split; [apply calls_of_actions; by rewrite Hact, Ha|].
    intros rsp Ho. destruct (Hreply rsp Ho) as [-> ->]. by rewrite Hn, Hp.
Qed.

(** X9. At start-up the first thing the worker sends after connecting is the
    host's temperature unit, before it polls anything: [c] when the host
    uses Celsius and [f] otherwise.  When the device answers, the request is
    gone and the poll sequence has not moved; when the call raises, the
    request stays for the next connection. *)
Theorem startup_pushes_host_unit name mac hass_unit rsp o :
  let m0 := with_device true (monitor_init (setup_data name mac hass_unit)) in
  exists r m',
    (connect (Reply rsp);; loop_body o MON_GET_TEMPERATURE_UNIT) m0 = (r, m') /\
    calls (trace m') =
      [OpConnect;
       OpSetUnit (if String.eqb hass_unit TEMP_CELSIUS
                  then ANOVA_TEMP_CELCIUS else ANOVA_TEMP_FAHRENHEIT)] /\
    (forall rsp', o = Reply rsp' ->
       r = Ok MON_GET_TEMPERATURE_UNIT /\
       pending (data m') = [Some PNone; Some PNone; Some PNone]) /\
    (forall e, o = Fault e ->
       r = Raise e /\
       pending (data m') = [Some (PStr hass_unit); Some PNone; Some PNone]).
Proof.
  cbn zeta. set (m0 := with_device true _).
  assert (Hready0 : ready m0) by (split; [apply setup_data_has_keys|done]).
  destruct (connect_outcome (Reply rsp) m0 Hready0) as (m1 & Hconn & Hready1 & _).
  assert (Hm1 : data m1 = data m0 /\ calls (trace m1) = [OpConnect]).
  { rewrite (connect_eq (Reply rsp) (PStr name) (PStr mac) m0) in Hconn by done.
    cbn zeta in Hconn. by injection Hconn as <-. }
  destruct Hm1 as [Hdata1 Hcalls1].
  assert (Hpend : pending (data m1) = [Some (PStr hass_unit); Some PNone; Some PNone]).
  { by rewrite Hdata1. }
  destruct (loop_body_pass _ _ _ o MON_GET_TEMPERATURE_UNIT m1 Hready1 Hpend)
    as (r & m' & evs & Hbody & Happ & Hact & Hreply & Hfault).
  destruct (spec_unit (PStr hass_unit) PNone PNone MON_GET_TEMPERATURE_UNIT)
    as (Ha & Hn & Hp); [done|].
  exists r, m'. split; [|split; [|split]].
  - unfold mbind, M_bind, bind. by rewrite Hconn.
  - rewrite Happ, calls_app, Hcalls1, (calls_of_actions evs _ ltac:(by rewrite Hact, Ha)).
    done.
  - intros rsp' Ho. destruct (Hreply rsp' Ho) as [-> ->]. by rewrite Hn, Hp.
  - intros e Ho. destruct (Hfault e Ho) as [-> ->]; [by rewrite Ha|]. by rewrite Hpend.
Qed.

(** ** The mode request and its echo *)

Lemma ctl_map_value rsp v : CTL_MAP !! rsp = Some v -> v <> PNone /\ handle_map rsp CTL_MAP = v.
Proof.
  intros Hv. unfold handle_map. rewrite Hv. split; [|done].
  unfold CTL_MAP in Hv.
  apply lookup_insert_Some in Hv as [[_ <-]|[_ Hv]]; [done|].
  by apply lookup_singleton_Some in Hv as [_ <-].
Qed.

Lemma py_eq_str v s : py_eq v (PStr s) = true -> v = PStr s.
Proof. destruct v; simpl; try done. by intros ->%String.eqb_eq. Qed.

(** X10. A mode request followed by the pass that serves it: the device is
    started when the mode is [heat] and stopped for any other mode; the
    answer of the device, when it is one of the two the client knows,
    becomes the mode shown, whatever was requested, and any other answer
    leaves the requested mode in place.  The request field is empty
    afterwards. *)
Theorem hvac_mode_echo mode rsp next_command m :
  has_keys (data m) -> device m = true ->
  data m !! ATTR_CTL_TEMPERATURE_UNIT = Some PNone ->
  data m !! ATTR_CTL_TARGET_TEMPERATURE = Some PNone ->
  let m1 := (request_set_hvac_mode mode m).2 in
  exists m2,
    dispatch (Reply rsp) next_command m1 = (Ok next_command, m2) /\
    calls (trace m2) =
      calls (trace m) ++
      [if String.eqb mode HVAC_MODE_HEAT then OpStart else OpStop] /\
    data m2 !! ATTR_HVAC_MODE =
      Some (match CTL_MAP !! rsp with Some v => v | None => PStr mode end) /\
    data m2 !! ATTR_CTL_HVAC_MODE = Some PNone.
Proof.
  intros Hkeys Hdev Hunit Htarget. cbn zeta. rewrite request_set_hvac_mode_eq. simpl.
  set (m1 := after_request _ _ _ m).
  set (op := if String.eqb mode HVAC_MODE_HEAT then OpStart else OpStop).
  set (live := match CTL_MAP !! rsp with Some v => v | None => PStr mode end).
  assert (Hd1 : data m1 = <[ATTR_HVAC_MODE:=PStr mode]> (<[ATTR_CTL_HVAC_MODE:=PStr mode]> (data m)))
    by done.
  assert (Ht1 : calls (trace m1) = calls (trace m)).
  { unfold m1, after_request. mcbn. by rewrite calls_app, app_nil_r. }
  assert (Hdev1 : device m1 = true) by done.
  destruct (has_keys_available (data m) Hkeys) as [av Hav].
  assert (Hwp : wp (dispatch (Reply rsp) next_command)
            (fun r m2 => r = Ok next_command /\
               calls (trace m2) = calls (trace m) ++ [op] /\
               data m2 !! ATTR_HVAC_MODE = Some live /\
               data m2 !! ATTR_CTL_HVAC_MODE = Some PNone) m1).
  { clearbody m1. unfold dispatch.
    apply wp_bind, wp_getitem. rewrite Hd1. norm_lookup. rewrite Hunit. simpl.
    apply wp_bind, wp_getitem. rewrite Hd1. norm_lookup. rewrite Htarget. simpl.
    apply wp_bind, wp_getitem. rewrite Hd1. norm_lookup. simpl.
    apply wp_bind, wp_getitem. rewrite Hd1. norm_lookup.
    apply wp_bind. rewrite send_start_exchange. apply wp_exchange; [congruence|done|].
    intros rsp' _ [= <-]. change (py_eq (PStr mode) (PStr HVAC_MODE_HEAT))
      with (String.eqb mode HVAC_MODE_HEAT). fold op.
    assert (Hfinish : forall m2,
      calls (trace m2) = calls (trace m) ++ [op] ->
      data m2 !! ATTR_HVAC_MODE = Some live ->
      wp (setitem ATTR_CTL_HVAC_MODE PNone;; mret next_command)
         (fun r m3 => r = Ok next_command /\
            calls (trace m3) = calls (trace m) ++ [op] /\
            data m3 !! ATTR_HVAC_MODE = Some live /\
            data m3 !! ATTR_CTL_HVAC_MODE = Some PNone) m2).
    { intros m2 Hc Hl. do 3 wp_step. by norm_lookup. }
    assert (Hc1 : calls (trace (emit (EvCall op) m1)) = calls (trace m) ++ [op]).
    { mcbn. by rewrite calls_app, Ht1. }
    apply wp_process_response; mcbn.
    - intros Hnone. apply Hfinish; mcbn.
      + by rewrite calls_app, calls_app, Ht1, <- app_assoc, app_nil_r.
      + rewrite Hd1. norm_lookup. unfold live.
        destruct (CTL_MAP !! rsp) as [v|] eqn:Hv; [|done].
        destruct (ctl_map_value rsp v Hv) as [Hne Heq]. congruence.
    - intros _ Hmiss. rewrite Hd1 in Hmiss. by rewrite lookup_insert_eq in Hmiss.
    - intros stored Hne Hst Hsame. apply Hfinish; [done|]. mcbn.
      rewrite Hd1 in Hst |- *. rewrite lookup_insert_eq in Hst. injection Hst as <-.
      rewrite lookup_insert_eq. unfold live, handle_map in *.
      destruct (CTL_MAP !! rsp) as [v|] eqn:Hv; [|done].
      apply negb_false_iff, py_eq_str in Hsame. by rewrite Hsame.
    - intros stored Hne Hst Hdiff. cbn zeta. mcbn.
      assert (Hlive : handle_map rsp CTL_MAP = live).
      { unfold live, handle_map in *. by destruct (CTL_MAP !! rsp). }
      rewrite lookup_insert_ne by done. rewrite Hd1. norm_lookup. rewrite Hav.
      destruct (truthy av); apply Hfinish; mcbn; rewrite ?calls_app, ?lookup_insert_eq;
        rewrite ?Hlive; try done; simpl; by rewrite ?app_nil_r, Ht1. }
  unfold wp in Hwp. destruct (dispatch (Reply rsp) next_command m1) as [r m2].
  simpl in Hwp. destruct Hwp as (-> & Hc & Hl & Hp). by exists m2.
Qed.

(** ** The dictionary stays well formed *)

Section Typed.

Variables name_ mac_ : string.

Local Abbreviation wf := (well_formed name_ mac_).
Local Abbreviation P := (throughout (well_formed name_ mac_)).







Lemma keeps_wf_data_handler : keeps P data_handler.
Proof. intros m Hm. by apply wp_data_handler, throughout_notify. Qed.






























Lemma setup_well_formed hass_unit :
  is_unit (PStr hass_unit) = true -> wf (setup_data name_ mac_ hass_unit).
Proof.
  intros Hunit. split; [apply setup_data_has_keys|]. unfold setup_data.
  repeat (apply map_Forall_insert_2; [first [done | by (cbn; rewrite String.eqb_refl)]|]).
  apply map_Forall_empty.
Qed.

End Typed.


(** ** The entity on a well-formed dictionary *)

Lemma typed_key name_ mac_ key v : typed name_ mac_ key v = true -> key ∈ KEYS.
Proof.
  unfold typed.
  repeat match goal with
         | |- context [String.eqb key ?k] =>
             destruct (String.eqb_spec key k) as [->|_];
             [intros _; unfold KEYS;
              repeat first [apply list_elem_of_here | apply list_elem_of_further]|]
         end.
  done.
Qed.

Lemma well_formed_keys name_ mac_ d :
  well_formed name_ mac_ d -> dom d = list_to_set KEYS.
Proof.
  intros [Hkeys Hall]. apply set_eq. intros key.
  rewrite elem_of_dom, elem_of_list_to_set. split.
  - intros [v Hv]. eapply typed_key. by apply (map_Forall_lookup_1 _ _ _ _ Hall Hv).
  - intros Hin. by apply has_keys_lookup.
Qed.

Lemma well_formed_field name_ mac_ d key :
  well_formed name_ mac_ d -> key ∈ KEYS ->
  exists v, d !! key = Some v /\ typed name_ mac_ key v = true.
Proof.
  intros [Hkeys Hall] Hin. destruct (has_keys_lookup d key Hkeys Hin) as [v Hv].
  exists v. split; [done|]. by apply (map_Forall_lookup_1 _ _ _ _ Hall Hv).
Qed.

Lemma is_unit_cases v :
  is_unit v = true ->
  exists u, v = PStr u /\ (u = TEMP_CELSIUS \/ u = TEMP_FAHRENHEIT).
Proof.
  unfold is_unit. intros [H|H]%orb_true_iff; apply py_eq_str in H; subst v; eauto.
Qed.

Lemma getitem_eq key v m : data m !! key = Some v -> getitem key m = (Ok v, m).
Proof. intros Hv. unfold getitem. by rewrite Hv. Qed.

Ltac field_of Hwf key v Hv Ht :=
  destruct (well_formed_field _ _ _ key Hwf) as (v & Hv & Ht);
  [unfold KEYS; repeat first [apply list_elem_of_here | apply list_elem_of_further]|].

Section ClimateReads.

Variable convert_temperature : Z -> string -> pyval -> result float.

(** X12. On a well-formed dictionary every property of the entity returns, and
    returns a value of its kind: the identifier and the name are the
    configured address and name, [available] is a boolean, the unit is one
    of the two units, the step is a half for Celsius and a whole otherwise,
    the two bounds are what the conversion gives for that unit, and the
    readings are [None] or a value of their kind. *)
Theorem entity_reads_well_formed name_ mac_ m :
  well_formed name_ mac_ (data m) ->
  dom (data m) = list_to_set KEYS /\
  unique_id m = (Ok (PStr mac_), m) /\
  name m = (Ok (PStr name_), m) /\
  (exists b, available m = (Ok (PBool b), m)) /\
  (exists u,
     (u = TEMP_CELSIUS \/ u = TEMP_FAHRENHEIT) /\
     temperature_unit m = (Ok (PStr u), m) /\
     target_temperature_step m =
       (Ok (if String.eqb u TEMP_CELSIUS then PRECISION_HALVES else PRECISION_WHOLE), m) /\
     min_temp convert_temperature m =
       (convert_temperature DEFAULT_MIN_TEMP TEMP_CELSIUS (PStr u), m) /\
     max_temp convert_temperature m =
       (convert_temperature DEFAULT_MAX_TEMP TEMP_CELSIUS (PStr u), m)) /\
  (exists v, none_or is_float v = true /\ current_temperature m = (Ok v, m)) /\
  (exists v, none_or is_float v = true /\ target_temperature m = (Ok v, m)) /\
  (exists v, none_or is_str v = true /\ hvac_mode m = (Ok v, m)).
Proof using Type.
  intros Hwf. split; [by eapply well_formed_keys|].
  field_of Hwf ATTR_MAC vm Hvm Htm. field_of Hwf ATTR_NAME vn Hvn Htn.
  field_of Hwf ATTR_AVAILABLE va Hva Hta. field_of Hwf ATTR_TEMPERATURE_UNIT vu Hvu Htu.
  field_of Hwf ATTR_CURRENT_TEMPERATURE vc Hvc Htc.
  field_of Hwf ATTR_TARGET_TEMPERATURE vt Hvt Htt.
  field_of Hwf ATTR_HVAC_MODE vh Hvh Hth.
  apply py_eq_str in Htm, Htn. subst vm vn.
  unfold unique_id, name, available, current_temperature, target_temperature, hvac_mode.
  rewrite (getitem_eq _ _ m Hvm), (getitem_eq _ _ m Hvn), (getitem_eq _ _ m Hva),
    (getitem_eq _ _ m Hvc), (getitem_eq _ _ m Hvt), (getitem_eq _ _ m Hvh).
  do 2 (split; [done|]). split.
  { destruct va; try done. by eexists. }
  split.
  { destruct (is_unit_cases vu Htu) as (u & -> & Hu). exists u.
    split; [done|].
    unfold target_temperature_step, temperature_unit, mbind, M_bind, bind.
    rewrite (getitem_eq _ _ m Hvu). split; [done|]. split.
    - simpl. by destruct (String.eqb u TEMP_CELSIUS).
    - by rewrite (min_temp_eq _ (PStr u) m Hvu), (max_temp_eq _ (PStr u) m Hvu). }
  split; [by exists vc|]. split; [by exists vt|]. by exists vh.
Qed.


End ClimateReads.

(** ** The echo of a target-temperature command *)

(** X14. The answer to a [set_temperature] command can only confirm the
    temperature that was sent: it is decoded through a table whose one
    entry is that temperature, so whatever the device answers, and also
    when the call raises, the dictionary afterwards is the one before or the
    one before with the target set to the temperature sent.  When the target
    already is that temperature, as it is after a request, the dictionary
    is not changed at all. *)
Theorem target_echo_only_confirms temperature o m :
  let m' := (set_target_temperature temperature o m).2 in
  (data m' = data m \/
   data m' = <[ATTR_TARGET_TEMPERATURE:=temperature]> (data m)) /\
  (data m !! ATTR_TARGET_TEMPERATURE = Some temperature -> data m' = data m).
Proof.
  cbn zeta. rewrite set_target_temperature_exchange.
  apply (wp_exchange _ _ _ _
           (fun _ m' =>
              (data m' = data m \/
               data m' = <[ATTR_TARGET_TEMPERATURE:=temperature]> (data m)) /\
              (data m !! ATTR_TARGET_TEMPERATURE = Some temperature -> data m' = data m))).
  - intros _. split; [by left|done].
  - intros e _ _. split; [by left|done].
  - intros rsp _ _.
    assert (Hvalue : handle_map rsp {[py_str temperature := temperature]} = PNone \/
                     handle_map rsp {[py_str temperature := temperature]} = temperature).
    { unfold handle_map.
      destruct (({[py_str temperature := temperature]} : gmap string pyval) !! rsp)
        as [v|] eqn:Hv; [|by left].
      right. by apply lookup_singleton_Some in Hv as [_ <-]. }
    apply wp_process_response; mcbn.
    + intros _. split; [by left|done].
    + intros _ _. split; [by left|done].
    + intros stored _ _ _. split; [by left|done].
    + intros stored Hne _ _. cbn zeta. mcbn.
      destruct Hvalue as [?|Hvalue]; [done|]. rewrite Hvalue.
      assert (Hpost :
        (<[ATTR_TARGET_TEMPERATURE:=temperature]> (data m) = data m \/
         <[ATTR_TARGET_TEMPERATURE:=temperature]> (data m) =
         <[ATTR_TARGET_TEMPERATURE:=temperature]> (data m)) /\
        (data m !! ATTR_TARGET_TEMPERATURE = Some temperature ->
         <[ATTR_TARGET_TEMPERATURE:=temperature]> (data m) = data m)).
      { split; [by right|]. apply insert_id. }
      destruct (<[ATTR_TARGET_TEMPERATURE:=temperature]> (data m) !! ATTR_AVAILABLE)
        as [av|]; [|done].
      by destruct (truthy av).
Qed.

End Anova.

(** * Worked runs

    The statements above at concrete monitors and scripts, with the two
    built-ins instantiated by [float_of_decimal] and [str_of_tenths]. *)

Lemma booted_has_keys : has_keys (data booted).
Proof. unfold has_keys, KEYS. repeat constructor; by eexists. Defined.

(** C1 at start-up: the unit request that [setup_platform] stages is served
    first, by one [set_unit] request, and then it is empty. *)
Lemma C1_witness :
  exists r m' evs,
    loop_body float_of_decimal str_of_tenths (Reply "c") MON_GET_TEMPERATURE_UNIT booted
      = (r, m') /\
    trace m' = trace booted ++ evs /\
    actions evs = [EvCall (OpSetUnit ANOVA_TEMP_CELCIUS)] /\
    (consumed (pending (data booted)) (pending (data m')) <= 1)%nat /\
    (false = true \/ (exists rsp, Reply "c" = Reply rsp) ->
     r = Ok MON_GET_TEMPERATURE_UNIT /\
     pending (data m') = [Some PNone; Some PNone; Some PNone]).
Proof.
  apply (C1_one_action_by_priority float_of_decimal str_of_tenths
           (PStr TEMP_CELSIUS) PNone PNone (Reply "c") MON_GET_TEMPERATURE_UNIT booted).
  - exact booted_has_keys.
  - reflexivity.
  - reflexivity.
Defined.

(** C2 as stated fails: after the connection of [lost_connection] is lost,
    the observer is shown a dictionary in which the three readings are known
    and [available] is false. *)
Lemma C2_counterexample :
  let m := (run float_of_decimal str_of_tenths [lost_connection] boot).2 in
  last (snapshots (trace m)) = Some (data m) /\
  readings_known (data m) /\
  ~ is_available (data m) /\
  ~ (is_available (data m) <-> readings_known (data m)).
Proof.
  cbn zeta.
  assert (Hknown : readings_known
            (data (run float_of_decimal str_of_tenths [lost_connection] boot).2)).
  { repeat split; eexists; (split; [vm_compute; reflexivity|discriminate]). }
  assert (Hdown : ~ is_available
            (data (run float_of_decimal str_of_tenths [lost_connection] boot).2)).
  { intros [v [Hv Ht]]. vm_compute in Hv. injection Hv as <-. discriminate Ht. }
  split; [vm_compute; reflexivity|].
  split; [exact Hknown|]. split; [exact Hdown|].
  intros [_ H]. exact (Hdown (H Hknown)).
Qed.

(** C3 at start-up: the [set_unit] request raises, the unit request is
    still staged, and the first pass after the reconnection sends it again. *)
Lemma C3_witness :
  exists m1 m2 r3 m3 evs3,
    loop_body float_of_decimal str_of_tenths (Fault RuntimeError)
      MON_GET_TEMPERATURE_UNIT booted = (Raise RuntimeError, m1) /\
    pending (data m1) = [Some (PStr TEMP_CELSIUS); Some PNone; Some PNone] /\
    recover RuntimeError (Reply "") (Reply "") m1 = (Ok tt, m2) /\
    loop_body float_of_decimal str_of_tenths (Reply "c")
      MON_GET_TEMPERATURE_UNIT m2 = (r3, m3) /\
    trace m3 = trace m2 ++ evs3 /\
    actions evs3 = [EvCall (OpSetUnit ANOVA_TEMP_CELCIUS)].
Proof.
  destruct (C3_pending_survives_fault float_of_decimal str_of_tenths
              (PStr TEMP_CELSIUS) PNone PNone RuntimeError MON_GET_TEMPERATURE_UNIT
              (Reply "") (Reply "c") "" booted)
    as (m1 & evs1 & Hfault & _ & _ & Hpend & Hagain).
  - exact booted_has_keys.
  - reflexivity.
  - reflexivity.
  - reflexivity.
  - destruct Hagain as (m2 & r3 & m3 & evs3 & Hrec & _ & Hbody & Happ & Hact);
      [discriminate|].
    exists m1, m2, r3, m3, evs3. repeat split; assumption.
Defined.

(** C3 as stated fails: in the run [failed_send; reconnected] the request
    field is not empty when the [set_unit] request has raised, and the same
    request is sent again after the reconnection. *)
Lemma C3_counterexample :
  let faulted := loop_body float_of_decimal str_of_tenths (Fault RuntimeError)
                   MON_GET_TEMPERATURE_UNIT booted in
  faulted.1 = Raise RuntimeError /\
  data faulted.2 !! ATTR_CTL_TEMPERATURE_UNIT = Some (PStr TEMP_CELSIUS) /\
  data faulted.2 !! ATTR_CTL_TEMPERATURE_UNIT <> Some PNone /\
  calls (trace (run float_of_decimal str_of_tenths [failed_send; reconnected] boot).2)
    = [OpConnect; OpSetUnit ANOVA_TEMP_CELCIUS; OpDisconnect;
       OpConnect; OpSetUnit ANOVA_TEMP_CELCIUS].
Proof.
  cbn zeta. split; [vm_compute; reflexivity|].
  split; [vm_compute; reflexivity|].
  split; [|vm_compute; reflexivity].
  intros H. vm_compute in H. discriminate H.
Qed.

(** C6 for a connection that [terminate] ends and whose [disconnect]
    raises: the pass ends normally, [disconnect] was requested once and the
    exception logged. *)
Lemma C6_witness :
  exists e m1,
    (forall d,
       session float_of_decimal str_of_tenths
         (SessionInput [] (Reply "") (ticks terminated) d) booted =
       (Ok e, match e with Connected _ => m1 | _ => disconnected d m1 end)) /\
    match e with
    | Connected _ => disconnects (trace m1) = disconnects (trace booted)
    | Recovered ExceptionPexpect =>
        (forall d, disconnects (trace (disconnected d m1)) = disconnects (trace booted)) /\
        device m1 = false /\ keep_going m1 = false
    | _ =>
        (forall d, disconnects (trace (disconnected d m1)) = S (disconnects (trace booted))) /\
        (forall ex rsp,
           disconnected (Fault ex) m1 =
           emit (EvLog LDebug "%s" (ArgExn ex)) (disconnected (Reply rsp) m1))
    end.
Proof.
  apply (C6_disconnect_on_exit float_of_decimal str_of_tenths
           [] (Reply "") (ticks terminated) booted).
  - exact booted_has_keys.
  - reflexivity.
Defined.

(** C6 as stated fails: when the transport process dies on an established
    connection, the pass ends without any [disconnect] request. *)
Lemma C6_counterexample :
  let r := session float_of_decimal str_of_tenths transport_died booted in
  r.1 = Ok (Recovered ExceptionPexpect) /\
  calls (trace r.2) = [OpConnect; OpSetUnit ANOVA_TEMP_CELCIUS] /\
  disconnects (trace r.2) = 0%nat /\
  disconnects (trace r.2) <> 1%nat.
Proof.
  cbn zeta. split; [vm_compute; reflexivity|].
  split; [vm_compute; reflexivity|].
  split; [vm_compute; reflexivity|].
  intros H. vm_compute in H. discriminate H.
Qed.

(** C7 as stated fails: the dictionary of [setup_platform] holds a unit
    request. *)
Lemma C7_counterexample :
  data boot !! ATTR_CTL_TEMPERATURE_UNIT = Some (PStr TEMP_CELSIUS) /\
  ~ created_empty (data boot).
Proof.
  split; [reflexivity|].
  intros (_ & _ & H & _). vm_compute in H. discriminate H.
Qed.

(** C8 with [str] as [str_of_tenths], from the monitor [booted]. *)
Lemma C8_witness :
  str_of_tenths 72.5 = "72.5" /\
  let m1 := (request_set_temperature 72.5 booted).2 in
  data m1 !! ATTR_TARGET_TEMPERATURE = Some (PFloat 72.5) /\
  data m1 !! ATTR_CTL_TARGET_TEMPERATURE = Some (PFloat 72.5) /\
  set_target_temperature str_of_tenths (PFloat 72.5) (Reply "72.5") m1 =
    (Ok tt, emit (EvCall (OpSetTemperature (PFloat 72.5))) m1) /\
  forall rsp, rsp <> "72.5" ->
    set_target_temperature str_of_tenths (PFloat 72.5) (Reply rsp) m1 =
    (Ok tt, emit (warned ATTR_TARGET_TEMPERATURE)
              (emit (EvCall (OpSetTemperature (PFloat 72.5))) m1)).
Proof.
  split; [vm_compute; reflexivity|].
  apply (C8_target_round_trip str_of_tenths booted).
  - vm_compute. reflexivity.
  - reflexivity.
Defined.

(** The monitor after the five passes of [warming]: the three readings are
    known, no request is staged, [available] is still false. *)
Lemma warmed_state :
  let m := (run float_of_decimal str_of_tenths [warming] boot).2 in
  has_keys (data m) /\ readings_known (data m) /\ ~ is_available (data m) /\
  pending (data m) = [Some PNone; Some PNone; Some PNone] /\
  device m = true.
Proof.
  cbn zeta. split; [|split; [|split; [|split]]].
  - unfold has_keys, KEYS. repeat constructor; eexists; vm_compute; reflexivity.
  - repeat split; eexists; (split; [vm_compute; reflexivity|discriminate]).
  - intros [v [Hv Ht]]. vm_compute in Hv. injection Hv as <-. discriminate Ht.
  - vm_compute. reflexivity.
  - vm_compute. reflexivity.
Defined.

(** C2 on that monitor: the next pass sets [available] and notifies once. *)
Lemma C2_witness :
  let m := (run float_of_decimal str_of_tenths [warming] boot).2 in
  refresh_available m = (Ok tt, turned true m).
Proof.
  cbn zeta.
  destruct warmed_state as (Hkeys & Hknown & Hdown & _).
  exact (proj1 (proj2 (C2_available_sound_and_notified float_of_decimal str_of_tenths))
           _ Hkeys Hknown Hdown).
Defined.

(** C4 at start-up, where [available] is false: a request for the other
    unit writes and notifies. *)
Lemma C4_witness :
  request_set_temperature_unit TEMP_FAHRENHEIT booted =
  (Ok tt, after_request ATTR_CTL_TEMPERATURE_UNIT ATTR_TEMPERATURE_UNIT
            (PStr TEMP_FAHRENHEIT) booted).
Proof.
  exact (proj1 (proj2 (proj2 (proj2 (proj2
           (C4_notification_gate float_of_decimal str_of_tenths)))))
           TEMP_FAHRENHEIT (PStr TEMP_CELSIUS) booted eq_refl).
Defined.

(** C5 at start-up: a status the mapping does not know, and a temperature
    that is not a number. *)
Lemma C5_witness :
  get_status (Reply "heating") booted =
    (Ok tt, emit (warned ATTR_HVAC_MODE) (emit (EvCall OpGetStatus) booted)) /\
  get_current_temperature float_of_decimal (Reply "n/a") booted =
    (Ok tt, emit (warned ATTR_CURRENT_TEMPERATURE)
              (emit (EvCall OpGetCurrentTemperature) booted)).
Proof.
  pose proof (C5_responses_stored_or_ignored float_of_decimal)
    as (_ & _ & _ & _ & Hstatus & _ & Hnumber & _).
  split.
  - apply Hstatus; [reflexivity|discriminate|discriminate].
  - apply Hnumber; [reflexivity|vm_compute; reflexivity].
Defined.

(** C9 on the monitor of [warmed_state]: with nothing staged and the poll
    sequence at its end, the pass is [clear] followed by the wait. *)
Lemma C9_witness :
  let m := (run float_of_decimal str_of_tenths [warming] boot).2 in
  dispatch float_of_decimal str_of_tenths (Reply "") MON_IDLE m =
  (Ok MON_GET_STATUS, emit (EvWait POLLING_CYCLE_SEC) (event_clear m).2).
Proof.
  cbn zeta.
  destruct warmed_state as (_ & _ & _ & Hpend & _).
  exact (proj1 (C9_wakeup_lost_before_clear float_of_decimal str_of_tenths)
           (Reply "") MON_IDLE _ Hpend eq_refl).
Defined.

(** C10 on the same monitor: the current temperature is still known after
    a connection on which nothing could be sent. *)
Lemma C10_witness :
  let m := (run float_of_decimal str_of_tenths [warming] boot).2 in
  known (data (run float_of_decimal str_of_tenths [failed_send] m).2)
    ATTR_CURRENT_TEMPERATURE.
Proof.
  cbn zeta.
  destruct warmed_state as (_ & (Hcurrent & _) & _).
  exact (proj1 (proj2 (C10_readings_monotone float_of_decimal str_of_tenths))
           ATTR_CURRENT_TEMPERATURE [failed_send] _ (or_introl eq_refl) Hcurrent).
Defined.

(** ** The further properties at concrete inputs *)

Lemma booted_well_formed :
  well_formed "Anova" "F4:5E:AB:12:34:56" (data booted).
Proof. by apply (setup_well_formed "Anova" "F4:5E:AB:12:34:56" TEMP_CELSIUS). Defined.


(** A request for 120 degrees on a Celsius entity is staged as 99. *)
Lemma set_temperature_within_bounds_witness :
  exists r,
    set_temperature celsius_to {[ATTR_TEMPERATURE := 120%float]} booted =
      (Ok tt, after_request ATTR_CTL_TARGET_TEMPERATURE ATTR_TARGET_TEMPERATURE
                (PFloat r) booted) /\
    (float_of_Z 0 <=? r)%float = true /\ (r <=? float_of_Z 99)%float = true /\
    ((float_of_Z 0 <=? 120)%float = true -> (120 <=? float_of_Z 99)%float = true ->
     r = 120%float) /\
    ((120 <? float_of_Z 0)%float = true -> r = float_of_Z 0) /\
    ((120 <? float_of_Z 0)%float = false -> (float_of_Z 99 <? 120)%float = true ->
     r = float_of_Z 99).
Proof.
  apply (set_temperature_within_bounds celsius_to {[ATTR_TEMPERATURE := 120%float]}
           120%float (PStr TEMP_CELSIUS) (float_of_Z 0) (float_of_Z 99) booted);
    vm_compute; reflexivity.
Defined.

(** A request for a NaN is staged as it is. *)
Lemma set_temperature_nan_unclamped_witness :
  set_temperature celsius_to {[ATTR_TEMPERATURE := nan]} booted =
    (Ok tt, after_request ATTR_CTL_TARGET_TEMPERATURE ATTR_TARGET_TEMPERATURE
              (PFloat nan) booted) /\
  pending (data (set_temperature celsius_to {[ATTR_TEMPERATURE := nan]} booted).2) =
    [data booted !! ATTR_CTL_TEMPERATURE_UNIT; Some (PFloat nan);
     data booted !! ATTR_CTL_HVAC_MODE].
Proof.
  apply (set_temperature_nan_unclamped celsius_to {[ATTR_TEMPERATURE := nan]}
           nan (PStr TEMP_CELSIUS) (float_of_Z 0) (float_of_Z 99) booted);
    vm_compute; reflexivity.
Defined.

(** The connection of [lost_connection] polls the unit once. *)
Lemma unit_polled_once_per_connection_witness :
  exists evs,
    trace (connected_loop float_of_decimal str_of_tenths (ticks lost_connection)
             MON_GET_TEMPERATURE_UNIT booted).2 = trace booted ++ evs /\
    (unit_polls evs <= 1)%nat /\
    (MON_GET_TEMPERATURE_UNIT <> MON_GET_TEMPERATURE_UNIT -> unit_polls evs = 0%nat).
Proof.
  apply (unit_polled_once_per_connection float_of_decimal str_of_tenths
           (ticks lost_connection) MON_GET_TEMPERATURE_UNIT booted).
  - exact booted_has_keys.
  - reflexivity.
Defined.

(** A run in which a connection is lost and the transport then dies. *)
Lemma run_never_raises_witness :
  exists e m',
    run float_of_decimal str_of_tenths [lost_connection; transport_died] boot =
      (Ok e, m') /\
    (e = Returned ->
     keep_going m' = false /\
     (~ is_available (data boot) -> ~ is_available (data m'))).
Proof.
  apply (run_never_raises float_of_decimal str_of_tenths
           [lost_connection; transport_died] boot).
  exact booted_has_keys.
Defined.

(** A run in which two connections are lost: the thread is still there. *)
Lemma recoverable_faults_keep_running_witness :
  exists m',
    run float_of_decimal str_of_tenths [lost_connection; failed_send; reconnected] boot =
      (Ok Running, m') /\
    keep_going m' = true.
Proof.
  apply (recoverable_faults_keep_running float_of_decimal str_of_tenths
           [lost_connection; failed_send; reconnected] boot).
  - exact booted_has_keys.
  - reflexivity.
  - reflexivity.
Defined.

(** Two requests on the monitor of [warmed_state]. *)
Lemma last_request_wins_witness :
  let m := (run float_of_decimal str_of_tenths [warming] boot).2 in
  (forall first second,
     let m2 := arrive (RequestSetTemperature second)
                 (arrive (RequestSetTemperature first) m) in
     exists r m' evs,
       loop_body float_of_decimal str_of_tenths (Reply "61.0") MON_GET_STATUS m2 = (r, m') /\
       trace m' = trace m2 ++ evs /\
       calls evs = [OpSetTemperature (PFloat second)] /\
       (forall rsp, Reply "61.0" = Reply rsp ->
          r = Ok MON_GET_STATUS /\
          pending (data m') = [Some PNone; Some PNone; data m !! ATTR_CTL_HVAC_MODE])) /\
  (forall first second,
     data m !! ATTR_CTL_TARGET_TEMPERATURE = Some PNone ->
     let m2 := arrive (RequestSetHvacMode second)
                 (arrive (RequestSetHvacMode first) m) in
     exists r m' evs,
       loop_body float_of_decimal str_of_tenths (Reply "61.0") MON_GET_STATUS m2 = (r, m') /\
       trace m' = trace m2 ++ evs /\
       calls evs = [if String.eqb second HVAC_MODE_HEAT then OpStart else OpStop] /\
       (forall rsp, Reply "61.0" = Reply rsp ->
          r = Ok MON_GET_STATUS /\
          pending (data m') = [Some PNone; Some PNone; Some PNone])).
Proof.
  cbn zeta. destruct warmed_state as (Hkeys & _ & _ & _ & Hdev).
  apply (last_request_wins float_of_decimal str_of_tenths (Reply "61.0") MON_GET_STATUS
           _ Hkeys Hdev).
  vm_compute. reflexivity.
Defined.

(** A request to heat on that monitor, and the device's answer. *)
Lemma hvac_mode_echo_witness :
  let m := (run float_of_decimal str_of_tenths [warming] boot).2 in
  let m1 := (request_set_hvac_mode HVAC_MODE_HEAT m).2 in
  exists m2,
    dispatch float_of_decimal str_of_tenths (Reply CTL_START) MON_GET_STATUS m1 =
      (Ok MON_GET_STATUS, m2) /\
    calls (trace m2) = calls (trace m) ++ [OpStart] /\
    data m2 !! ATTR_HVAC_MODE = Some (PStr HVAC_MODE_HEAT) /\
    data m2 !! ATTR_CTL_HVAC_MODE = Some PNone.
Proof.
  cbn zeta. destruct warmed_state as (Hkeys & _ & _ & _ & Hdev).
  apply (hvac_mode_echo float_of_decimal str_of_tenths HVAC_MODE_HEAT CTL_START
           MON_GET_STATUS _ Hkeys Hdev); vm_compute; reflexivity.
Defined.


(** The entity at start-up. *)
Lemma entity_reads_well_formed_witness :
  dom (data booted) = list_to_set KEYS /\
  unique_id booted = (Ok (PStr "F4:5E:AB:12:34:56"), booted) /\
  name booted = (Ok (PStr "Anova"), booted) /\
  (exists b, available booted = (Ok (PBool b), booted)) /\
  (exists u,
     (u = TEMP_CELSIUS \/ u = TEMP_FAHRENHEIT) /\
     temperature_unit booted = (Ok (PStr u), booted) /\
     target_temperature_step booted =
       (Ok (if String.eqb u TEMP_CELSIUS then PRECISION_HALVES else PRECISION_WHOLE),
        booted) /\
     min_temp celsius_to booted =
       (celsius_to DEFAULT_MIN_TEMP TEMP_CELSIUS (PStr u), booted) /\
     max_temp celsius_to booted =
       (celsius_to DEFAULT_MAX_TEMP TEMP_CELSIUS (PStr u), booted)) /\
  (exists v, none_or is_float v = true /\ current_temperature booted = (Ok v, booted)) /\
  (exists v, none_or is_float v = true /\ target_temperature booted = (Ok v, booted)) /\
  (exists v, none_or is_str v = true /\ hvac_mode booted = (Ok v, booted)).
Proof.
  exact (entity_reads_well_formed celsius_to "Anova" "F4:5E:AB:12:34:56" booted
           booted_well_formed).
Defined.


(** After the connection of [lost_connection] the entity is unavailable. *)
Lemma unavailable_after_connection_witness :
  exists e m',
    session float_of_decimal str_of_tenths lost_connection booted = (Ok e, m') /\
    match e with
    | Connected _ => True
    | _ => ~ is_available (data m')
    end.
Proof.
  apply (unavailable_after_connection float_of_decimal str_of_tenths
           lost_connection booted).
  - exact booted_has_keys.
  - reflexivity.
Defined.

(** A call that names no temperature. *)
Lemma set_temperature_all_or_nothing_witness :
  set_temperature celsius_to ∅ booted = (Ok tt, booted).
Proof.
  apply (proj1 (set_temperature_all_or_nothing celsius_to) ∅ booted). reflexivity.
Defined.

(** [terminate] lands before a pass. *)
Lemma terminate_ends_the_loops_witness :
  let m' := foldl (fun m c => arrive c m) booted [Terminate] in
  connected_loop float_of_decimal str_of_tenths [Tick [Terminate] (Reply "")]
    MON_GET_STATUS booted = (Ok LoopLeft, m') /\
  actions (trace m') = actions (trace booted) /\ keep_going m' = false.
Proof.
  apply (proj1 (terminate_ends_the_loops float_of_decimal str_of_tenths)
           [Terminate] (Reply "") [] MON_GET_STATUS booted).
  right. apply list_elem_of_here.
Defined.

(** The echo of a request for 60 degrees. *)
Lemma target_echo_only_confirms_witness :
  let m := (request_set_temperature 60 booted).2 in
  data (set_target_temperature str_of_tenths (PFloat 60) (Reply "60.0") m).2 = data m.
Proof.
  cbn zeta.
  apply (proj2 (target_echo_only_confirms str_of_tenths (PFloat 60) (Reply "60.0")
                  (request_set_temperature 60 booted).2)).
  vm_compute. reflexivity.
Defined.
